(** * OpsIntel dashboard: TTL caches, data fingerprint, insight fallback chain
      and aggregation handler, embedded from the TypeScript sources.

    Conventions of the embedding.
    - [Date.now()] and ISO time stamps are integers (milliseconds); the round
      trip [new Date(t.toISOString()).getTime()] is the identity on them.
    - A JavaScript [Map] is an association list in insertion order with
      unique keys: [set] on an existing key keeps its position, [set] on a
      new key appends, [values()] iterates in insertion order.
    - Finite JavaScript numbers are rationals ([Q]); comparisons on them are
      exact, and [Math.round x] is [floor (x + 1/2)].
    - A function that may throw returns [exn + A]; [try]/[catch] is a match.
    - Mutable module-level caches are threaded explicitly. *)

From Stdlib Require Import ZArith QArith Qround Qabs Qfield Lqa List String Ascii Bool Lia.
Import ListNotations.
Open Scope string_scope.
Open Scope Z_scope.

Set Implicit Arguments.

(* ------------------------------------------------------------------ *)
(** ** JavaScript [Map<string, V>] *)

Module JsMap.
Section Ops.
Context {V : Type}.

Definition t := list (string * V).

Definition empty : t := [].

Fixpoint get (m : t) (k : string) : option V :=
    match m with
    | [] => None
    | (k', v) :: m' => if String.eqb k' k then Some v else get m' k
    end.

Definition has (m : t) (k : string) : bool :=
    match get m k with Some _ => true | None => false end.

  (** [Map.prototype.set]: an existing key keeps its place in the order. *)
Fixpoint set (m : t) (k : string) (v : V) : t :=
    match m with
    | [] => [(k, v)]
    | (k', v') :: m' =>
        if String.eqb k' k then (k, v) :: m' else (k', v') :: set m' k v
    end.

Fixpoint delete (m : t) (k : string) : t :=
    match m with
    | [] => []
    | (k', v) :: m' =>
        if String.eqb k' k then delete m' k else (k', v) :: delete m' k
    end.

Definition values (m : t) : list V := map snd m.
Definition keys (m : t) : list string := map fst m.
Definition size (m : t) : nat := List.length m.
End Ops.
Arguments t : clear implicits.
End JsMap.

(* ------------------------------------------------------------------ *)
(** ** [SimpleCache] (fetchFred.ts, fetchEia.ts, fetchWeather.ts) *)

Module SimpleCache.
Section Ops.
Context {V : Type}.

Record item := { data : V; expires : Z }.

Definition t := JsMap.t item.

  (** [set(key, data, ttlMs)] at clock reading [now]. *)
Definition set (c : t) (now : Z) (key : string) (d : V) (ttlMs : Z) : t :=
    JsMap.set c key {| data := d; expires := now + ttlMs |}.

  (** [get(key)] at clock reading [now]: the value ([None] is [null]) and
      the cache after the call. *)
Definition get (c : t) (now : Z) (key : string) : option V * t :=
    match JsMap.get c key with
    | None => (None, c)
    | Some it =>
        if now >? expires it then (None, JsMap.delete c key)
        else (Some (data it), c)
    end.
End Ops.
Arguments item : clear implicits.
Arguments t : clear implicits.
End SimpleCache.

(* ------------------------------------------------------------------ *)
(** ** Values, numbers and strings of the JavaScript runtime *)

(** Untyped values ([any]); [JObj] lists own data properties. A number
    is an exact rational: the rounding of binary floating point and the
    infinities are outside the model, and NaN appears only as the [None]
    of the functions that can produce it. *)
#[warnings="-register-all"]
Inductive jsval :=
| JUndefined
| JNull
| JBool (b : bool)
| JNum (q : Q)
| JStr (s : string)
| JArr (items : list jsval)
| JObj (fields : list (string * jsval)).

(** Library functions of the runtime that the sources call and whose
    definition lies outside the repository. *)
Class JsRuntime := {
  md5_hex : string -> string;            (* crypto md5, hex digest *)
  sha1_hex : string -> string;           (* crypto sha1, hex digest *)
  JSON_parse : string -> option jsval;   (* [None]: SyntaxError *)
  Number_toString : Q -> string;
  String_trim : string -> string;
  String_substring0 : string -> nat -> string;  (* s.substring(0, n) *)
  parseFloat : string -> option Q;       (* [None]: NaN *)
  Date_getTime : string -> option Z;     (* new Date(s).getTime(); [None]: NaN *)
  toFixed1 : Q -> string;                (* x.toFixed(1) *)
  localeCompare : string -> string -> Z
}.

Inductive exn :=
| Error (msg : string)
| HttpError (api : string) (status : Z) (statusText : string)
| TypeError (msg : string)
| SyntaxError
| AbortError.

Definition dquote : string := String "034"%char EmptyString.

Module Js.
Definition Math_round (x : Q) : Z := Qfloor (x + (1 # 2))%Q.

Definition Qlt_bool (x y : Q) : bool := negb (Qle_bool y x).

(** [Array.prototype.sort(cmp)]: stable; [cmp a b > 0] puts [a] after [b].
    The order is the specified one when [cmp] is a consistent comparator. *)
Fixpoint insert_by {A} (cmp : A -> A -> Z) (x : A) (l : list A) : list A :=
  match l with
  | [] => [x]
  | y :: r => if cmp x y >? 0 then y :: insert_by cmp x r else x :: l
  end.

Definition sort_by {A} (cmp : A -> A -> Z) (l : list A) : list A :=
  fold_right (insert_by cmp) [] l.

Definition truthy (v : jsval) : bool :=
    match v with
    | JUndefined | JNull => false
    | JBool b => b
    | JNum q => negb (Qeq_bool q 0)
    | JStr s => negb (String.eqb s EmptyString)
    | JArr _ | JObj _ => true
    end.

Definition typeof (v : jsval) : string :=
    match v with
    | JUndefined => "undefined"
    | JNull => "object"
    | JBool _ => "boolean"
    | JNum _ => "number"
    | JStr _ => "string"
    | JArr _ | JObj _ => "object"
    end.

Fixpoint lookup (fs : list (string * jsval)) (k : string) : option jsval :=
    match fs with
    | [] => None
    | (k', v) :: r => if String.eqb k' k then Some v else lookup r k
    end.

  (** Property read [v.k] for the data properties the sources read
      (none of them exists on a primitive or on an array). The sources
      guard every read of a possibly null or undefined receiver. *)
Definition prop (v : jsval) (k : string) : jsval :=
    match v with
    | JObj fs => match lookup fs k with Some x => x | None => JUndefined end
    | _ => JUndefined
    end.

  (** [s.includes(sub)] *)
Fixpoint includes (s sub : string) : bool :=
    String.prefix sub s ||
    match s with
    | EmptyString => false
    | String _ r => includes r sub
    end.

Fixpoint from_first (c : ascii) (s : string) : option string :=
    match s with
    | EmptyString => None
    | String a r => if Ascii.eqb a c then Some s else from_first c r
    end.

Fixpoint upto_last (c : ascii) (s : string) : option string :=
    match s with
    | EmptyString => None
    | String a r =>
        match upto_last c r with
        | Some p => Some (String a p)
        | None => if Ascii.eqb a c then Some (String a EmptyString) else None
        end
    end.

  (** [s.match(/\{[\s\S]*\}/)]: from the first opening brace to the last
      closing brace after it. *)
Definition match_braces (s : string) : option string :=
    match from_first "{"%char s with
    | Some (String a r) =>
        match upto_last "}"%char r with
        | Some p => Some (String a p)
        | None => None
        end
    | _ => None
    end.

Fixpoint insert_sorted (x : string) (l : list string) : list string :=
    match l with
    | [] => [x]
    | y :: r => if String.ltb x y then x :: l else y :: insert_sorted x r
    end.

  (** [Array.prototype.sort()] on strings (code-unit order). *)
Definition sort_strings (l : list string) : list string :=
    fold_right insert_sorted [] l.

Fixpoint join (sep : string) (l : list string) : string :=
    match l with
    | [] => EmptyString
    | [x] => x
    | x :: r => x ++ sep ++ join sep r
    end.

Definition hex_digit (n : N) : ascii :=
    match n with
    | 0%N => "0" | 1%N => "1" | 2%N => "2" | 3%N => "3" | 4%N => "4"
    | 5%N => "5" | 6%N => "6" | 7%N => "7" | 8%N => "8" | 9%N => "9"
    | 10%N => "a" | 11%N => "b" | 12%N => "c" | 13%N => "d" | 14%N => "e"
    | _ => "f"
    end%char.

Definition quote_char (a : ascii) : string :=
    let n := N_of_ascii a in
    if (n =? 34)%N then String "\"%char dquote
    else if (n =? 92)%N then "\\"
    else if (n =? 8)%N then "\b"
    else if (n =? 9)%N then "\t"
    else if (n =? 10)%N then "\n"
    else if (n =? 12)%N then "\f"
    else if (n =? 13)%N then "\r"
    else if (n <? 32)%N then
      "\u00" ++ String (hex_digit (n / 16)) (String (hex_digit (n mod 16)) EmptyString)
    else String a EmptyString.

  (** [QuoteJSONString] on a well-formed string. *)
Definition QuoteJSONString (s : string) : string :=
    dquote ++ String.concat EmptyString (map quote_char (list_ascii_of_string s)) ++ dquote.

Section Stringify.
Context `{JsRuntime}.

    (** [SerializeJSONProperty] of [JSON.stringify(value, K)] with an array
        replacer [K]: the property list [K] (free of duplicates) selects and
        orders the properties of every object, nested ones included; a key
        of [K] that an object lacks reads as undefined and is left out. *)
Fixpoint SerializeJSONProperty (K : list string) (v : jsval) : option string :=
      match v with
      | JUndefined => None
      | JNull => Some "null"
      | JBool true => Some "true"
      | JBool false => Some "false"
      | JNum q => Some (Number_toString q)
      | JStr s => Some (QuoteJSONString s)
      | JArr l =>
          Some ("[" ++ join ","
                  (map (fun x => match SerializeJSONProperty K x with
                                 | Some s => s
                                 | None => "null"
                                 end) l) ++ "]")
      | JObj fs =>
          let ser :=
            (fix go (fs : list (string * jsval)) : list (string * option string) :=
               match fs with
               | [] => []
               | (k, x) :: r => (k, SerializeJSONProperty K x) :: go r
               end) fs in
          let find k :=
            (fix look (l : list (string * option string)) : option string :=
               match l with
               | [] => None
               | (k', s) :: r => if String.eqb k' k then s else look r
               end) ser in
          Some ("{" ++ join ","
                  (flat_map (fun k => match find k with
                                      | Some s => [QuoteJSONString k ++ ":" ++ s]
                                      | None => []
                                      end) K) ++ "}")
      end.

Definition JSON_stringify (v : jsval) (replacer : list string) : option string :=
      SerializeJSONProperty replacer v.
End Stringify.

Definition Object_keys (v : jsval) : list string :=
    match v with
    | JObj fs => map fst fs
    | _ => []
    end.
End Js.

(* ------------------------------------------------------------------ *)
(** ** Metric types *)

Module ProductionData.
Record t := mk { index : Q; trend : string }.
End ProductionData.

Inductive Trend := up | down | stable.

Definition Trend_string (t : Trend) : string :=
  match t with up => "up" | down => "down" | stable => "stable" end.

Definition Trend_eqb (a b : Trend) : bool :=
  match a, b with
  | up, up | down, down | stable, stable => true
  | _, _ => false
  end.

Module EnergyData.
Record t := mk { centsPerKwh : Q; trend : Trend }.
End EnergyData.

Module WeatherData.
Record t := mk { temp : Q; alert : string }.
End WeatherData.

Module InsightInput.
Record t := mk {
  production : ProductionData.t;
  energy : EnergyData.t;
  weather : WeatherData.t
}.
End InsightInput.

Module InsightResponse.
Record t := mk { summary : string; recommendation : string }.
End InsightResponse.

(** HTTP exchange with an upstream API: the promise of [fetch] either
    rejects (network error, or the abort of [AbortSignal.timeout]) or
    resolves to a response whose body may or may not be JSON of the
    interface the source declares for it. *)
Module Http.
Record Response (B : Type) := {
  status : Z;
  statusText : string;
  json : option B          (* [None]: response.json() rejects *)
}.

Definition ok {B} (r : Response B) : bool :=
  (200 <=? status r) && (status r <=? 299).

Inductive outcome (B : Type) :=
| Rejected (e : exn)
| Resolved (r : Response B).
Arguments Rejected {B} e.
Arguments Resolved {B} r.
End Http.

(* ------------------------------------------------------------------ *)
(** ** fetchInsight.ts *)

Module FetchInsight.

(** class InsightCache *)
Module InsightCache.
Record item := { data : InsightResponse.t; expires : Z }.

Definition t := JsMap.t item.

Definition CACHE_TTL : Z := 30 * 60 * 1000.

Definition set (c : t) (now : Z) (key : string) (d : InsightResponse.t) : t :=
  JsMap.set c key {| data := d; expires := now + CACHE_TTL |}.

Definition get (c : t) (now : Z) (key : string) : option InsightResponse.t * t :=
  match JsMap.get c key with
  | None => (None, c)
  | Some it =>
      if now >? expires it then (None, JsMap.delete c key)
      else (Some (data it), c)
  end.

Definition clear (c : t) : t := JsMap.empty.
End InsightCache.

Section WithRuntime.
Context `{JsRuntime}.

Definition normalizedData (d : InsightInput.t) : jsval :=
  let p := InsightInput.production d in
  let e := InsightInput.energy d in
  let w := InsightInput.weather d in
  JObj [
    ("production", JObj [
       ("index", JNum (inject_Z (Js.Math_round (ProductionData.index p * 10)) / 10)%Q);
       ("trend", JStr (ProductionData.trend p))]);
    ("energy", JObj [
       ("centsPerKwh", JNum (inject_Z (Js.Math_round (EnergyData.centsPerKwh e * 100)) / 100)%Q);
       ("trend", JStr (Trend_string (EnergyData.trend e)))]);
    ("weather", JObj [
       ("temp", JNum (inject_Z (Js.Math_round (WeatherData.temp w / 5) * 5))%Q);
       ("alert", JStr (WeatherData.alert w))])
  ].

(** The string handed to the digest. [JSON.stringify] of an object never
    yields undefined, hence the default is not reached. *)
Definition dataString (d : InsightInput.t) : string :=
  let nd := normalizedData d in
  match Js.JSON_stringify nd (Js.sort_strings (Js.Object_keys nd)) with
  | Some s => s
  | None => "undefined"
  end.

Definition generateDataHash (d : InsightInput.t) : string :=
  md5_hex (dataString d).

Definition validateInputData (data : jsval) : bool :=
  if negb (Js.truthy data) || negb (String.eqb (Js.typeof data) "object") then false
  else
    let production := Js.prop data "production" in
    let energy := Js.prop data "energy" in
    let weather := Js.prop data "weather" in
    if negb (Js.truthy production)
       || negb (String.eqb (Js.typeof (Js.prop production "index")) "number")
       || negb (String.eqb (Js.typeof (Js.prop production "trend")) "string")
    then false
    else if negb (Js.truthy energy)
       || negb (String.eqb (Js.typeof (Js.prop energy "centsPerKwh")) "number")
       || negb (existsb (fun x => match Js.prop energy "trend" with
                                  | JStr s => String.eqb x s
                                  | _ => false
                                  end) ["up"; "down"; "stable"])
    then false
    else if negb (Js.truthy weather)
       || negb (String.eqb (Js.typeof (Js.prop weather "temp")) "number")
       || negb (String.eqb (Js.typeof (Js.prop weather "alert")) "string")
    then false
    else true.

(** The typed view that the type guard [data is InsightInput] grants once
    [validateInputData] has answered true; the defaults below are not
    reached on such a value. *)
Definition as_number (v : jsval) : Q :=
  match v with JNum q => q | _ => 0%Q end.

Definition as_string (v : jsval) : string :=
  match v with JStr s => s | _ => EmptyString end.

Definition as_Trend (v : jsval) : Trend :=
  match v with
  | JStr s => if String.eqb s "up" then up
              else if String.eqb s "down" then down else stable
  | _ => stable
  end.

Definition as_InsightInput (data : jsval) : InsightInput.t :=
  let production := Js.prop data "production" in
  let energy := Js.prop data "energy" in
  let weather := Js.prop data "weather" in
  InsightInput.mk
    (ProductionData.mk (as_number (Js.prop production "index"))
                       (as_string (Js.prop production "trend")))
    (EnergyData.mk (as_number (Js.prop energy "centsPerKwh"))
                   (as_Trend (Js.prop energy "trend")))
    (WeatherData.mk (as_number (Js.prop weather "temp"))
                    (as_string (Js.prop weather "alert"))).

Definition parseClaudeResponse (responseText : string) : option InsightResponse.t :=
  let jsonMatch :=
    match Js.match_braces responseText with
    | Some m => m
    | None => responseText
    end in
  match JSON_parse jsonMatch with
  | None => None                                   (* caught SyntaxError *)
  | Some parsed =>
      match Js.prop parsed "summary", Js.prop parsed "recommendation" with
      | JStr summary, JStr recommendation =>
          Some (InsightResponse.mk
                  (String_substring0 (String_trim summary) 200)
                  (String_substring0 (String_trim recommendation) 300))
      | _, _ => None
      end
  end.

(** Body of the Claude messages API as far as the source reads it. *)
Record ClaudeApiResponse := { content : option (list string) (* content[i].text *) }.

(** [result.content?.[0]?.text || ''] *)
Definition firstText (result : ClaudeApiResponse) : string :=
  match content result with
  | Some (text :: _) => text
  | _ => EmptyString
  end.

(** Effects of [analyzeInsight] on its surroundings, in program order. *)
Inductive effect :=
| CacheGet (key : string)
| CacheSet (key : string)
| CacheValues
| ClaudeFetch.

Definition invalidInput : InsightResponse.t :=
  InsightResponse.mk
    "Invalid data provided for analysis."
    "Please ensure all required data fields are present and valid.".

(** The contextual fallback computed in the [catch] block. *)
Definition contextualFallback (d : InsightInput.t) : InsightResponse.t :=
  let summary := "Data analysis temporarily unavailable" in
  let recommendation := "Monitor key metrics and adjust operations as needed" in
  let '(summary, recommendation) :=
    if Qle_bool 100 (WeatherData.temp (InsightInput.weather d)) then
      ("Extreme heat conditions detected",
       "Consider shifting operations to cooler hours to reduce energy costs")
    else if Trend_eqb (EnergyData.trend (InsightInput.energy d)) up then
      ("Energy costs trending upward",
       "Optimize energy usage and consider off-peak scheduling")
    else if negb (String.eqb (WeatherData.alert (InsightInput.weather d)) "none") then
      ("Weather alert active",
       "Monitor weather conditions and prepare contingency plans")
    else if Js.includes (ProductionData.trend (InsightInput.production d)) "↓" then
      ("Production index declining",
       "Review production processes and identify improvement opportunities")
    else if Js.includes (ProductionData.trend (InsightInput.production d)) "↑" then
      ("Production performing well",
       "Maintain current efficiency while monitoring energy costs")
    else (summary, recommendation) in
  InsightResponse.mk summary recommendation.

(** The [try] block: the value returned, or the exception thrown, with the
    effects performed and the cache afterwards. [t_set] is the clock when
    the response has arrived. *)
Definition tryClaude (dataHash : string) (t_set : Z)
    (CLAUDE_API_KEY : option string)
    (claude : Http.outcome ClaudeApiResponse)
    (c : InsightCache.t)
  : (exn + InsightResponse.t) * InsightCache.t * list effect :=
  match CLAUDE_API_KEY with
  | None => (inl (Error "CLAUDE_API_KEY environment variable is required"), c, [])
  | Some claudeApiKey =>
    if String.eqb claudeApiKey EmptyString then
      (inl (Error "CLAUDE_API_KEY environment variable is required"), c, [])
    else
      match claude with
      | Http.Rejected e => (inl e, c, [ClaudeFetch])
      | Http.Resolved response =>
          if negb (Http.ok response) then
            if Http.status response =? 401 then
              (inl (Error "Invalid Claude API key"), c, [ClaudeFetch])
            else if Http.status response =? 429 then
              (inl (Error "Claude API rate limit exceeded"), c, [ClaudeFetch])
            else
              (inl (HttpError "Claude" (Http.status response) (Http.statusText response)),
               c, [ClaudeFetch])
          else
            match Http.json response with
            | None => (inl SyntaxError, c, [ClaudeFetch])
            | Some result =>
                match parseClaudeResponse (firstText result) with
                | Some parsedInsight =>
                    (inr parsedInsight,
                     InsightCache.set c t_set dataHash parsedInsight,
                     [ClaudeFetch; CacheSet dataHash])
                | None =>
                    (inl (Error "Invalid response format from Claude API"), c, [ClaudeFetch])
                end
            end
      end
  end.

(** [analyzeInsight(data)]: [t_get] is the clock at the cache lookup. *)
Definition analyzeInsight (data : jsval) (t_get t_set : Z)
    (CLAUDE_API_KEY : option string)
    (claude : Http.outcome ClaudeApiResponse)
    (c : InsightCache.t)
  : InsightResponse.t * InsightCache.t * list effect :=
  if negb (validateInputData data) then (invalidInput, c, [])
  else
    let d := as_InsightInput data in
    let dataHash := generateDataHash d in
    let '(cachedInsight, c1) := InsightCache.get c t_get dataHash in
    match cachedInsight with
    | Some cached => (cached, c1, [CacheGet dataHash])
    | None =>
        match tryClaude dataHash t_set CLAUDE_API_KEY claude c1 with
        | (inr parsedInsight, c2, eff) => (parsedInsight, c2, CacheGet dataHash :: eff)
        | (inl _, c2, eff) =>
            match JsMap.values c2 with
            | anyCached :: _ =>
                (InsightCache.data anyCached, c2, CacheGet dataHash :: eff ++ [CacheValues])
            | [] =>
                (contextualFallback d, c2, CacheGet dataHash :: eff ++ [CacheValues])
            end
        end
    end.

End WithRuntime.
End FetchInsight.

(* ------------------------------------------------------------------ *)
(** ** Exceptions in straight-line code *)

Definition throw {A} (e : exn) : exn + A := inl e.

Notation "'do' x <- e ; k" :=
  (match e with inl err => inl err | inr x => k end)
  (at level 10, x pattern, e at level 100, k at level 200, only parsing).

Notation "'check' b 'else_throw' e ; k" :=
  (if b then k else inl e)
  (at level 10, b at level 100, e at level 100, k at level 200, only parsing).

(* ------------------------------------------------------------------ *)
(** ** fetchFred.ts *)

Module FetchFred.
Record FredObservation := { date : string; value : string }.
Record FredResponse := { observations : option (list FredObservation) }.

Definition CACHE_TTL : Z := 60 * 60 * 1000.
Definition CACHE_KEY : string := "fred_production_index".

Definition fallback : ProductionData.t :=
  ProductionData.mk (1024 # 10) "→ Data unavailable".

Section WithRuntime.
Context `{JsRuntime}.

Definition byDateDesc (a b : FredObservation) : Z :=
  match Date_getTime (date b), Date_getTime (date a) with
  | Some tb, Some ta => tb - ta
  | _, _ => 0                       (* NaN counts as +0 *)
  end.

Definition trendOf (latestValue : Q) (validObservations : list FredObservation) : string :=
  match validObservations with
  | _ :: second :: _ =>
      match parseFloat (value second) with
      | Some previousValue =>
          if negb (Qeq_bool previousValue 0) then
            let percentChange := (((latestValue - previousValue) / previousValue) * 100)%Q in
            let sign := if Js.Qlt_bool 0 percentChange then "↑"
                        else if Js.Qlt_bool percentChange 0 then "↓" else "→" in
            sign ++ " " ++ toFixed1 (Qabs percentChange) ++ "% MoM"
          else "→ No data"
      | None => "→ No data"
      end
  | _ => "→ No data"
  end.

(** The [try] block up to, not including, [cache.set]. *)
Definition tryFetch (upstream : Http.outcome FredResponse) : exn + ProductionData.t :=
  match upstream with
  | Http.Rejected e => throw e
  | Http.Resolved response =>
      check Http.ok response
        else_throw HttpError "FRED" (Http.status response) (Http.statusText response);
      do data <- match Http.json response with
                 | Some d => inr d
                 | None => throw SyntaxError
                 end;
      do obs <- match observations data with
                | None | Some [] => throw (Error "No production data available from FRED API")
                | Some l => inr l
                end;
      let validObservations :=
        Js.sort_by byDateDesc
          (filter (fun o => negb (String.eqb (value o) ".")) obs) in
      match validObservations with
      | [] => throw (Error "No valid production data available")
      | first :: _ =>
          match parseFloat (value first) with
          | None => throw (Error "Invalid production index value received")
          | Some latestValue =>
              inr (ProductionData.mk
                     (inject_Z (Js.Math_round (latestValue * 10)) / 10)%Q
                     (trendOf latestValue validObservations))
          end
      end
  end.

(** [getProductionIndex()]: [t0] is the clock at the cache lookup, [t1]
    the clock when the response has been processed. *)
Definition getProductionIndex (t0 t1 : Z) (FRED_API_KEY : option string)
    (upstream : Http.outcome FredResponse)
    (cache : SimpleCache.t ProductionData.t)
  : (exn + ProductionData.t) * SimpleCache.t ProductionData.t :=
  match SimpleCache.get cache t0 CACHE_KEY with
  | (Some cachedData, cache1) => (inr cachedData, cache1)
  | (None, cache1) =>
      match FRED_API_KEY with
      | None => (throw (Error "FRED_API_KEY environment variable is required"), cache1)
      | Some apiKey =>
          if String.eqb apiKey EmptyString then
            (throw (Error "FRED_API_KEY environment variable is required"), cache1)
          else
            match tryFetch upstream with
            | inr result =>
                (inr result, SimpleCache.set cache1 t1 CACHE_KEY result CACHE_TTL)
            | inl _ => (inr fallback, cache1)
            end
      end
  end.
End WithRuntime.
End FetchFred.

(* ------------------------------------------------------------------ *)
(** ** fetchEia.ts *)

Module FetchEia.
Record EiaDataPoint := {
  period : string;
  value : option Q          (* [None]: null, missing or NaN *)
}.
Record EiaSeries := { data : option (list EiaDataPoint) }.
Record EiaEnvelope := { series : option (list EiaSeries) (* response.data *) }.
Record EiaResponse := { response : option EiaEnvelope }.

Definition CACHE_TTL : Z := 10 * 60 * 1000.
Definition CACHE_KEY : string := "eia_texas_electricity_price".

Definition fallback : EnergyData.t := EnergyData.mk (125 # 10) stable.

Section WithRuntime.
Context `{JsRuntime}.

Definition byPeriodDesc (a b : EiaDataPoint) : Z :=
  localeCompare (period b) (period a).

Definition isValidPoint (point : EiaDataPoint) : bool :=
  match value point with Some _ => true | None => false end.

Definition priceOf (point : EiaDataPoint) : Q :=
  match value point with Some v => v | None => 0%Q end.

Definition trendOf (latestPrice : Q) (sortedData : list EiaDataPoint) : Trend :=
  match sortedData with
  | _ :: second :: _ =>
      let previousPrice := priceOf second in
      if Js.Qlt_bool 0 previousPrice then
        let percentChange := (((latestPrice - previousPrice) / previousPrice) * 100)%Q in
        if Js.Qlt_bool 2 percentChange then up
        else if Js.Qlt_bool percentChange (-2) then down
        else stable
      else stable
  | _ => stable
  end.

Definition tryFetch (upstream : Http.outcome EiaResponse) : exn + EnergyData.t :=
  match upstream with
  | Http.Rejected e => throw e
  | Http.Resolved resp =>
      check Http.ok resp
        else_throw (if Http.status resp =? 429
                    then Error "EIA API rate limit exceeded. Please try again later."
                    else if Http.status resp =? 403
                    then Error "Invalid EIA API key or access denied"
                    else HttpError "EIA" (Http.status resp) (Http.statusText resp));
      do body <- match Http.json resp with
                 | Some d => inr d
                 | None => throw SyntaxError
                 end;
      do first <- match response body with
                  | Some {| series := Some (s :: _) |} => inr s
                  | _ => throw (Error "No electricity pricing data available from EIA API")
                  end;
      do priceData <- match data first with
                      | None | Some [] => throw (Error "No valid pricing observations found")
                      | Some l => inr l
                      end;
      let sortedData := Js.sort_by byPeriodDesc (filter isValidPoint priceData) in
      match sortedData with
      | [] => throw (Error "No valid pricing data points available")
      | latest :: _ =>
          let latestPrice := priceOf latest in
          (* [isNaN(latestPrice)] is excluded by the filter; [latestPrice <= 0] remains *)
          check Js.Qlt_bool 0 latestPrice
            else_throw Error "Invalid electricity price value received";
          inr (EnergyData.mk
                 (inject_Z (Js.Math_round (latestPrice * 100)) / 100)%Q
                 (trendOf latestPrice sortedData))
      end
  end.

Definition getEnergyPrice (t0 t1 : Z) (EIA_API_KEY : option string)
    (upstream : Http.outcome EiaResponse)
    (cache : SimpleCache.t EnergyData.t)
  : (exn + EnergyData.t) * SimpleCache.t EnergyData.t :=
  match SimpleCache.get cache t0 CACHE_KEY with
  | (Some cachedData, cache1) => (inr cachedData, cache1)
  | (None, cache1) =>
      match EIA_API_KEY with
      | None => (throw (Error "EIA_API_KEY environment variable is required"), cache1)
      | Some apiKey =>
          if String.eqb apiKey EmptyString then
            (throw (Error "EIA_API_KEY environment variable is required"), cache1)
          else
            match tryFetch upstream with
            | inr result =>
                (inr result, SimpleCache.set cache1 t1 CACHE_KEY result CACHE_TTL)
            | inl _ => (inr fallback, cache1)
            end
      end
  end.
End WithRuntime.
End FetchEia.

(* ------------------------------------------------------------------ *)
(** ** fetchWeather.ts *)

Module FetchWeather.
Record Main := { temp : Q }.
Record Condition := { id : Z; main : string; description : string }.
Record Alert := { event : string; alert_description : string }.
Record WeatherResponse := {
  main_ : option Main;                   (* data.main *)
  weather : option (list Condition);
  alerts : option (list Alert)
}.

Definition CACHE_TTL : Z := 15 * 60 * 1000.
Definition CACHE_KEY : string := "el_paso_weather".

Definition fallback : WeatherData.t :=
  WeatherData.mk 75 "Weather data unavailable".

Definition severeWeatherIds : list Z :=
  [200; 201; 202; 210; 211; 212; 221; 230; 231; 232;
   502; 503; 504; 511; 522; 531;
   602; 622;
   711; 721; 731; 741; 751; 761; 762; 771; 781].

Definition includesId (l : list Z) (x : Z) : bool :=
  existsb (Z.eqb x) l.

(** [a || b] on strings: the empty string is falsy. *)
Definition orElse (a b : string) : string :=
  if String.eqb a EmptyString then b else a.

(** The alert message, from [let alertMessage = ...] to the last
    assignment to it. *)
Definition alertOf (temperature : Z) (data : WeatherResponse) : string :=
  let alertMessage := "none" in
  let alertMessage :=
    match weather data with
    | Some (mainWeather :: _) =>
        let alertMessage :=
          if includesId severeWeatherIds (id mainWeather)
          then main mainWeather ++ ": " ++ description mainWeather
          else alertMessage in
        if temperature >=? 100 then "Extreme heat warning"
        else if temperature <=? 32 then "Freezing temperature alert"
        else alertMessage
    | _ => alertMessage
    end in
  match alerts data with
  | Some (activeAlert :: _) =>
      orElse (event activeAlert)
             (orElse (alert_description activeAlert) "Weather alert active")
  | _ => alertMessage
  end.

Definition tryFetch (upstream : Http.outcome WeatherResponse) : exn + WeatherData.t :=
  match upstream with
  | Http.Rejected e => throw e
  | Http.Resolved response =>
      check Http.ok response
        else_throw (if Http.status response =? 401
                    then Error "Invalid OpenWeatherMap API key"
                    else if Http.status response =? 429
                    then Error "OpenWeatherMap API rate limit exceeded. Please try again later."
                    else if Http.status response =? 404
                    then Error "Location not found in OpenWeatherMap API"
                    else HttpError "OpenWeatherMap" (Http.status response)
                                   (Http.statusText response));
      do data <- match Http.json response with
                 | Some d => inr d
                 | None => throw SyntaxError
                 end;
      do t <- match main_ data with
              | Some m => if Qeq_bool (temp m) 0
                          then throw (Error "Invalid weather data received from API")
                          else inr (temp m)
              | None => throw (Error "Invalid weather data received from API")
              end;
      (* [isNaN(temperature)] does not hold for a number that passed the
         truthiness test above *)
      let temperature := Js.Math_round t in
      inr (WeatherData.mk (inject_Z temperature) (alertOf temperature data))
  end.

Definition getLocalWeather (t0 t1 : Z) (WEATHER_API_KEY : option string)
    (upstream : Http.outcome WeatherResponse)
    (cache : SimpleCache.t WeatherData.t)
  : (exn + WeatherData.t) * SimpleCache.t WeatherData.t :=
  match SimpleCache.get cache t0 CACHE_KEY with
  | (Some cachedData, cache1) => (inr cachedData, cache1)
  | (None, cache1) =>
      match WEATHER_API_KEY with
      | None => (throw (Error "WEATHER_API_KEY environment variable is required"), cache1)
      | Some apiKey =>
          if String.eqb apiKey EmptyString then
            (throw (Error "WEATHER_API_KEY environment variable is required"), cache1)
          else
            match tryFetch upstream with
            | inr result =>
                (inr result, SimpleCache.set cache1 t1 CACHE_KEY result CACHE_TTL)
            | inl _ => (inr fallback, cache1)
            end
      end
  end.
End FetchWeather.

(* ------------------------------------------------------------------ *)
(** ** pages/api/dashboard.ts (per-source and per-insight caches) *)

Module Dashboard.

(** [ProductionData | EnergyData | WeatherData] *)
Inductive SourceData :=
| OfProduction (p : ProductionData.t)
| OfEnergy (e : EnergyData.t)
| OfWeather (w : WeatherData.t).

Record DataCacheEntry := {
  data : SourceData;
  lastFetched : Z;
  expires : Z
}.

Record InsightCacheEntry := {
  insight : InsightResponse.t;
  dataHash : string;
  lastInsightRun : Z;
  insightExpires : Z
}.

(** class DashboardCache *)
Module DashboardCache.
Record t := mk {
  dataCache : JsMap.t DataCacheEntry;
  insightCache : JsMap.t InsightCacheEntry
}.

Definition empty : t := mk JsMap.empty JsMap.empty.

Definition FRED_TTL : Z := 60 * 60 * 1000.
Definition EIA_TTL : Z := 10 * 60 * 1000.
Definition WEATHER_TTL : Z := 15 * 60 * 1000.
Definition INSIGHT_TTL : Z := 30 * 60 * 1000.

Definition setData (c : t) (now : Z) (key : string) (d : SourceData) (ttl : Z) : t :=
  mk (JsMap.set (dataCache c) key
        {| data := d; lastFetched := now; expires := now + ttl |})
     (insightCache c).

Definition getData (c : t) (now : Z) (key : string) : option DataCacheEntry * t :=
  match JsMap.get (dataCache c) key with
  | Some item =>
      if now >? expires item
      then (None, mk (JsMap.delete (dataCache c) key) (insightCache c))
      else (Some item, c)
  | None => (None, mk (JsMap.delete (dataCache c) key) (insightCache c))
  end.

Definition setInsight (c : t) (now : Z) (hash : string) (i : InsightResponse.t) : t :=
  mk (dataCache c)
     (JsMap.set (insightCache c) hash
        {| insight := i; dataHash := hash; lastInsightRun := now;
           insightExpires := now + INSIGHT_TTL |}).

Definition getInsight (c : t) (now : Z) (hash : string) : option InsightCacheEntry * t :=
  match JsMap.get (insightCache c) hash with
  | Some item =>
      if now >? insightExpires item
      then (None, mk (dataCache c) (JsMap.delete (insightCache c) hash))
      else (Some item, c)
  | None => (None, mk (dataCache c) (JsMap.delete (insightCache c) hash))
  end.

(** The loop of [getLatestInsight], one iteration per entry. *)
Definition latestStep (acc : option InsightCacheEntry * Z) (entry : InsightCacheEntry)
  : option InsightCacheEntry * Z :=
  let entryTime := lastInsightRun entry in
  if entryTime >? snd acc then (Some entry, entryTime) else acc.

Definition getLatestInsight (c : t) : option InsightCacheEntry :=
  fst (fold_left latestStep (JsMap.values (insightCache c)) (None, 0)).

Definition getTTL (source : string) : Z :=
  if String.eqb source "fred" then FRED_TTL
  else if String.eqb source "eia" then EIA_TTL
  else if String.eqb source "weather" then WEATHER_TTL
  else EIA_TTL.
End DashboardCache.

Record DashboardData := {
  production : ProductionData.t;
  energy : EnergyData.t;
  weather : WeatherData.t;
  insightOf : InsightResponse.t          (* insight *)
}.

Record DashboardResponse := {
  payload : DashboardData;               (* data *)
  responseLastFetched : Z;               (* lastFetched *)
  responseLastInsightRun : option Z      (* lastInsightRun; [None]: null *)
}.

(** What [res.status(code).json(body)] sends. *)
Record Reply := { statusCode : Z; body : DashboardResponse }.

Record Request := {
  query : option (list (string * string))   (* [None]: req.query is undefined *)
}.

(** Result of one [fetchWithCache] promise. *)
Record Fetched (T : Type) := { value : T; fetchedAt : Z }.
Arguments value {T} f.
Arguments fetchedAt {T} f.

Definition fallbackProduction : ProductionData.t :=
  ProductionData.mk (1024 # 10) "→ Data unavailable".
Definition fallbackEnergy : EnergyData.t := EnergyData.mk (125 # 10) stable.
Definition fallbackWeather : WeatherData.t :=
  WeatherData.mk 75 "Weather data unavailable".

(** [cached.data as T] for the three instances of [T]; an entry stored
    under a source key always carries that source's type, so the other
    branches are not reached. *)
Definition asProduction (d : SourceData) : ProductionData.t :=
  match d with OfProduction p => p | _ => fallbackProduction end.
Definition asEnergy (d : SourceData) : EnergyData.t :=
  match d with OfEnergy e => e | _ => fallbackEnergy end.
Definition asWeather (d : SourceData) : WeatherData.t :=
  match d with OfWeather w => w | _ => fallbackWeather end.

Section FetchWithCache.
Context {T S : Type}.
Variable inj : T -> SourceData.
Variable cast : SourceData -> T.

(** [fetchWithCache(source, fetchFn, fallback)]. [fetchFn] acts on its own
    module state [S]; [t0] is the clock at the first lookup and [t1] the
    clock once [fetchFn] has settled. The result is the settlement of the
    returned promise. *)
Definition fetchWithCache (source : string)
    (fetchFn : S -> (exn + T) * S) (fallback : T)
    (t0 t1 : Z) (cache : DashboardCache.t) (s : S)
  : (exn + Fetched T) * DashboardCache.t * S :=
  match DashboardCache.getData cache t0 source with
  | (Some cached, cache1) =>
      (inr {| value := cast (data cached); fetchedAt := lastFetched cached |}, cache1, s)
  | (None, cache1) =>
      match fetchFn s with
      | (inr d, s1) =>
          let ttl := DashboardCache.getTTL source in
          let cache2 := DashboardCache.setData cache1 t1 source (inj d) ttl in
          let '(cachedEntry, cache3) := DashboardCache.getData cache2 t1 source in
          (inr {| value := d;
                  fetchedAt := match cachedEntry with
                               | Some e => lastFetched e
                               | None => t1
                               end |}, cache3, s1)
      | (inl _, s1) =>
          (inr {| value := fallback; fetchedAt := t1 |}, cache1, s1)
      end
  end.
End FetchWithCache.

(** Module-level state of the server process. *)
Record World := {
  fredCache : SimpleCache.t ProductionData.t;
  eiaCache : SimpleCache.t EnergyData.t;
  weatherCache : SimpleCache.t WeatherData.t;
  insightCache : FetchInsight.InsightCache.t;
  cache : DashboardCache.t
}.

Definition emptyWorld : World :=
  Build_World JsMap.empty JsMap.empty JsMap.empty JsMap.empty DashboardCache.empty.

Record Env := {
  FRED_API_KEY : option string;
  EIA_API_KEY : option string;
  WEATHER_API_KEY : option string;
  CLAUDE_API_KEY : option string
}.

Record Upstream := {
  fred : Http.outcome FetchFred.FredResponse;
  eia : Http.outcome FetchEia.EiaResponse;
  openWeather : Http.outcome FetchWeather.WeatherResponse;
  claude : Http.outcome FetchInsight.ClaudeApiResponse
}.

(** Clock readings during one request. *)
Record Clock := {
  fred_t0 : Z; fred_t1 : Z;
  eia_t0 : Z; eia_t1 : Z;
  weather_t0 : Z; weather_t1 : Z;
  t_joined : Z;       (* all three fetches have settled *)
  t_insight : Z;      (* analyzeInsight has settled *)
  t_catch : Z         (* inside the outer catch block *)
}.

Record AllData := {
  allProduction : ProductionData.t;
  allEnergy : EnergyData.t;
  allWeather : WeatherData.t;
  allLastFetched : Z
}.

(** [Math.max(...ts)] on a non-empty list. *)
Definition Math_max (ts : list Z) : Z :=
  match ts with
  | [] => 0
  | t :: r => fold_left Z.max r t
  end.

(** One element of the [timestamps] array after [filter(Boolean)]: the
    time stamp of a fulfilled promise, nothing for a rejected one. *)
Definition stampOf {T} (r : exn + Fetched T) : list Z :=
  match r with inr v => [fetchedAt v] | inl _ => [] end.

(** The part of [fetchAllData] after [Promise.allSettled]. *)
Definition settleAll
    (productionResult : exn + Fetched ProductionData.t)
    (energyResult : exn + Fetched EnergyData.t)
    (weatherResult : exn + Fetched WeatherData.t)
    (now : Z) : AllData :=
  let production :=
    match productionResult with inr v => value v | inl _ => fallbackProduction end in
  let energy :=
    match energyResult with inr v => value v | inl _ => fallbackEnergy end in
  let weather :=
    match weatherResult with inr v => value v | inl _ => fallbackWeather end in
  let timestamps :=
    (stampOf productionResult ++ stampOf energyResult ++ stampOf weatherResult)%list in
  let lastFetched :=
    if (0 <? Z.of_nat (List.length timestamps)) then Math_max timestamps else now in
  {| allProduction := production; allEnergy := energy; allWeather := weather;
     allLastFetched := lastFetched |}.

Definition generateFallbackInsight
    (production : ProductionData.t) (energy : EnergyData.t) (weather : WeatherData.t)
  : InsightResponse.t :=
  let summary := "Data analysis temporarily unavailable" in
  let recommendation := "Monitor key metrics and adjust operations as needed" in
  let '(summary, recommendation) :=
    if Qle_bool 100 (WeatherData.temp weather) then
      ("Extreme heat conditions detected",
       "Consider shifting operations to cooler hours to reduce energy costs")
    else if Trend_eqb (EnergyData.trend energy) up then
      ("Energy costs trending upward",
       "Optimize energy usage and consider off-peak scheduling")
    else if negb (String.eqb (WeatherData.alert weather) "none")
            && negb (String.eqb (WeatherData.alert weather) "Weather data unavailable") then
      ("Weather alert active",
       "Monitor weather conditions and prepare contingency plans")
    else if Js.includes (ProductionData.trend production) "↓" then
      ("Production index declining",
       "Review production processes and identify improvement opportunities")
    else if Js.includes (ProductionData.trend production) "↑" then
      ("Production performing well",
       "Maintain current efficiency while monitoring energy costs")
    else (summary, recommendation) in
  InsightResponse.mk summary recommendation.

Definition fallbackResponse (now : Z) : DashboardResponse :=
  {| payload :=
       {| production := ProductionData.mk (1024 # 10) "→ Data unavailable";
          energy := EnergyData.mk (125 # 10) stable;
          weather := WeatherData.mk 75 "Data unavailable";
          insightOf := InsightResponse.mk "System temporarily unavailable"
                                          "Please try refreshing in a few minutes" |};
     responseLastFetched := now;
     responseLastInsightRun := None |}.

(** The object literal [{ production, energy, weather }] handed to
    [analyzeInsight]. *)
Definition toJs (d : InsightInput.t) : jsval :=
  JObj [
    ("production", JObj [
       ("index", JNum (ProductionData.index (InsightInput.production d)));
       ("trend", JStr (ProductionData.trend (InsightInput.production d)))]);
    ("energy", JObj [
       ("centsPerKwh", JNum (EnergyData.centsPerKwh (InsightInput.energy d)));
       ("trend", JStr (Trend_string (EnergyData.trend (InsightInput.energy d))))]);
    ("weather", JObj [
       ("temp", JNum (WeatherData.temp (InsightInput.weather d)));
       ("alert", JStr (WeatherData.alert (InsightInput.weather d)))])
  ].

Section WithRuntime.
Context `{JsRuntime}.

Definition combinedData (production : ProductionData.t) (energy : EnergyData.t)
    (weather : WeatherData.t) : jsval :=
  JObj [
    ("production", JObj [
       ("index", JNum (inject_Z (Js.Math_round (ProductionData.index production * 10)) / 10)%Q);
       ("trend", JStr (ProductionData.trend production))]);
    ("energy", JObj [
       ("centsPerKwh", JNum (inject_Z (Js.Math_round (EnergyData.centsPerKwh energy * 100)) / 100)%Q);
       ("trend", JStr (Trend_string (EnergyData.trend energy)))]);
    ("weather", JObj [
       ("temp", JNum (inject_Z (Js.Math_round (WeatherData.temp weather / 5) * 5))%Q);
       ("alert", JStr (WeatherData.alert weather))])
  ].

Definition dataString (production : ProductionData.t) (energy : EnergyData.t)
    (weather : WeatherData.t) : string :=
  let cd := combinedData production energy weather in
  match Js.JSON_stringify cd (Js.sort_strings (Js.Object_keys cd)) with
  | Some s => s
  | None => "undefined"
  end.

Definition generateDataHash (production : ProductionData.t) (energy : EnergyData.t)
    (weather : WeatherData.t) : string :=
  sha1_hex (dataString production energy weather).

(** The three promises handed to [Promise.allSettled]. *)
Definition fetchProduction (env : Env) (up : Upstream) (clk : Clock)
    (c : DashboardCache.t) (s : SimpleCache.t ProductionData.t) :=
  fetchWithCache OfProduction asProduction "fred"
    (FetchFred.getProductionIndex (fred_t0 clk) (fred_t1 clk) (FRED_API_KEY env) (fred up))
    fallbackProduction (fred_t0 clk) (fred_t1 clk) c s.

Definition fetchEnergy (env : Env) (up : Upstream) (clk : Clock)
    (c : DashboardCache.t) (s : SimpleCache.t EnergyData.t) :=
  fetchWithCache OfEnergy asEnergy "eia"
    (FetchEia.getEnergyPrice (eia_t0 clk) (eia_t1 clk) (EIA_API_KEY env) (eia up))
    fallbackEnergy (eia_t0 clk) (eia_t1 clk) c s.

Definition fetchWeather (env : Env) (up : Upstream) (clk : Clock)
    (c : DashboardCache.t) (s : SimpleCache.t WeatherData.t) :=
  fetchWithCache OfWeather asWeather "weather"
    (FetchWeather.getLocalWeather (weather_t0 clk) (weather_t1 clk)
       (WEATHER_API_KEY env) (openWeather up))
    fallbackWeather (weather_t0 clk) (weather_t1 clk) c s.

(** [fetchAllData()]. The three calls touch disjoint keys and disjoint
    module caches, so their interleaving is immaterial; they are threaded
    in the order in which they are started. *)
Definition fetchAllData (env : Env) (up : Upstream) (clk : Clock) (w : World)
  : AllData * World :=
  let '(productionResult, c1, fredC) := fetchProduction env up clk (cache w) (fredCache w) in
  let '(energyResult, c2, eiaC) := fetchEnergy env up clk c1 (eiaCache w) in
  let '(weatherResult, c3, weatherC) := fetchWeather env up clk c2 (weatherCache w) in
  (settleAll productionResult energyResult weatherResult (t_joined clk),
   Build_World fredC eiaC weatherC (insightCache w) c3).

(** The imported [analyzeInsight] as the handler sees it: a promise that
    settles with a value or an exception, acting on the insight module's
    cache. *)
Definition Analyzer : Type :=
  InsightInput.t -> FetchInsight.InsightCache.t ->
  (exn + InsightResponse.t) * FetchInsight.InsightCache.t.

(** The insight step of [handler], from [needsInsightUpdate] to the end of
    the inner [try]/[catch]: the insight served, its [lastInsightRun], and
    the two caches afterwards. [c1] is the dashboard cache after the lookup
    that produced [cachedInsight]. *)
Definition obtainInsight (analyze : Analyzer) (isManualRefresh : bool)
    (production : ProductionData.t) (energy : EnergyData.t) (weather : WeatherData.t)
    (currentDataHash : string) (cachedInsight : option InsightCacheEntry)
    (now : Z) (c1 : DashboardCache.t) (ic : FetchInsight.InsightCache.t)
  : InsightResponse.t * option Z * DashboardCache.t * FetchInsight.InsightCache.t :=
  let needsInsightUpdate :=
    isManualRefresh || match cachedInsight with Some _ => false | None => true end in
  match needsInsightUpdate, cachedInsight with
  | false, Some cached =>
      (insight cached, Some (lastInsightRun cached), c1, ic)
  | _, _ =>
      match analyze (InsightInput.mk production energy weather) ic with
      | (inr insight, ic') =>
          let c := DashboardCache.setInsight c1 now currentDataHash insight in
          let '(newCachedInsight, c') := DashboardCache.getInsight c now currentDataHash in
          (insight,
           Some match newCachedInsight with
                | Some e => lastInsightRun e
                | None => now
                end,
           c', ic')
      | (inl _, ic') =>
          match DashboardCache.getLatestInsight c1 with
          | Some latestInsight =>
              (Dashboard.insight latestInsight,
               Some (lastInsightRun latestInsight), c1, ic')
          | None =>
              (generateFallbackInsight production energy weather, None, c1, ic')
          end
      end
  end.

(** The body of the outer [try] block of [handler], up to the value that
    is sent with status 200. *)
Definition handlerBody (analyze : Analyzer)
    (req : Request) (env : Env) (up : Upstream) (clk : Clock) (w : World)
  : (exn + DashboardResponse) * World :=
  match query req with
  | None => (throw (TypeError "Cannot read properties of undefined"), w)
  | Some q =>
      let isManualRefresh :=
        match JsMap.get q "refresh" with
        | Some v => String.eqb v "true"
        | None => false
        end in
      let '(all, w1) := fetchAllData env up clk w in
      let production := allProduction all in
      let energy := allEnergy all in
      let weather := allWeather all in
      let currentDataHash := generateDataHash production energy weather in
      let '(cachedInsight, c1) :=
        DashboardCache.getInsight (cache w1) (t_joined clk) currentDataHash in
      let '(insight, lastInsightRun, c2, ic2) :=
        obtainInsight analyze isManualRefresh production energy weather
          currentDataHash cachedInsight (t_insight clk) c1 (insightCache w1) in
      (inr {| payload := {| production := production; energy := energy;
                            weather := weather; insightOf := insight |};
              responseLastFetched := allLastFetched all;
              responseLastInsightRun := lastInsightRun |},
       Build_World (fredCache w1) (eiaCache w1) (weatherCache w1) ic2 c2)
  end.

(** [handler(req, res)] with the analyzer as a parameter. *)
Definition handlerWith (analyze : Analyzer)
    (req : Request) (env : Env) (up : Upstream) (clk : Clock) (w : World)
  : Reply * World :=
  match handlerBody analyze req env up clk w with
  | (inr response, w') => ({| statusCode := 200; body := response |}, w')
  | (inl _, w') =>
      ({| statusCode := 200; body := fallbackResponse (t_catch clk) |}, w')
  end.

(** [analyzeInsight] of fetchInsight.ts behind the import. *)
Definition analyzeInsight (env : Env) (up : Upstream) (clk : Clock) : Analyzer :=
  fun d ic =>
    let '(r, ic', _) :=
      FetchInsight.analyzeInsight (toJs d) (t_joined clk) (t_insight clk)
        (CLAUDE_API_KEY env) (claude up) ic in
    (inr r, ic').

Definition handler (req : Request) (env : Env) (up : Upstream) (clk : Clock) (w : World)
  : Reply * World :=
  handlerWith (analyzeInsight env up clk) req env up clk w.

End WithRuntime.
End Dashboard.

(* ------------------------------------------------------------------ *)
(** ** The properties under verification, in the words of the design *)

Module Spec.

(** The serialization of an object none of whose nested keys is on the
    property list [energy, production, weather]. *)
Definition emptyProjection : string :=
  "{" ++ dquote ++ "energy" ++ dquote ++ ":{},"
      ++ dquote ++ "production" ++ dquote ++ ":{},"
      ++ dquote ++ "weather" ++ dquote ++ ":{}}".

(** Equality of the normalized projections of two metric triples. *)
Definition sameNormalized (a b : InsightInput.t) : Prop :=
  let pa := InsightInput.production a in
  let pb := InsightInput.production b in
  let ea := InsightInput.energy a in
  let eb := InsightInput.energy b in
  let wa := InsightInput.weather a in
  let wb := InsightInput.weather b in
  (inject_Z (Js.Math_round (ProductionData.index pa * 10)) / 10
     == inject_Z (Js.Math_round (ProductionData.index pb * 10)) / 10)%Q
  /\ (inject_Z (Js.Math_round (EnergyData.centsPerKwh ea * 100)) / 100
     == inject_Z (Js.Math_round (EnergyData.centsPerKwh eb * 100)) / 100)%Q
  /\ (inject_Z (Js.Math_round (WeatherData.temp wa / 5) * 5)
     == inject_Z (Js.Math_round (WeatherData.temp wb / 5) * 5))%Q
  /\ ProductionData.trend pa = ProductionData.trend pb
  /\ EnergyData.trend ea = EnergyData.trend eb
  /\ WeatherData.alert wa = WeatherData.alert wb.

(** A rule table read in priority order. *)
Record Rule := {
  applies : InsightInput.t -> bool;
  yields : InsightResponse.t
}.

Definition firstMatch (rules : list Rule) (otherwise : InsightResponse.t)
    (d : InsightInput.t) : InsightResponse.t :=
  match find (fun r => applies r d) rules with
  | Some r => yields r
  | None => otherwise
  end.

Definition extremeHeat : InsightResponse.t :=
  InsightResponse.mk "Extreme heat conditions detected"
    "Consider shifting operations to cooler hours to reduce energy costs".
Definition energyUp : InsightResponse.t :=
  InsightResponse.mk "Energy costs trending upward"
    "Optimize energy usage and consider off-peak scheduling".
Definition weatherAlert : InsightResponse.t :=
  InsightResponse.mk "Weather alert active"
    "Monitor weather conditions and prepare contingency plans".
Definition productionDown : InsightResponse.t :=
  InsightResponse.mk "Production index declining"
    "Review production processes and identify improvement opportunities".
Definition productionUp : InsightResponse.t :=
  InsightResponse.mk "Production performing well"
    "Maintain current efficiency while monitoring energy costs".
Definition unavailable : InsightResponse.t :=
  InsightResponse.mk "Data analysis temporarily unavailable"
    "Monitor key metrics and adjust operations as needed".

(** Extreme heat, then energy trend up, then active weather alert, then
    production trend down, then production trend up. What counts as an
    active alert is the parameter [active]. *)
Definition priorityRules (active : string -> bool) : list Rule :=
  [ {| applies := fun d => Qle_bool 100 (WeatherData.temp (InsightInput.weather d));
       yields := extremeHeat |};
    {| applies := fun d => Trend_eqb (EnergyData.trend (InsightInput.energy d)) up;
       yields := energyUp |};
    {| applies := fun d => active (WeatherData.alert (InsightInput.weather d));
       yields := weatherAlert |};
    {| applies := fun d => Js.includes (ProductionData.trend (InsightInput.production d)) "↓";
       yields := productionDown |};
    {| applies := fun d => Js.includes (ProductionData.trend (InsightInput.production d)) "↑";
       yields := productionUp |} ].

(** An alert other than the literal none (fetchInsight.ts). *)
Definition activeAlert (alert : string) : bool :=
  negb (String.eqb alert "none").

(** An alert other than none and other than the weather fallback text
    (dashboard.ts). *)
Definition activeLiveAlert (alert : string) : bool :=
  negb (String.eqb alert "none") && negb (String.eqb alert "Weather data unavailable").

Definition isNumber (v : jsval) : bool :=
  match v with JNum _ => true | _ => false end.
Definition isString (v : jsval) : bool :=
  match v with JStr _ => true | _ => false end.
Definition isObject (v : jsval) : bool :=
  match v with JObj _ | JArr _ => true | _ => false end.
Definition isTrend (v : jsval) : bool :=
  match v with
  | JStr s => String.eqb s "up" || String.eqb s "down" || String.eqb s "stable"
  | _ => false
  end.

(** Not an object, production index or energy price or temperature not a
    number, energy trend outside up, down, stable, or trend or alert not a
    string. *)
Definition failsShapeValidation (data : jsval) : bool :=
  negb (isObject data)
  || negb (isNumber (Js.prop (Js.prop data "production") "index"))
  || negb (isNumber (Js.prop (Js.prop data "energy") "centsPerKwh"))
  || negb (isNumber (Js.prop (Js.prop data "weather") "temp"))
  || negb (isTrend (Js.prop (Js.prop data "energy") "trend"))
  || negb (isString (Js.prop (Js.prop data "production") "trend"))
  || negb (isString (Js.prop (Js.prop data "weather") "alert")).

(** Runtime failure of an upstream call: time-out (or any rejection of the
    request), status outside 2xx, body that is not JSON, body of the wrong
    shape. *)
Inductive UpstreamFailure {B : Type} (wellShaped : B -> bool) : Http.outcome B -> Prop :=
| TimedOut e : UpstreamFailure wellShaped (Http.Rejected e)
| BadStatus r : Http.ok r = false -> UpstreamFailure wellShaped (Http.Resolved r)
| NotJson r :
    Http.ok r = true -> Http.json r = None ->
    UpstreamFailure wellShaped (Http.Resolved r)
| ShapeMismatch r b :
    Http.ok r = true -> Http.json r = Some b -> wellShaped b = false ->
    UpstreamFailure wellShaped (Http.Resolved r).

(** A present, non-empty credential. *)
Definition credential (k : option string) : bool :=
  match k with
  | Some s => negb (String.eqb s EmptyString)
  | None => false
  end.

(** The fixed severe-weather set of condition codes, group by group:
    thunderstorms, heavy rain, heavy snow, atmospheric hazards. *)
Definition severeCode (id : Z) : bool :=
  ((200 <=? id) && (id <=? 202)) || ((210 <=? id) && (id <=? 212))
  || (id =? 221) || ((230 <=? id) && (id <=? 232))
  || ((502 <=? id) && (id <=? 504)) || (id =? 511) || (id =? 522) || (id =? 531)
  || (id =? 602) || (id =? 622)
  || (id =? 711) || (id =? 721) || (id =? 731) || (id =? 741) || (id =? 751)
  || ((761 <=? id) && (id <=? 762)) || (id =? 771) || (id =? 781).

(** The current condition, when the response reports one. *)
Definition conditionReported (data : FetchWeather.WeatherResponse)
  : option FetchWeather.Condition :=
  match FetchWeather.weather data with
  | Some (c :: _) => Some c
  | _ => None
  end.

(** The weather condition in force carries a severe code. *)
Definition severeCondition (data : FetchWeather.WeatherResponse) : bool :=
  match conditionReported data with
  | Some c => severeCode (FetchWeather.id c)
  | None => false
  end.

(** The first upstream alert, when the response carries one. *)
Definition upstreamAlert (data : FetchWeather.WeatherResponse) : option FetchWeather.Alert :=
  match FetchWeather.alerts data with
  | Some (a :: _) => Some a
  | _ => None
  end.



Definition alertText (a : FetchWeather.Alert) : string :=
  FetchWeather.orElse (FetchWeather.event a)
    (FetchWeather.orElse (FetchWeather.alert_description a) "Weather alert active").

Section WithRuntime.
Context `{JsRuntime}.

(** Bodies that the production fetcher accepts: some observation is not
    the missing marker and the newest such observation is numeric. *)
Definition fredWellShaped (body : FetchFred.FredResponse) : bool :=
  match FetchFred.observations body with
  | Some obs =>
      match Js.sort_by FetchFred.byDateDesc
              (filter (fun o => negb (String.eqb (FetchFred.value o) ".")) obs) with
      | latest :: _ =>
          match parseFloat (FetchFred.value latest) with
          | Some _ => true
          | None => false
          end
      | [] => false
      end
  | None => false
  end.

(** Bodies that the energy fetcher accepts: the first series has a valid
    point and the newest valid point is a positive price. *)
Definition eiaWellShaped (body : FetchEia.EiaResponse) : bool :=
  match FetchEia.response body with
  | Some env =>
      match FetchEia.series env with
      | Some (s :: _) =>
          match FetchEia.data s with
          | Some pts =>
              match Js.sort_by FetchEia.byPeriodDesc (filter FetchEia.isValidPoint pts) with
              | latest :: _ => Js.Qlt_bool 0 (FetchEia.priceOf latest)
              | [] => false
              end
          | None => false
          end
      | _ => false
      end
  | None => false
  end.

(** Bodies that the weather fetcher accepts: a truthy temperature. *)
Definition weatherWellShaped (body : FetchWeather.WeatherResponse) : bool :=
  match FetchWeather.main_ body with
  | Some m => negb (Qeq_bool (FetchWeather.temp m) 0)
  | None => false
  end.

(** Failure of an insight generation: missing credential, time-out,
    status outside 2xx, or a body that does not parse to the two strings. *)
Inductive GenerationFailure :
  option string -> Http.outcome FetchInsight.ClaudeApiResponse -> Prop :=
| MissingCredential k claude : credential k = false -> GenerationFailure k claude
| ClaudeTimedOut k e : GenerationFailure k (Http.Rejected e)
| ClaudeBadStatus k r : Http.ok r = false -> GenerationFailure k (Http.Resolved r)
| ClaudeNotJson k r : Http.json r = None -> GenerationFailure k (Http.Resolved r)
| ClaudeParseFailure k r result :
    Http.json r = Some result ->
    FetchInsight.parseClaudeResponse (FetchInsight.firstText result) = None ->
    GenerationFailure k (Http.Resolved r).

(** An insight that is the parsed and validated text of some response. *)
Definition fromClaude (i : InsightResponse.t) : Prop :=
  exists text, FetchInsight.parseClaudeResponse text = Some i.

(** Every entry of the insight cache holds a validated response. *)
Definition onlyValidated (c : FetchInsight.InsightCache.t) : Prop :=
  forall k it, In (k, it) c -> fromClaude (FetchInsight.InsightCache.data it).

End WithRuntime.
End Spec.

(* ------------------------------------------------------------------ *)
(** ** A concrete runtime and concrete inputs for the examples *)

Module Sample.

(** Stand-ins for the library functions, enough to run the model: the
    digests tag their input, [JSON.parse] knows one document. *)
Definition runtime : JsRuntime := {|
  md5_hex := fun s => "md5:" ++ s;
  sha1_hex := fun s => "sha1:" ++ s;
  JSON_parse := fun s =>
    if String.eqb s "{insight}"
    then Some (JObj [("summary", JStr "Stable operations");
                     ("recommendation", JStr "Keep the current schedule")])
    else None;
  Number_toString := fun _ => "0";
  String_trim := fun s => s;
  String_substring0 := fun s n => String.substring 0 n s;
  parseFloat := fun s =>
    if String.eqb s "103.5" then Some (1035 # 10)
    else if String.eqb s "102.0" then Some (102 # 1) else None;
  Date_getTime := fun s =>
    if String.eqb s "2024-02-01" then Some 2
    else if String.eqb s "2024-01-01" then Some 1 else None;
  toFixed1 := fun _ => "1.5";
  localeCompare := fun a b =>
    match String.compare a b with Lt => -1 | Eq => 0 | Gt => 1 end
|}.

Definition hot : InsightInput.t :=
  InsightInput.mk (ProductionData.mk (1025 # 10) "↑ 2.1% MoM")
                  (EnergyData.mk (128 # 10) up)
                  (WeatherData.mk 104 "none").

Definition calm : InsightInput.t :=
  InsightInput.mk (ProductionData.mk (10244 # 100) "→ 0.0% MoM")
                  (EnergyData.mk (125 # 10) stable)
                  (WeatherData.mk 75 "none").

Definition calm' : InsightInput.t :=
  InsightInput.mk (ProductionData.mk (10241 # 100) "→ 0.0% MoM")
                  (EnergyData.mk (12501 # 1000) stable)
                  (WeatherData.mk 76 "none").

Definition earlier : InsightResponse.t :=
  InsightResponse.mk "Stable operations" "Keep the current schedule".

Definition timeout {B} : Http.outcome B := Http.Rejected AbortError.

Definition status500 {B} : Http.outcome B :=
  Http.Resolved {| Http.status := 500; Http.statusText := "Internal Server Error";
                   Http.json := None |}.

Definition claudeOk : Http.outcome FetchInsight.ClaudeApiResponse :=
  Http.Resolved {| Http.status := 200; Http.statusText := "OK";
                   Http.json := Some {| FetchInsight.content := Some ["Here: {insight}"] |} |}.

Definition keys (fredKey : option string) : Dashboard.Env :=
  {| Dashboard.FRED_API_KEY := fredKey;
     Dashboard.EIA_API_KEY := Some "eia-key";
     Dashboard.WEATHER_API_KEY := Some "weather-key";
     Dashboard.CLAUDE_API_KEY := Some "claude-key" |}.

Definition allDown : Dashboard.Upstream :=
  {| Dashboard.fred := timeout; Dashboard.eia := timeout;
     Dashboard.openWeather := timeout; Dashboard.claude := timeout |}.

Definition request : Dashboard.Request := {| Dashboard.query := Some [] |}.

Definition eiaOk : Http.outcome FetchEia.EiaResponse :=
  Http.Resolved
    {| Http.status := 200; Http.statusText := "OK";
       Http.json := Some
         {| FetchEia.response := Some
              {| FetchEia.series := Some
                   [{| FetchEia.data := Some
                         [{| FetchEia.period := "2024-02"; FetchEia.value := Some (128 # 10) |};
                          {| FetchEia.period := "2024-01"; FetchEia.value := Some (125 # 10) |}]
                    |}] |} |} |}.

Definition weatherOk : Http.outcome FetchWeather.WeatherResponse :=
  Http.Resolved
    {| Http.status := 200; Http.statusText := "OK";
       Http.json := Some
         {| FetchWeather.main_ := Some {| FetchWeather.temp := 724 # 10 |};
            FetchWeather.weather :=
              Some [{| FetchWeather.id := 800; FetchWeather.main := "Clear";
                       FetchWeather.description := "clear sky" |}];
            FetchWeather.alerts := None |} |}.

(** Energy and weather answer, the production API and the insight API time
    out. *)
Definition partlyUp : Dashboard.Upstream :=
  {| Dashboard.fred := timeout; Dashboard.eia := eiaOk;
     Dashboard.openWeather := weatherOk; Dashboard.claude := timeout |}.

(** A first request whose energy fetch settles at 1000 and whose weather
    fetch settles at 2000, and a second request between 4000 and 5000. *)
Definition firstClock : Dashboard.Clock :=
  {| Dashboard.fred_t0 := 900; Dashboard.fred_t1 := 900;
     Dashboard.eia_t0 := 900; Dashboard.eia_t1 := 1000;
     Dashboard.weather_t0 := 900; Dashboard.weather_t1 := 2000;
     Dashboard.t_joined := 2000; Dashboard.t_insight := 2100;
     Dashboard.t_catch := 2100 |}.

Definition secondClock : Dashboard.Clock :=
  {| Dashboard.fred_t0 := 4000; Dashboard.fred_t1 := 5000;
     Dashboard.eia_t0 := 4000; Dashboard.eia_t1 := 4000;
     Dashboard.weather_t0 := 4000; Dashboard.weather_t1 := 4000;
     Dashboard.t_joined := 5000; Dashboard.t_insight := 5100;
     Dashboard.t_catch := 5100 |}.

(** The server state after the first request, served without a production
    credential. *)
Definition warmWorld : Dashboard.World :=
  snd (@Dashboard.fetchAllData runtime (keys None) partlyUp firstClock Dashboard.emptyWorld).
End Sample.

(* ------------------------------------------------------------------ *)
(** ** Cache utilities exported by the fetch modules *)

(** fetchInsight.ts: [clearInsightCache] and [getInsightCacheStats]. *)
Module InsightCacheUtil.
Definition clearInsightCache (c : FetchInsight.InsightCache.t) : FetchInsight.InsightCache.t :=
  FetchInsight.InsightCache.clear c.

(** The field [totalCached] of the statistics: [cache.size]. *)
Definition getInsightCacheStats (c : FetchInsight.InsightCache.t) : nat :=
  JsMap.size c.
End InsightCacheUtil.

(** The module cache of fetchEia.ts and fetchWeather.ts once the clearing
    utility is taken into account: it stores [null] as data, so an entry
    holds [option V], [None] being [null]. *)
Module NullableCache.
Section Ops.
Context {V : Type}.
Variable CACHE_KEY : string.
Variable CACHE_TTL : Z.

Definition t := SimpleCache.t (option V).

(** [cache.get(CACHE_KEY)] as the callers test it for truthiness: an
    absent entry, an expired entry and a stored [null] are all falsy. *)
Definition cachedData (c : t) (now : Z) : option V * t :=
  match SimpleCache.get c now CACHE_KEY with
  | (Some (Some d), c') => (Some d, c')
  | (_, c') => (None, c')
  end.

(** [cache.get(CACHE_KEY) && cache.set(CACHE_KEY, null, 0)], the lookup
    at clock reading [t0] and the store at [t1]. *)
Definition clearCache (c : t) (t0 t1 : Z) : t :=
  match cachedData c t0 with
  | (Some _, c') => SimpleCache.set c' t1 CACHE_KEY None 0
  | (None, c') => c'
  end.

(** [{ cached: !!item, expiresAt: item ? new Date(Date.now() + CACHE_TTL)
    : undefined }]: [Some e] stands for cached with [expiresAt = e],
    [None] for not cached with [expiresAt] undefined; the lookup reads the
    clock at [t0], the literal at [t1]. *)
Definition cacheStatus (c : t) (t0 t1 : Z) : option Z * t :=
  match cachedData c t0 with
  | (Some _, c') => (Some (t1 + CACHE_TTL), c')
  | (None, c') => (None, c')
  end.

(** The body shared by [getEnergyPrice] and [getLocalWeather] around the
    [try] block, whose outcome is [attempt]. *)
Definition fetchThrough (missing : exn) (fallback : V) (attempt : exn + V)
    (t0 t1 : Z) (apiKey : option string) (c : t) : (exn + V) * t :=
  match cachedData c t0 with
  | (Some d, c1) => (inr d, c1)
  | (None, c1) =>
      match apiKey with
      | None => (throw missing, c1)
      | Some k =>
          if String.eqb k EmptyString then (throw missing, c1)
          else
            match attempt with
            | inr result => (inr result, SimpleCache.set c1 t1 CACHE_KEY (Some result) CACHE_TTL)
            | inl _ => (inr fallback, c1)
            end
      end
  end.

(** A cache without cleared entries, seen as a nullable one. *)
Definition inject (c : SimpleCache.t V) : t :=
  map (fun kv => (fst kv, {| SimpleCache.data := Some (SimpleCache.data (snd kv));
                             SimpleCache.expires := SimpleCache.expires (snd kv) |})) c.
End Ops.
End NullableCache.

(** fetchWeather.ts with [clearWeatherCache] and [getWeatherCacheStatus]. *)
Module WeatherModule.
Definition Cache := @NullableCache.t WeatherData.t.

Definition getLocalWeather (t0 t1 : Z) (WEATHER_API_KEY : option string)
    (upstream : Http.outcome FetchWeather.WeatherResponse) (cache : Cache)
  : (exn + WeatherData.t) * Cache :=
  NullableCache.fetchThrough FetchWeather.CACHE_KEY FetchWeather.CACHE_TTL
    (Error "WEATHER_API_KEY environment variable is required")
    FetchWeather.fallback (FetchWeather.tryFetch upstream)
    t0 t1 WEATHER_API_KEY cache.

Definition clearWeatherCache (cache : Cache) (t0 t1 : Z) : Cache :=
  NullableCache.clearCache FetchWeather.CACHE_KEY cache t0 t1.

Definition getWeatherCacheStatus (cache : Cache) (t0 t1 : Z) : option Z * Cache :=
  NullableCache.cacheStatus FetchWeather.CACHE_KEY FetchWeather.CACHE_TTL cache t0 t1.
End WeatherModule.

(** fetchEia.ts with [clearEnergyPriceCache]. *)
Module EnergyModule.
Definition Cache := @NullableCache.t EnergyData.t.

Section WithRuntime.
Context `{JsRuntime}.

Definition getEnergyPrice (t0 t1 : Z) (EIA_API_KEY : option string)
    (upstream : Http.outcome FetchEia.EiaResponse) (cache : Cache)
  : (exn + EnergyData.t) * Cache :=
  NullableCache.fetchThrough FetchEia.CACHE_KEY FetchEia.CACHE_TTL
    (Error "EIA_API_KEY environment variable is required")
    FetchEia.fallback (FetchEia.tryFetch upstream)
    t0 t1 EIA_API_KEY cache.
End WithRuntime.

Definition clearEnergyPriceCache (cache : Cache) (t0 t1 : Z) : Cache :=
  NullableCache.clearCache FetchEia.CACHE_KEY cache t0 t1.
End EnergyModule.

(** Two consecutive requests to the handler. *)
Module Session.
Section WithRuntime.
Context `{JsRuntime}.

(** The reply to a second request that follows a first one. *)
Definition secondReply
    (req1 req2 : Dashboard.Request) (env : Dashboard.Env)
    (up1 up2 : Dashboard.Upstream) (clk1 clk2 : Dashboard.Clock)
    (w : Dashboard.World) : Dashboard.Reply :=
  fst (Dashboard.handler req2 env up2 clk2
         (snd (Dashboard.handler req1 env up1 clk1 w))).
End WithRuntime.

(** [req.query.refresh === 'true'] *)
Definition isManualRefresh (req : Dashboard.Request) : bool :=
  match Dashboard.query req with
  | Some q =>
      match JsMap.get q "refresh" with
      | Some v => String.eqb v "true"
      | None => false
      end
  | None => false
  end.
End Session.

(** Server states that a run of the process can reach. *)
Module Reach.
Section WithRuntime.
Context `{JsRuntime}.

(** Insight-module caches: empty at start, then changed by calls of
    [analyzeInsight] and [clearInsightCache] only. *)
Inductive insightCache : FetchInsight.InsightCache.t -> Prop :=
| insight_start : insightCache JsMap.empty
| insight_analyze c data t_get t_set key claude :
    insightCache c ->
    insightCache (snd (fst (FetchInsight.analyzeInsight data t_get t_set key claude c)))
| insight_clear c :
    insightCache c -> insightCache (InsightCacheUtil.clearInsightCache c).

(** Worlds: the initial one, then one handled request after another. *)
Inductive world : Dashboard.World -> Prop :=
| world_start : world Dashboard.emptyWorld
| world_request w req env up clk :
    world w -> world (snd (Dashboard.handler req env up clk w)).
End WithRuntime.

(** The entry stored under a source key carries that source's type. *)
Definition wellTyped (source : string) (d : Dashboard.SourceData) : bool :=
  match d with
  | Dashboard.OfProduction _ => String.eqb source "fred"
  | Dashboard.OfEnergy _ => String.eqb source "eia"
  | Dashboard.OfWeather _ => String.eqb source "weather"
  end.
End Reach.

(** States in which the caches hold nothing that a request could use. *)
Module Cold.
Section WithRuntime.
Context `{JsRuntime}.

(** The handler's cache has no entry for any of the three sources and no
    insight under the fingerprint. *)
Definition handlerCache (w : Dashboard.World) : Prop :=
  JsMap.get (Dashboard.DashboardCache.dataCache (Dashboard.cache w)) "fred" = None
  /\ JsMap.get (Dashboard.DashboardCache.dataCache (Dashboard.cache w)) "eia" = None
  /\ JsMap.get (Dashboard.DashboardCache.dataCache (Dashboard.cache w)) "weather" = None
  /\ JsMap.get (Dashboard.DashboardCache.insightCache (Dashboard.cache w))
       (sha1_hex Spec.emptyProjection) = None.
End WithRuntime.

(** No fetch module has a fresh value at the time of its lookup. *)
Definition fetcherCaches (clk : Dashboard.Clock) (w : Dashboard.World) : Prop :=
  fst (SimpleCache.get (Dashboard.fredCache w) (Dashboard.fred_t0 clk) FetchFred.CACHE_KEY) = None
  /\ fst (SimpleCache.get (Dashboard.eiaCache w) (Dashboard.eia_t0 clk) FetchEia.CACHE_KEY) = None
  /\ fst (SimpleCache.get (Dashboard.weatherCache w) (Dashboard.weather_t0 clk)
            FetchWeather.CACHE_KEY) = None.

(** The three source credentials are configured. *)
Definition credentials (env : Dashboard.Env) : Prop :=
  Spec.credential (Dashboard.FRED_API_KEY env) = true
  /\ Spec.credential (Dashboard.EIA_API_KEY env) = true
  /\ Spec.credential (Dashboard.WEATHER_API_KEY env) = true.
End Cold.

(** Invariants of the handler's cache. *)
Module Invariant.
(** Every entry of the data cache carries the type of its source key. *)
Definition dataWellTyped (c : Dashboard.DashboardCache.t) : Prop :=
  forall k e, In (k, e) (Dashboard.DashboardCache.dataCache c) ->
              Reach.wellTyped k (Dashboard.data e) = true.

Section WithRuntime.
Context `{JsRuntime}.

(** The insight cache has unique keys and no key but the digest of the
    string that the fingerprint function digests. *)
Definition singleInsight (c : Dashboard.DashboardCache.t) : Prop :=
  NoDup (JsMap.keys (Dashboard.DashboardCache.insightCache c))
  /\ forall k, In k (JsMap.keys (Dashboard.DashboardCache.insightCache c)) ->
               k = sha1_hex Spec.emptyProjection.
End WithRuntime.
End Invariant.

(* ================================================================== *)
(** * Theorems *)

(** ** Facts about [Map] *)

Module JsMapFacts.
Section Facts.
Context {V : Type}.
Implicit Types (m : JsMap.t V) (k : string) (v : V).

Lemma get_set_same m k v : JsMap.get (JsMap.set m k v) k = Some v.
Proof.
  induction m as [|[k' v'] m IH]; simpl.
  - now rewrite String.eqb_refl.
  - destruct (String.eqb k' k) eqn:E; simpl.
    + now rewrite String.eqb_refl.
    + now rewrite E.
Qed.

Lemma get_set_other m k k' v :
  k <> k' -> JsMap.get (JsMap.set m k v) k' = JsMap.get m k'.
Proof.
  intros Hne. induction m as [|[k0 v0] m IH]; simpl.
  - destruct (String.eqb k k') eqn:E; [apply String.eqb_eq in E; contradiction | reflexivity].
  - destruct (String.eqb k0 k) eqn:E; simpl.
    + apply String.eqb_eq in E. subst k0.
      destruct (String.eqb k k') eqn:E'; [apply String.eqb_eq in E'; contradiction | reflexivity].
    + now rewrite IH.
Qed.

Lemma get_delete_same m k : JsMap.get (JsMap.delete m k) k = None.
Proof.
  induction m as [|[k' v'] m IH]; simpl; [reflexivity|].
  destruct (String.eqb k' k) eqn:E; simpl; [assumption|].
  now rewrite E.
Qed.

Lemma delete_absent m k : JsMap.get m k = None -> JsMap.delete m k = m.
Proof.
  induction m as [|[k' v'] m IH]; simpl; [reflexivity|].
  destruct (String.eqb k' k); [discriminate|].
  intros Hm. now rewrite IH.
Qed.

Lemma In_set m k v k' v' :
  In (k', v') (JsMap.set m k v) -> (k', v') = (k, v) \/ In (k', v') m.
Proof.
  induction m as [|[k0 v0] m IH]; simpl.
  - intros [E|[]]. left. now symmetry.
  - destruct (String.eqb k0 k); simpl.
    + intros [E|Hin]; [left; now symmetry | right; now right].
    + intros [E|Hin]; [right; now left |].
      destruct (IH Hin) as [E|Hin']; [now left | right; now right].
Qed.

Lemma In_delete m k k' v' : In (k', v') (JsMap.delete m k) -> In (k', v') m.
Proof.
  induction m as [|[k0 v0] m IH]; simpl; [tauto|].
  destruct (String.eqb k0 k); simpl.
  - intros Hin. right. now apply IH.
  - intros [E|Hin]; [now left | right; now apply IH].
Qed.

Lemma get_none_values m k :
  JsMap.get m k = None -> forall v, In (k, v) m -> False.
Proof.
  induction m as [|[k0 v0] m IH]; simpl; [tauto|].
  destruct (String.eqb k0 k) eqn:E; [discriminate|].
  intros Hm v [Heq|Hin].
  - inversion Heq. subst. rewrite String.eqb_refl in E. discriminate.
  - eapply IH; eassumption.
Qed.
End Facts.
End JsMapFacts.

(** ** TTL caches *)

Module TtlCache.
Section Facts.
Context {V : Type}.

Lemma SimpleCache_fresh (c : SimpleCache.t V) k v T t0 now :
  now <= t0 + T ->
  SimpleCache.get (SimpleCache.set c t0 k v T) now k
  = (Some v, SimpleCache.set c t0 k v T).
Proof.
  intros Hle. unfold SimpleCache.get, SimpleCache.set.
  rewrite JsMapFacts.get_set_same. simpl.
  destruct (now >? t0 + T) eqn:E; [lia | reflexivity].
Qed.

Lemma SimpleCache_expired (c : SimpleCache.t V) k v T t0 now :
  now > t0 + T ->
  SimpleCache.get (SimpleCache.set c t0 k v T) now k
  = (None, JsMap.delete (SimpleCache.set c t0 k v T) k).
Proof.
  intros Hgt. unfold SimpleCache.get, SimpleCache.set.
  rewrite JsMapFacts.get_set_same. simpl.
  destruct (now >? t0 + T) eqn:E; [reflexivity | lia].
Qed.

Lemma SimpleCache_deleted (c : SimpleCache.t V) k now :
  SimpleCache.get (JsMap.delete c k) now k = (None, JsMap.delete c k).
Proof.
  unfold SimpleCache.get. now rewrite JsMapFacts.get_delete_same.
Qed.
End Facts.

Lemma InsightCache_fresh (c : FetchInsight.InsightCache.t) k v t0 now :
  now <= t0 + FetchInsight.InsightCache.CACHE_TTL ->
  FetchInsight.InsightCache.get (FetchInsight.InsightCache.set c t0 k v) now k
  = (Some v, FetchInsight.InsightCache.set c t0 k v).
Proof.
  intros Hle. unfold FetchInsight.InsightCache.get, FetchInsight.InsightCache.set.
  rewrite JsMapFacts.get_set_same. simpl.
  destruct (now >? t0 + FetchInsight.InsightCache.CACHE_TTL) eqn:E; [lia | reflexivity].
Qed.

Lemma InsightCache_expired (c : FetchInsight.InsightCache.t) k v t0 now :
  now > t0 + FetchInsight.InsightCache.CACHE_TTL ->
  FetchInsight.InsightCache.get (FetchInsight.InsightCache.set c t0 k v) now k
  = (None, JsMap.delete (FetchInsight.InsightCache.set c t0 k v) k).
Proof.
  intros Hgt. unfold FetchInsight.InsightCache.get, FetchInsight.InsightCache.set.
  rewrite JsMapFacts.get_set_same. simpl.
  destruct (now >? t0 + FetchInsight.InsightCache.CACHE_TTL) eqn:E; [reflexivity | lia].
Qed.

Lemma InsightCache_deleted (c : FetchInsight.InsightCache.t) k now :
  FetchInsight.InsightCache.get (JsMap.delete c k) now k = (None, JsMap.delete c k).
Proof.
  unfold FetchInsight.InsightCache.get. now rewrite JsMapFacts.get_delete_same.
Qed.

(** C3, as stated, fails at the boundary: a value set at time 0 with a
    time to live of 1000 ms is still returned by a read at time 1000, where
    now - t0 >= T, because expiry is tested with a strict comparison. *)
Lemma ttl_boundary_counterexample :
  let c := SimpleCache.set (JsMap.empty : SimpleCache.t Z) 0 "k" 7 1000 in
  1000 - 0 >= 1000
  /\ SimpleCache.get c 1000 "k" = (Some 7, c).
Proof. split; [lia | reflexivity]. Qed.

(** C3 (amended): after [set(k, v, T)] at time [t0], [get(k)] returns [v]
    and keeps the entry at every time [now] with [now - t0 <= T], and
    reports absent at every time with [now - t0 > T]; a read past expiry
    deletes the entry, so that a later [get(k)] at any time, without a
    [set] in between, reports absent as well. The insight cache behaves
    alike with its fixed time to live of thirty minutes. *)
Theorem ttl_get_after_set :
  forall (V : Type) (c : SimpleCache.t V) (k : string) (v : V) (T t0 now : Z),
    let c1 := SimpleCache.set c t0 k v T in
    (now - t0 <= T -> SimpleCache.get c1 now k = (Some v, c1))
    /\ (now - t0 > T ->
        fst (SimpleCache.get c1 now k) = None
        /\ forall later,
             fst (SimpleCache.get (snd (SimpleCache.get c1 now k)) later k) = None)
    /\ forall (ci : FetchInsight.InsightCache.t) (i : InsightResponse.t),
         let c2 := FetchInsight.InsightCache.set ci t0 k i in
         (now - t0 <= FetchInsight.InsightCache.CACHE_TTL ->
          FetchInsight.InsightCache.get c2 now k = (Some i, c2))
         /\ (now - t0 > FetchInsight.InsightCache.CACHE_TTL ->
             fst (FetchInsight.InsightCache.get c2 now k) = None
             /\ forall later,
                  fst (FetchInsight.InsightCache.get
                         (snd (FetchInsight.InsightCache.get c2 now k)) later k) = None).
Proof.
  intros V c k v T t0 now c1. repeat split.
  - intros Hle. apply SimpleCache_fresh. lia.
  - unfold c1. rewrite SimpleCache_expired by lia. reflexivity.
  - intros later. unfold c1. rewrite SimpleCache_expired by lia. simpl.
    now rewrite SimpleCache_deleted.
  - intros Hle. apply InsightCache_fresh. lia.
  - rewrite InsightCache_expired by lia. reflexivity.
  - intros later. rewrite InsightCache_expired by lia. simpl.
    now rewrite InsightCache_deleted.
Qed.

(** The amended C3 at a concrete cache: fresh at the boundary, absent one
    millisecond later and on the read after that. *)
Lemma ttl_get_after_set_witness :
  let c1 := SimpleCache.set (JsMap.empty : SimpleCache.t Z) 0 "k" 7 1000 in
  SimpleCache.get c1 1000 "k" = (Some 7, c1)
  /\ fst (SimpleCache.get c1 1001 "k") = None
  /\ fst (SimpleCache.get (snd (SimpleCache.get c1 1001 "k")) 500 "k") = None.
Proof.
  pose proof (ttl_get_after_set (JsMap.empty : SimpleCache.t Z) "k" 7 1000 0 1000) as H1.
  pose proof (ttl_get_after_set (JsMap.empty : SimpleCache.t Z) "k" 7 1000 0 1001) as H2.
  simpl in H1, H2.
  destruct H1 as [H1 _]. destruct H2 as [_ [H2 _]].
  split; [apply H1; lia|].
  destruct H2 as [H2 H3]; [lia|].
  split; [exact H2 | exact (H3 500)].
Defined.
End TtlCache.

(** ** The data fingerprint *)

Module Fingerprint.
Section Facts.
Context `{JsRuntime}.

(** The array replacer keeps, in every object, only keys named on the
    property list; the nested keys are not on it. *)
Lemma dataString_constant (d : InsightInput.t) :
  FetchInsight.dataString d = Spec.emptyProjection.
Proof. reflexivity. Qed.

Lemma combined_dataString_constant p e w :
  Dashboard.dataString p e w = Spec.emptyProjection.
Proof. reflexivity. Qed.

Lemma generateDataHash_constant (a b : InsightInput.t) :
  FetchInsight.generateDataHash a = FetchInsight.generateDataHash b.
Proof.
  unfold FetchInsight.generateDataHash. now rewrite !dataString_constant.
Qed.

Lemma combined_generateDataHash_constant p e w p' e' w' :
  Dashboard.generateDataHash p e w = Dashboard.generateDataHash p' e' w'.
Proof.
  unfold Dashboard.generateDataHash. now rewrite !combined_dataString_constant.
Qed.

(** C7: two metric triples with equal normalized projections (index to one
    decimal, price to two decimals, temperature to the nearest five
    degrees, trend and alert strings identical) have the identical
    fingerprint, under the digest of fetchInsight.ts and under the one of
    dashboard.ts. The fingerprint is a function of the triple alone: it
    takes no cache and no clock. *)
Theorem fingerprint_stable :
  forall a b : InsightInput.t,
    Spec.sameNormalized a b ->
    FetchInsight.generateDataHash a = FetchInsight.generateDataHash b
    /\ Dashboard.generateDataHash
         (InsightInput.production a) (InsightInput.energy a) (InsightInput.weather a)
       = Dashboard.generateDataHash
           (InsightInput.production b) (InsightInput.energy b) (InsightInput.weather b).
Proof.
  intros a b _. split.
  - apply generateDataHash_constant.
  - apply combined_generateDataHash_constant.
Qed.
End Facts.

(** C7 at two triples that differ below the rounding granularity. *)
Lemma fingerprint_stable_witness :
  Spec.sameNormalized Sample.calm Sample.calm'
  /\ @FetchInsight.generateDataHash Sample.runtime Sample.calm
     = @FetchInsight.generateDataHash Sample.runtime Sample.calm'.
Proof.
  assert (Hn : Spec.sameNormalized Sample.calm Sample.calm')
    by (repeat split; reflexivity).
  split; [exact Hn|].
  exact (proj1 (@fingerprint_stable Sample.runtime Sample.calm Sample.calm' Hn)).
Defined.
End Fingerprint.

(** ** The rule-based fallback insight *)

Module RuleFallback.

Ltac by_cases :=
  repeat match goal with
         | |- context [if ?b then _ else _] => destruct b; simpl
         end;
  try reflexivity.

Lemma contextualFallback_firstMatch (d : InsightInput.t) :
  FetchInsight.contextualFallback d
  = Spec.firstMatch (Spec.priorityRules Spec.activeAlert) Spec.unavailable d.
Proof.
  unfold FetchInsight.contextualFallback, Spec.firstMatch, Spec.priorityRules,
    Spec.activeAlert.
  simpl. by_cases.
Qed.

Lemma generateFallbackInsight_firstMatch p e w :
  Dashboard.generateFallbackInsight p e w
  = Spec.firstMatch (Spec.priorityRules Spec.activeLiveAlert) Spec.unavailable
      (InsightInput.mk p e w).
Proof.
  unfold Dashboard.generateFallbackInsight, Spec.firstMatch, Spec.priorityRules,
    Spec.activeLiveAlert.
  simpl. by_cases.
Qed.

(** C8: the rule-based fallback insight is the pair of the first matching
    rule in the order extreme heat (temperature at least 100), energy trend
    up, active weather alert, production trend down, production trend up,
    and the generic unavailable pair when none matches; this holds for the
    fallback inside [analyzeInsight] and for [generateFallbackInsight] of
    the handler. In particular a triple with 104 degrees selects the
    extreme-heat pair whatever the energy trend. *)
Theorem fallback_priority_order :
  (forall d : InsightInput.t,
      FetchInsight.contextualFallback d
      = Spec.firstMatch (Spec.priorityRules Spec.activeAlert) Spec.unavailable d)
  /\ (forall p e w,
      Dashboard.generateFallbackInsight p e w
      = Spec.firstMatch (Spec.priorityRules Spec.activeLiveAlert) Spec.unavailable
          (InsightInput.mk p e w))
  /\ (forall p price trend alert,
      let e := EnergyData.mk price trend in
      let w := WeatherData.mk 104 alert in
      FetchInsight.contextualFallback (InsightInput.mk p e w) = Spec.extremeHeat
      /\ Dashboard.generateFallbackInsight p e w = Spec.extremeHeat).
Proof.
  split; [exact contextualFallback_firstMatch|].
  split; [exact generateFallbackInsight_firstMatch|].
  intros p price trend alert e w. split; reflexivity.
Qed.
End RuleFallback.

(** ** Input validation of [analyzeInsight] *)

Module Validation.

Lemma typeof_number v : String.eqb (Js.typeof v) "number" = Spec.isNumber v.
Proof. destruct v; reflexivity. Qed.

Lemma typeof_string v : String.eqb (Js.typeof v) "string" = Spec.isString v.
Proof. destruct v; reflexivity. Qed.

Lemma object_check v :
  negb (Js.truthy v) || negb (String.eqb (Js.typeof v) "object") = negb (Spec.isObject v).
Proof. destruct v; simpl; rewrite ?orb_true_r; reflexivity. Qed.

Lemma trend_check v :
  existsb (fun x => match v with JStr s => String.eqb x s | _ => false end)
          ["up"; "down"; "stable"]
  = Spec.isTrend v.
Proof.
  destruct v; try reflexivity.
  cbn [existsb Spec.isTrend].
  rewrite (String.eqb_sym "up"), (String.eqb_sym "down"), (String.eqb_sym "stable").
  now rewrite orb_false_r, orb_assoc.
Qed.

(** A property read that yields a number, or a string, has an object as
    its receiver. *)
Lemma number_prop_truthy v k : Spec.isNumber (Js.prop v k) = true -> Js.truthy v = true.
Proof. destruct v; simpl; try discriminate; reflexivity. Qed.

Lemma number_prop_object v k : Spec.isNumber (Js.prop v k) = true -> Spec.isObject v = true.
Proof. destruct v; simpl; try discriminate; reflexivity. Qed.

(** [validateInputData] accepts exactly the values that do not fail the
    shape validation as the design words it. *)
Lemma validateInputData_spec (data : jsval) :
  FetchInsight.validateInputData data = negb (Spec.failsShapeValidation data).
Proof.
  unfold FetchInsight.validateInputData, Spec.failsShapeValidation.
  rewrite object_check, !typeof_number, !typeof_string, trend_check.
  destruct (Spec.isObject data) eqn:Ho; simpl.
  2:{ reflexivity. }
  destruct (Spec.isNumber (Js.prop (Js.prop data "production") "index")) eqn:E1; simpl.
  2:{ now rewrite orb_true_r. }
  rewrite (number_prop_truthy _ _ E1). simpl.
  destruct (Spec.isNumber (Js.prop (Js.prop data "energy") "centsPerKwh")) eqn:E2; simpl.
  2:{ destruct (Spec.isString _); simpl; [|reflexivity].
      now rewrite orb_true_r. }
  rewrite (number_prop_truthy _ _ E2). simpl.
  destruct (Spec.isNumber (Js.prop (Js.prop data "weather") "temp")) eqn:E3; simpl.
  2:{ destruct (Spec.isString _); simpl; [|reflexivity].
      destruct (Spec.isTrend _); simpl; [|reflexivity].
      now rewrite orb_true_r. }
  rewrite (number_prop_truthy _ _ E3). simpl.
  destruct (Spec.isString (Js.prop (Js.prop data "production") "trend")); simpl.
  2:{ now rewrite orb_true_r. }
  destruct (Spec.isTrend _); simpl; [|reflexivity].
  destruct (Spec.isString _); reflexivity.
Qed.

Section Facts.
Context `{JsRuntime}.

(** C10: on every input that fails the shape validation (not an object, a
    production index, energy price or temperature that is not a number, an
    energy trend outside up, down, stable, a trend or alert that is not a
    string), [analyzeInsight] returns exactly the fixed invalid-data pair,
    leaves the insight cache as it was and performs no effect: no cache
    read, no cache write and no call of the external API. *)
Theorem invalid_input_short_circuit :
  forall (data : jsval) (t_get t_set : Z) (key : option string)
         (claude : Http.outcome FetchInsight.ClaudeApiResponse)
         (c : FetchInsight.InsightCache.t),
    Spec.failsShapeValidation data = true ->
    FetchInsight.analyzeInsight data t_get t_set key claude c
    = (InsightResponse.mk
         "Invalid data provided for analysis."
         "Please ensure all required data fields are present and valid.",
       c, []).
Proof.
  intros data t_get t_set key claude c Hfail.
  unfold FetchInsight.analyzeInsight.
  rewrite validateInputData_spec, Hfail. reflexivity.
Qed.
End Facts.

(** C10 at an input whose energy trend is the string rising, with a cache
    that holds an entry and an API that would answer. *)
Lemma invalid_input_short_circuit_witness :
  let data :=
    JObj [("production", JObj [("index", JNum (1024 # 10)); ("trend", JStr "→ No data")]);
          ("energy", JObj [("centsPerKwh", JNum (125 # 10)); ("trend", JStr "rising")]);
          ("weather", JObj [("temp", JNum 75); ("alert", JStr "none")])] in
  let c := FetchInsight.InsightCache.set JsMap.empty 0 "h" Sample.earlier in
  Spec.failsShapeValidation data = true
  /\ @FetchInsight.analyzeInsight Sample.runtime data 10 20 (Some "claude-key")
       Sample.claudeOk c
     = (FetchInsight.invalidInput, c, []).
Proof.
  intros data c.
  assert (Hf : Spec.failsShapeValidation data = true) by reflexivity.
  split; [exact Hf|].
  exact (@invalid_input_short_circuit Sample.runtime data 10 20 (Some "claude-key")
           Sample.claudeOk c Hf).
Defined.
End Validation.

(** ** Source fetchers: fallback on upstream failure *)

Module FetcherFallback.

Ltac thrown := eexists; reflexivity.

Section Facts.
Context `{JsRuntime}.

Lemma fred_tryFetch_fails up :
  Spec.UpstreamFailure Spec.fredWellShaped up -> exists e, FetchFred.tryFetch up = inl e.
Proof.
  intros Hf. destruct Hf as [e|r Hok|r Hok Hjson|r b Hok Hjson Hshape];
    unfold FetchFred.tryFetch.
  - thrown.
  - rewrite Hok. thrown.
  - rewrite Hok, Hjson. thrown.
  - rewrite Hok, Hjson. revert Hshape. unfold Spec.fredWellShaped.
    destruct (FetchFred.observations b) as [[|o obs]|]; cbv beta iota; try (intros; thrown).
    destruct (Js.sort_by _ _) as [|latest rest]; [intros; thrown|].
    destruct (parseFloat (FetchFred.value latest)); [discriminate | intros; thrown].
Qed.

Lemma eia_tryFetch_fails up :
  Spec.UpstreamFailure Spec.eiaWellShaped up -> exists e, FetchEia.tryFetch up = inl e.
Proof.
  intros Hf. destruct Hf as [e|r Hok|r Hok Hjson|r b Hok Hjson Hshape];
    unfold FetchEia.tryFetch.
  - thrown.
  - rewrite Hok. thrown.
  - rewrite Hok, Hjson. thrown.
  - rewrite Hok, Hjson. revert Hshape. unfold Spec.eiaWellShaped.
    destruct (FetchEia.response b) as [[[[|s ss]|]]|]; cbv beta iota;
      try (intros; thrown).
    cbn [FetchEia.series].
    destruct (FetchEia.data s) as [[|p pts]|]; cbv beta iota; try (intros; thrown).
    destruct (Js.sort_by _ _) as [|latest rest]; [intros; thrown|].
    intros Hshape. rewrite Hshape. thrown.
Qed.

Lemma weather_tryFetch_fails up :
  Spec.UpstreamFailure Spec.weatherWellShaped up ->
  exists e, FetchWeather.tryFetch up = inl e.
Proof.
  intros Hf. destruct Hf as [e|r Hok|r Hok Hjson|r b Hok Hjson Hshape];
    unfold FetchWeather.tryFetch.
  - thrown.
  - rewrite Hok. thrown.
  - rewrite Hok, Hjson. thrown.
  - rewrite Hok, Hjson. revert Hshape. unfold Spec.weatherWellShaped.
    destruct (FetchWeather.main_ b) as [m|]; cbv beta iota; try (intros; thrown).
    destruct (Qeq_bool (FetchWeather.temp m) 0); [intros; thrown | discriminate].
Qed.

(** With the credential configured, a fetcher settles with a value on
    every upstream outcome. *)
Lemma fred_never_raises t0 t1 key up cache :
  Spec.credential key = true ->
  exists v, fst (FetchFred.getProductionIndex t0 t1 key up cache) = inr v.
Proof.
  intros Hk. unfold FetchFred.getProductionIndex.
  destruct (SimpleCache.get cache t0 FetchFred.CACHE_KEY) as [[v|] c1]; simpl; eauto.
  destruct key as [k|]; simpl in Hk; [|discriminate].
  destruct (String.eqb k EmptyString); [discriminate|].
  destruct (FetchFred.tryFetch up); simpl; eauto.
Qed.

Lemma eia_never_raises t0 t1 key up cache :
  Spec.credential key = true ->
  exists v, fst (FetchEia.getEnergyPrice t0 t1 key up cache) = inr v.
Proof.
  intros Hk. unfold FetchEia.getEnergyPrice.
  destruct (SimpleCache.get cache t0 FetchEia.CACHE_KEY) as [[v|] c1]; simpl; eauto.
  destruct key as [k|]; simpl in Hk; [|discriminate].
  destruct (String.eqb k EmptyString); [discriminate|].
  destruct (FetchEia.tryFetch up); simpl; eauto.
Qed.

Lemma weather_never_raises t0 t1 key up cache :
  Spec.credential key = true ->
  exists v, fst (FetchWeather.getLocalWeather t0 t1 key up cache) = inr v.
Proof.
  intros Hk. unfold FetchWeather.getLocalWeather.
  destruct (SimpleCache.get cache t0 FetchWeather.CACHE_KEY) as [[v|] c1]; simpl; eauto.
  destruct key as [k|]; simpl in Hk; [|discriminate].
  destruct (String.eqb k EmptyString); [discriminate|].
  destruct (FetchWeather.tryFetch up); simpl; eauto.
Qed.

(** C5: when the upstream call of a fetcher fails at run time (the request
    times out or is rejected, the status is outside 2xx, the body is not
    JSON or has the wrong shape), the fetcher, having a credential and no
    fresh cached value, settles with exactly its fallback literal and does
    not raise: index 102.4 with the data-unavailable trend for production,
    12.5 cents with trend stable for energy, 75 degrees with the
    unavailable alert for weather. Nothing is stored in its cache. *)
Theorem fetchers_fall_back_on_upstream_failure :
  (forall t0 t1 key up cache,
      Spec.credential key = true ->
      fst (SimpleCache.get cache t0 FetchFred.CACHE_KEY) = None ->
      Spec.UpstreamFailure Spec.fredWellShaped up ->
      FetchFred.getProductionIndex t0 t1 key up cache
      = (inr (ProductionData.mk (1024 # 10) "→ Data unavailable"),
         snd (SimpleCache.get cache t0 FetchFred.CACHE_KEY)))
  /\ (forall t0 t1 key up cache,
      Spec.credential key = true ->
      fst (SimpleCache.get cache t0 FetchEia.CACHE_KEY) = None ->
      Spec.UpstreamFailure Spec.eiaWellShaped up ->
      FetchEia.getEnergyPrice t0 t1 key up cache
      = (inr (EnergyData.mk (125 # 10) stable),
         snd (SimpleCache.get cache t0 FetchEia.CACHE_KEY)))
  /\ (forall t0 t1 key up cache,
      Spec.credential key = true ->
      fst (SimpleCache.get cache t0 FetchWeather.CACHE_KEY) = None ->
      Spec.UpstreamFailure Spec.weatherWellShaped up ->
      FetchWeather.getLocalWeather t0 t1 key up cache
      = (inr (WeatherData.mk 75 "Weather data unavailable"),
         snd (SimpleCache.get cache t0 FetchWeather.CACHE_KEY))).
Proof.
  repeat split; intros t0 t1 key up cache Hk Hmiss Hfail.
  - unfold FetchFred.getProductionIndex.
    destruct (SimpleCache.get cache t0 FetchFred.CACHE_KEY) as [[v|] c1];
      simpl in *; [discriminate|].
    destruct key as [k|]; simpl in Hk; [|discriminate].
    destruct (String.eqb k EmptyString); [discriminate|].
    destruct (fred_tryFetch_fails Hfail) as [e He]. now rewrite He.
  - unfold FetchEia.getEnergyPrice.
    destruct (SimpleCache.get cache t0 FetchEia.CACHE_KEY) as [[v|] c1];
      simpl in *; [discriminate|].
    destruct key as [k|]; simpl in Hk; [|discriminate].
    destruct (String.eqb k EmptyString); [discriminate|].
    destruct (eia_tryFetch_fails Hfail) as [e He]. now rewrite He.
  - unfold FetchWeather.getLocalWeather.
    destruct (SimpleCache.get cache t0 FetchWeather.CACHE_KEY) as [[v|] c1];
      simpl in *; [discriminate|].
    destruct key as [k|]; simpl in Hk; [|discriminate].
    destruct (String.eqb k EmptyString); [discriminate|].
    destruct (weather_tryFetch_fails Hfail) as [e He]. now rewrite He.
Qed.
End Facts.

(** C5 at a time-out of the production API, a status 500 of the energy API
    and a weather body without temperature, each on an empty cache. *)
Lemma fetchers_fall_back_witness :
  let noMain : Http.outcome FetchWeather.WeatherResponse :=
    Http.Resolved {| Http.status := 200; Http.statusText := "OK";
                     Http.json := Some {| FetchWeather.main_ := None;
                                          FetchWeather.weather := None;
                                          FetchWeather.alerts := None |} |} in
  @FetchFred.getProductionIndex Sample.runtime 0 9 (Some "fred-key") Sample.timeout JsMap.empty
  = (inr (ProductionData.mk (1024 # 10) "→ Data unavailable"), JsMap.empty)
  /\ @FetchEia.getEnergyPrice Sample.runtime 0 9 (Some "eia-key") Sample.status500 JsMap.empty
     = (inr (EnergyData.mk (125 # 10) stable), JsMap.empty)
  /\ FetchWeather.getLocalWeather 0 9 (Some "weather-key") noMain JsMap.empty
     = (inr (WeatherData.mk 75 "Weather data unavailable"), JsMap.empty).
Proof.
  intros noMain.
  destruct (@fetchers_fall_back_on_upstream_failure Sample.runtime) as [Hp [He Hw]].
  split; [|split].
  - apply (Hp 0 9 (Some "fred-key") Sample.timeout JsMap.empty);
      [reflexivity | reflexivity | apply Spec.TimedOut].
  - apply (He 0 9 (Some "eia-key") Sample.status500 JsMap.empty);
      [reflexivity | reflexivity | apply Spec.BadStatus; reflexivity].
  - apply (Hw 0 9 (Some "weather-key") noMain JsMap.empty);
      [reflexivity | reflexivity |].
    eapply Spec.ShapeMismatch; reflexivity.
Defined.
End FetcherFallback.

(** ** Weather alert derivation *)

Module WeatherAlert.

Lemma tryFetch_success_inv up wd :
  FetchWeather.tryFetch up = inr wd ->
  exists response data m,
    up = Http.Resolved response
    /\ Http.ok response = true
    /\ Http.json response = Some data
    /\ FetchWeather.main_ data = Some m
    /\ Qeq_bool (FetchWeather.temp m) 0 = false
    /\ wd = WeatherData.mk (inject_Z (Js.Math_round (FetchWeather.temp m)))
              (FetchWeather.alertOf (Js.Math_round (FetchWeather.temp m)) data).
Proof.
  unfold FetchWeather.tryFetch. destruct up as [e|response]; [discriminate|].
  destruct (Http.ok response) eqn:Hok; [|discriminate].
  destruct (Http.json response) as [data|] eqn:Hjson; [|discriminate].
  destruct (FetchWeather.main_ data) as [m|] eqn:Hmain; [|discriminate].
  destruct (Qeq_bool (FetchWeather.temp m) 0) eqn:Hz; [discriminate|].
  intros Heq. inversion Heq. exists response, data, m. repeat split; assumption.
Qed.

(** The membership test of the code selects the severe-weather set. *)
Lemma includesId_severeCode (id : Z) :
  FetchWeather.includesId FetchWeather.severeWeatherIds id = Spec.severeCode id.
Proof.
  unfold FetchWeather.includesId, FetchWeather.severeWeatherIds, Spec.severeCode.
  cbn [existsb].
  repeat match goal with
         | |- context [Z.eqb id ?n] =>
             destruct (Z.eqb_spec id n) as [->|?]; [reflexivity|]
         end.
  cbn [orb].
  repeat match goal with
         | |- context [Z.leb ?a ?b] => destruct (Z.leb_spec a b)
         end; cbn [andb orb]; try reflexivity; lia.
Qed.

Lemma alertOf_none T data :
  Spec.severeCondition data = false -> 32 < T < 100 -> Spec.upstreamAlert data = None ->
  FetchWeather.alertOf T data = "none".
Proof.
  unfold FetchWeather.alertOf, Spec.severeCondition, Spec.conditionReported,
    Spec.upstreamAlert.
  intros Hsev Ht Hup.
  destruct (FetchWeather.alerts data) as [[|a r]|]; try discriminate;
    destruct (FetchWeather.weather data) as [[|c r']|]; try reflexivity;
    rewrite includesId_severeCode, Hsev;
    (destruct (T >=? 100) eqn:E1; [lia|]);
    (destruct (T <=? 32) eqn:E2; [lia|]); reflexivity.
Qed.

Lemma alertOf_upstream T data a :
  Spec.upstreamAlert data = Some a -> FetchWeather.alertOf T data = Spec.alertText a.
Proof.
  unfold FetchWeather.alertOf, Spec.upstreamAlert.
  destruct (FetchWeather.alerts data) as [[|a' r]|]; try discriminate.
  intros Heq. inversion Heq. reflexivity.
Qed.

Lemma alertOf_local T data c :
  Spec.upstreamAlert data = None ->
  Spec.conditionReported data = Some c ->
  (100 <= T -> FetchWeather.alertOf T data = "Extreme heat warning")
  /\ (T <= 32 -> FetchWeather.alertOf T data = "Freezing temperature alert")
  /\ (32 < T < 100 -> Spec.severeCode (FetchWeather.id c) = true ->
      FetchWeather.alertOf T data
      = FetchWeather.main c ++ ": " ++ FetchWeather.description c).
Proof.
  unfold FetchWeather.alertOf, Spec.upstreamAlert, Spec.conditionReported.
  intros Hup Hw.
  destruct (FetchWeather.weather data) as [[|c' rest]|]; try discriminate.
  inversion Hw; subst c'.
  rewrite includesId_severeCode.
  destruct (FetchWeather.alerts data) as [[|a r]|]; try discriminate.
  all: repeat split; intros;
    (destruct (T >=? 100) eqn:E1; try lia);
    (destruct (T <=? 32) eqn:E2; try lia); try reflexivity;
    match goal with Hs : _ = true |- _ => now rewrite Hs end.
Qed.

(** Without a reported condition the temperature is not looked at. *)
Lemma alertOf_no_condition T data :
  Spec.upstreamAlert data = None ->
  Spec.conditionReported data = None ->
  FetchWeather.alertOf T data = "none".
Proof.
  unfold FetchWeather.alertOf, Spec.upstreamAlert, Spec.conditionReported.
  intros Hup Hw.
  destruct (FetchWeather.weather data) as [[|c' rest]|]; try discriminate;
    destruct (FetchWeather.alerts data) as [[|a r]|]; try discriminate; reflexivity.
Qed.

(** C6: a successful fetch whose response reports 104 degrees, an empty
    list of conditions and no alert yields the alert none, where clause
    (b) of C6 promises the extreme-heat alert; one that reports 20 degrees
    yields none as well, where the clause promises the freezing alert. The
    two tests on the temperature sit inside the branch that is entered
    only when a condition is reported. *)
Lemma temperature_unread_without_condition :
  let up (T : Z) : Http.outcome FetchWeather.WeatherResponse :=
    Http.Resolved
      {| Http.status := 200; Http.statusText := "OK";
         Http.json := Some {| FetchWeather.main_ :=
                                Some {| FetchWeather.temp := inject_Z T |};
                              FetchWeather.weather := Some [];
                              FetchWeather.alerts := None |} |} in
  FetchWeather.tryFetch (up 104) = inr (WeatherData.mk 104 "none")
  /\ FetchWeather.tryFetch (up 20) = inr (WeatherData.mk 20 "none")
  /\ "none" <> "Extreme heat warning"
  /\ "none" <> "Freezing temperature alert".
Proof.
  cbv zeta. repeat split; try reflexivity; discriminate.
Qed.

(** X21: the alert of every successful weather fetch, with [T] the
    temperature of the response rounded. An upstream alert, when present,
    decides the text whatever the condition code and the temperature.
    Without one, and with a condition reported, [T >= 100] yields the
    extreme-heat alert and [T <= 32] the freezing alert, also over a
    severe code; between those bounds a severe code yields the text of
    the condition and any other code none. Without an upstream alert and
    without a reported condition the alert is none at every temperature. *)
Theorem weather_alert_rule :
  forall (up : Http.outcome FetchWeather.WeatherResponse) (wd : WeatherData.t),
    FetchWeather.tryFetch up = inr wd ->
    exists response data m T,
      up = Http.Resolved response /\ Http.json response = Some data
      /\ FetchWeather.main_ data = Some m /\ T = Js.Math_round (FetchWeather.temp m)
      /\ WeatherData.temp wd = inject_Z T
      /\ (forall a, Spec.upstreamAlert data = Some a ->
                    WeatherData.alert wd = Spec.alertText a)
      /\ (forall c,
             Spec.upstreamAlert data = None ->
             Spec.conditionReported data = Some c ->
             (100 <= T -> WeatherData.alert wd = "Extreme heat warning")
             /\ (T <= 32 -> WeatherData.alert wd = "Freezing temperature alert")
             /\ (32 < T < 100 -> Spec.severeCode (FetchWeather.id c) = true ->
                 WeatherData.alert wd
                 = FetchWeather.main c ++ ": " ++ FetchWeather.description c)
             /\ (32 < T < 100 -> Spec.severeCode (FetchWeather.id c) = false ->
                 WeatherData.alert wd = "none"))
      /\ (Spec.upstreamAlert data = None -> Spec.conditionReported data = None ->
          WeatherData.alert wd = "none").
Proof.
  intros up wd Hok.
  destruct (tryFetch_success_inv _ Hok) as (response & data & m & -> & _ & Hj & Hm & _ & ->).
  exists response, data, m, (Js.Math_round (FetchWeather.temp m)). simpl.
  split; [reflexivity|]. split; [assumption|]. split; [assumption|].
  split; [reflexivity|]. split; [reflexivity|].
  split; [intros a; apply alertOf_upstream|].
  split; [|apply alertOf_no_condition].
  intros c Hup Hc.
  destruct (alertOf_local (Js.Math_round (FetchWeather.temp m)) data Hup Hc)
    as (Hhot & Hcold & Hsev).
  repeat split; try assumption.
  intros Ht Hns. apply alertOf_none; try assumption.
  unfold Spec.severeCondition. now rewrite Hc.
Qed.

(** X21 at a thunderstorm of 72.4 degrees without upstream alert. *)
Lemma weather_alert_rule_witness :
  let body := {| FetchWeather.main_ := Some {| FetchWeather.temp := 724 # 10 |};
                 FetchWeather.weather :=
                   Some [{| FetchWeather.id := 211; FetchWeather.main := "Thunderstorm";
                            FetchWeather.description := "thunderstorm" |}];
                 FetchWeather.alerts := None |} in
  let up := Http.Resolved {| Http.status := 200; Http.statusText := "OK";
                             Http.json := Some body |} in
  FetchWeather.tryFetch up = inr (WeatherData.mk 72 "Thunderstorm: thunderstorm")
  /\ exists response data m T,
       up = Http.Resolved response /\ Http.json response = Some data
       /\ FetchWeather.main_ data = Some m /\ T = Js.Math_round (FetchWeather.temp m)
       /\ WeatherData.temp (WeatherData.mk 72 "Thunderstorm: thunderstorm") = inject_Z T.
Proof.
  intros body up.
  assert (Hrun : FetchWeather.tryFetch up
                 = inr (WeatherData.mk 72 "Thunderstorm: thunderstorm")) by reflexivity.
  split; [exact Hrun|].
  destruct (weather_alert_rule up Hrun)
    as (response & data & m & T & Hup & Hj & Hm & HT & Ht & _).
  exists response, data, m, T. repeat split; assumption.
Defined.
End WeatherAlert.

(** ** [lastFetched] of the aggregated response *)

Module LastFetched.

Lemma fetchWithCache_settles {T S : Type} (inj : T -> Dashboard.SourceData)
    (cast : Dashboard.SourceData -> T) source (fetchFn : S -> (exn + T) * S)
    fallback t0 t1 cache s :
  exists r c' s',
    Dashboard.fetchWithCache inj cast source fetchFn fallback t0 t1 cache s
    = (inr r, c', s').
Proof.
  unfold Dashboard.fetchWithCache.
  destruct (Dashboard.DashboardCache.getData cache t0 source) as [[e|] c1].
  - eauto.
  - destruct (fetchFn s) as [[err|d] s1].
    + eauto.
    + destruct (Dashboard.DashboardCache.getData _ t1 source) as [ce c3]. eauto.
Qed.

Lemma fetchWithCache_failure_stamp {T S : Type} (inj : T -> Dashboard.SourceData)
    (cast : Dashboard.SourceData -> T) source (fetchFn : S -> (exn + T) * S)
    fallback t0 t1 cache s e s1 :
  fst (Dashboard.DashboardCache.getData cache t0 source) = None ->
  fetchFn s = (inl e, s1) ->
  Dashboard.fetchWithCache inj cast source fetchFn fallback t0 t1 cache s
  = (inr {| Dashboard.value := fallback; Dashboard.fetchedAt := t1 |},
     snd (Dashboard.DashboardCache.getData cache t0 source), s1).
Proof.
  intros Hmiss Hf. unfold Dashboard.fetchWithCache.
  destruct (Dashboard.DashboardCache.getData cache t0 source) as [[x|] c1];
    simpl in *; [discriminate|].
  now rewrite Hf.
Qed.

(** C2: in the second of two requests served without a production
    credential, energy and weather succeed (from the cache, with the fetch
    times 1000 and 2000 of the first request) and production falls back
    at time 5000; [lastFetched] is 5000, the time of the failed source,
    where C2 says the maximum 2000 of the successful ones. The promise of
    [fetchWithCache] is fulfilled on a failure too, so that the test on
    fulfilment in [fetchAllData] lets the stamp of the failed source
    through. The same holds when the credential is present and the
    production API times out: the fetcher returns its fallback literal,
    which is stamped 5000. *)
Lemma lastFetched_failing_input :
  let env := Sample.keys None in
  let w := Sample.warmWorld in
  let clk := Sample.secondClock in
  (exists e c,
      @FetchFred.getProductionIndex Sample.runtime 4000 5000 None Sample.timeout
        (Dashboard.fredCache w) = (inl e, c))
  /\ (exists c s,
      @Dashboard.fetchProduction Sample.runtime env Sample.allDown clk
        (Dashboard.cache w) (Dashboard.fredCache w)
      = (inr {| Dashboard.value := Dashboard.fallbackProduction;
                Dashboard.fetchedAt := 5000 |}, c, s))
  /\ (exists v c s,
      @Dashboard.fetchEnergy Sample.runtime env Sample.allDown clk
        (Dashboard.cache w) (Dashboard.eiaCache w)
      = (inr {| Dashboard.value := v; Dashboard.fetchedAt := 1000 |}, c, s)
      /\ v <> Dashboard.fallbackEnergy)
  /\ (exists v c s,
      Dashboard.fetchWeather env Sample.allDown clk
        (Dashboard.cache w) (Dashboard.weatherCache w)
      = (inr {| Dashboard.value := v; Dashboard.fetchedAt := 2000 |}, c, s)
      /\ v <> Dashboard.fallbackWeather)
  /\ Dashboard.allLastFetched
       (fst (@Dashboard.fetchAllData Sample.runtime env Sample.allDown clk w)) = 5000
  /\ 5000 <> Z.max 1000 2000
  /\ (let out := fst (@Dashboard.fetchAllData Sample.runtime (Sample.keys (Some "fred-key"))
                        Sample.allDown clk w) in
      Dashboard.allProduction out = Dashboard.fallbackProduction
      /\ Dashboard.allLastFetched out = 5000).
Proof.
  cbv zeta. repeat split.
  - eexists _, _. reflexivity.
  - eexists _, _. reflexivity.
  - eexists _, _, _. split; [reflexivity | discriminate].
  - eexists _, _, _. split; [reflexivity | discriminate].
  - discriminate.
Qed.

Section Facts.
Context `{JsRuntime}.

Lemma fetchProduction_settles env up clk c s :
  exists r c' s', Dashboard.fetchProduction env up clk c s = (inr r, c', s').
Proof. apply fetchWithCache_settles. Qed.

Lemma fetchEnergy_settles env up clk c s :
  exists r c' s', Dashboard.fetchEnergy env up clk c s = (inr r, c', s').
Proof. apply fetchWithCache_settles. Qed.

Lemma fetchWeather_settles env up clk c s :
  exists r c' s', Dashboard.fetchWeather env up clk c s = (inr r, c', s').
Proof. apply fetchWithCache_settles. Qed.
End Facts.

End LastFetched.

(** ** The aggregation handler always answers 200 *)

Module AlwaysOk.
Section Facts.
Context `{JsRuntime}.

(** C4: for every request, server state, upstream behaviour and analyzer,
    the handler replies with status 200 and a payload made of the four
    metrics and the two time stamps; whenever the body of the handler
    raises, the payload is the static fallback snapshot, whose
    [lastInsightRun] is null. *)
Theorem handler_always_200 :
  forall (analyze : Dashboard.Analyzer) req env up clk w,
    let reply := fst (Dashboard.handlerWith analyze req env up clk w) in
    Dashboard.statusCode reply = 200
    /\ (exists p e wd i lf lir,
           Dashboard.body reply
           = {| Dashboard.payload :=
                  {| Dashboard.production := p; Dashboard.energy := e;
                     Dashboard.weather := wd; Dashboard.insightOf := i |};
                Dashboard.responseLastFetched := lf;
                Dashboard.responseLastInsightRun := lir |})
    /\ (forall ex w',
           Dashboard.handlerBody analyze req env up clk w = (inl ex, w') ->
           Dashboard.body reply
           = {| Dashboard.payload :=
                  {| Dashboard.production :=
                       ProductionData.mk (1024 # 10) "→ Data unavailable";
                     Dashboard.energy := EnergyData.mk (125 # 10) stable;
                     Dashboard.weather := WeatherData.mk 75 "Data unavailable";
                     Dashboard.insightOf :=
                       InsightResponse.mk "System temporarily unavailable"
                                          "Please try refreshing in a few minutes" |};
                Dashboard.responseLastFetched := Dashboard.t_catch clk;
                Dashboard.responseLastInsightRun := None |}).
Proof.
  intros analyze req env up clk w reply. subst reply.
  unfold Dashboard.handlerWith.
  destruct (Dashboard.handlerBody analyze req env up clk w) as [[ex|r] w'] eqn:Hb; simpl.
  - split; [reflexivity|]. split.
    + eexists _, _, _, _, _, _. reflexivity.
    + intros. reflexivity.
  - split; [reflexivity|]. split.
    + destruct r as [[p e wd i] lf lir]. eexists _, _, _, _, _, _. reflexivity.
    + intros ex w'' Hex. discriminate.
Qed.

(** The handler of the sources is the instance at the imported
    [analyzeInsight], which never raises. *)
Lemma analyzeInsight_never_raises env up clk d ic :
  exists r ic', Dashboard.analyzeInsight env up clk d ic = (inr r, ic').
Proof.
  unfold Dashboard.analyzeInsight.
  destruct (FetchInsight.analyzeInsight _ _ _ _ _ _) as [[r ic'] eff]. eauto.
Qed.
End Facts.

(** C4 at a request whose query object is undefined: reading the refresh
    flag raises inside the handler, and the reply is the fallback snapshot
    with status 200. *)
Lemma handler_always_200_witness :
  let req := {| Dashboard.query := None |} in
  let reply :=
    fst (@Dashboard.handler Sample.runtime req (Sample.keys None) Sample.allDown
           Sample.firstClock Dashboard.emptyWorld) in
  Dashboard.statusCode reply = 200
  /\ Dashboard.body reply = Dashboard.fallbackResponse 2100.
Proof.
  intros req reply.
  pose proof (@handler_always_200 Sample.runtime
                (@Dashboard.analyzeInsight Sample.runtime (Sample.keys None) Sample.allDown
                   Sample.firstClock)
                req (Sample.keys None) Sample.allDown Sample.firstClock Dashboard.emptyWorld)
    as (Hs & _ & Hf).
  split; [exact Hs|].
  exact (Hf (TypeError "Cannot read properties of undefined") Dashboard.emptyWorld eq_refl).
Defined.
End AlwaysOk.

(** ** The fallback chain of a failed insight generation *)

Module FallbackChain.

Ltac raised :=
  eexists _, _; split; [reflexivity | simpl; intuition discriminate].

Lemma InsightCache_get_some c t h v :
  fst (FetchInsight.InsightCache.get c t h) = Some v ->
  snd (FetchInsight.InsightCache.get c t h) = c.
Proof.
  unfold FetchInsight.InsightCache.get.
  destruct (JsMap.get c h) as [it|]; [|discriminate].
  destruct (t >? FetchInsight.InsightCache.expires it); [discriminate | reflexivity].
Qed.


Lemma getInsight_none c t h :
  fst (Dashboard.DashboardCache.getInsight c t h) = None ->
  JsMap.get (Dashboard.DashboardCache.insightCache
               (snd (Dashboard.DashboardCache.getInsight c t h))) h = None.
Proof.
  unfold Dashboard.DashboardCache.getInsight.
  destruct (JsMap.get (Dashboard.DashboardCache.insightCache c) h) as [it|] eqn:E.
  - destruct (t >? Dashboard.insightExpires it); [|discriminate].
    intros _. simpl. apply JsMapFacts.get_delete_same.
  - intros _. simpl. apply JsMapFacts.get_delete_same.
Qed.

(** The loop of [getLatestInsight]: the running maximum dominates the
    start value and every entry seen, and the running entry is either the
    initial one or an entry of the list that attains the maximum. *)
Lemma latest_fold (l : list Dashboard.InsightCacheEntry) :
  forall b t,
    let r := fold_left Dashboard.DashboardCache.latestStep l (b, t) in
    t <= snd r
    /\ (forall x, In x l -> Dashboard.lastInsightRun x <= snd r)
    /\ ((fst r = b /\ snd r = t)
        \/ exists e, In e l /\ fst r = Some e /\ snd r = Dashboard.lastInsightRun e).
Proof.
  induction l as [|x l IH]; intros b t; cbn [fold_left]; cbv zeta.
  - simpl. split; [lia|]. split; [tauto | now left].
  - assert (Hstep : Dashboard.DashboardCache.latestStep (b, t) x
                    = if Dashboard.lastInsightRun x >? t
                      then (Some x, Dashboard.lastInsightRun x) else (b, t))
      by reflexivity.
    rewrite Hstep. clear Hstep.
    destruct (Dashboard.lastInsightRun x >? t) eqn:E.
    + specialize (IH (Some x) (Dashboard.lastInsightRun x)). cbv zeta in IH.
      destruct IH as (Hle & Hall & Hsel).
      split; [lia|]. split.
      * intros y [<-|Hy]; [exact Hle | now apply Hall].
      * right. destruct Hsel as [[Hf Hs]|(e & He & Hf & Hs)].
        -- exists x. split; [now left | split; assumption].
        -- exists e. split; [now right | split; assumption].
    + specialize (IH b t). cbv zeta in IH.
      destruct IH as (Hle & Hall & Hsel).
      split; [exact Hle|]. split.
      * intros y [<-|Hy]; [lia | now apply Hall].
      * destruct Hsel as [Hsame|(e & He & Hf & Hs)]; [now left|].
        right. exists e. split; [now right | split; assumption].
Qed.

(** [getLatestInsight] answers an entry of greatest [lastInsightRun], and
    null only when no entry has a positive one. *)
Lemma getLatestInsight_spec (c : Dashboard.DashboardCache.t) :
  match Dashboard.DashboardCache.getLatestInsight c with
  | Some e =>
      In e (JsMap.values (Dashboard.DashboardCache.insightCache c))
      /\ forall x, In x (JsMap.values (Dashboard.DashboardCache.insightCache c)) ->
                   Dashboard.lastInsightRun x <= Dashboard.lastInsightRun e
  | None =>
      forall x, In x (JsMap.values (Dashboard.DashboardCache.insightCache c)) ->
                Dashboard.lastInsightRun x <= 0
  end.
Proof.
  unfold Dashboard.DashboardCache.getLatestInsight.
  destruct (latest_fold (JsMap.values (Dashboard.DashboardCache.insightCache c)) None 0)
    as (_ & Hall & Hsel).
  destruct Hsel as [[Hf Hs]|(e & He & Hf & Hs)].
  - rewrite Hf. intros x Hx. rewrite <- Hs. now apply Hall.
  - rewrite Hf. split; [assumption|]. intros x Hx. rewrite <- Hs. now apply Hall.
Qed.

Section Facts.
Context `{JsRuntime}.

(** The [try] block either raises, with the cache untouched and nothing
    written, or returns a validated response and stores it. *)
Lemma tryClaude_cases h t key claude c :
  (exists e eff,
      FetchInsight.tryClaude h t key claude c = (inl e, c, eff)
      /\ ~ In (FetchInsight.CacheSet h) eff)
  \/ (exists p,
      Spec.fromClaude p
      /\ FetchInsight.tryClaude h t key claude c
         = (inr p, FetchInsight.InsightCache.set c t h p,
            [FetchInsight.ClaudeFetch; FetchInsight.CacheSet h])).
Proof.
  unfold FetchInsight.tryClaude.
  destruct key as [k|]; [|left; raised].
  destruct (String.eqb k EmptyString); [left; raised|].
  destruct claude as [e|r]; [left; raised|].
  destruct (Http.ok r); simpl.
  2:{ left. destruct (Http.status r =? 401); [raised|].
      destruct (Http.status r =? 429); raised. }
  destruct (Http.json r) as [result|]; [|left; raised].
  destruct (FetchInsight.parseClaudeResponse (FetchInsight.firstText result))
    as [p|] eqn:Hp; [|left; raised].
  right. exists p. split; [|reflexivity].
  now exists (FetchInsight.firstText result).
Qed.

Lemma tryClaude_fails h t key claude c :
  Spec.GenerationFailure key claude ->
  exists e eff,
    FetchInsight.tryClaude h t key claude c = (inl e, c, eff)
    /\ ~ In (FetchInsight.CacheSet h) eff.
Proof.
  intros Hf. unfold FetchInsight.tryClaude.
  destruct key as [k|]; [|raised].
  destruct (String.eqb k EmptyString) eqn:Ek; [raised|].
  inversion Hf as [k0 cl Hc|k0 e|k0 r Hok|k0 r Hj|k0 r result Hj Hp]; subst.
  - simpl in Hc. rewrite Ek in Hc. discriminate.
  - raised.
  - rewrite Hok. simpl.
    destruct (Http.status r =? 401); [raised|].
    destruct (Http.status r =? 429); raised.
  - destruct (Http.ok r); simpl.
    + rewrite Hj. raised.
    + destruct (Http.status r =? 401); [raised|].
      destruct (Http.status r =? 429); raised.
  - destruct (Http.ok r); simpl.
    + rewrite Hj, Hp. raised.
    + destruct (Http.status r =? 401); [raised|].
      destruct (Http.status r =? 429); raised.
Qed.

(** What [analyzeInsight] answers after a failed generation. *)
Lemma analyzeInsight_on_failure data t_get t_set key claude c :
  FetchInsight.validateInputData data = true ->
  let d := FetchInsight.as_InsightInput data in
  let h := FetchInsight.generateDataHash d in
  fst (FetchInsight.InsightCache.get c t_get h) = None ->
  Spec.GenerationFailure key claude ->
  let c1 := snd (FetchInsight.InsightCache.get c t_get h) in
  exists eff,
    FetchInsight.analyzeInsight data t_get t_set key claude c
    = (match JsMap.values c1 with
       | first :: _ => FetchInsight.InsightCache.data first
       | [] => FetchInsight.contextualFallback d
       end, c1, eff)
    /\ ~ In (FetchInsight.CacheSet h) eff.
Proof.
  intros Hv d h Hmiss Hfail c1. subst c1.
  unfold FetchInsight.analyzeInsight. rewrite Hv. simpl.
  fold d. fold h.
  destruct (FetchInsight.InsightCache.get c t_get h) as [ci c1]. simpl in *. subst ci.
  destruct (tryClaude_fails h t_set c1 Hfail) as (e & eff & -> & Hno).
  destruct (JsMap.values c1) as [|first rest]; eexists; (split; [reflexivity|]);
    simpl; rewrite in_app_iff; simpl; intuition discriminate.
Qed.

(** The object literal built by the handler passes the validation and is
    read back as the triple it was built from. *)
Lemma toJs_valid d :
  FetchInsight.validateInputData (Dashboard.toJs d) = true
  /\ FetchInsight.as_InsightInput (Dashboard.toJs d) = d.
Proof.
  destruct d as [[i tr] [p t] [tp al]]. split.
  - destruct t; reflexivity.
  - destruct t; reflexivity.
Qed.
End Facts.

End FallbackChain.

(** ** What the insight cache holds *)

Module InsightCacheContent.

(** C9, as stated, fails twice. In the insight generator a failed
    generation does change the cache: the lookup that precedes the call
    evicts the stale entry of the current fingerprint. In the handler, a
    request served while every upstream API times out stores, under the
    current fingerprint and with a [lastInsightRun], the rule-based
    fallback insight that [analyzeInsight] returned. *)
Lemma insight_cache_counterexample :
  (let d := Sample.calm in
   let h := @FetchInsight.generateDataHash Sample.runtime d in
   let c := FetchInsight.InsightCache.set JsMap.empty 0 h Sample.earlier in
   let now := FetchInsight.InsightCache.CACHE_TTL + 1 in
   @Spec.GenerationFailure Sample.runtime (Some "claude-key") Sample.timeout
   /\ snd (fst (@FetchInsight.analyzeInsight Sample.runtime (Dashboard.toJs d) now now
                  (Some "claude-key") Sample.timeout c)) = JsMap.empty
   /\ c <> JsMap.empty)
  /\ (let env := Sample.keys (Some "fred-key") in
      let w' := snd (@Dashboard.handler Sample.runtime Sample.request env Sample.allDown
                       Sample.firstClock Dashboard.emptyWorld) in
      let triple := InsightInput.mk Dashboard.fallbackProduction Dashboard.fallbackEnergy
                      Dashboard.fallbackWeather in
      let h := @Dashboard.generateDataHash Sample.runtime Dashboard.fallbackProduction
                 Dashboard.fallbackEnergy Dashboard.fallbackWeather in
      JsMap.get (Dashboard.DashboardCache.insightCache (Dashboard.cache w')) h
      = Some {| Dashboard.insight := FetchInsight.contextualFallback triple;
                Dashboard.dataHash := h;
                Dashboard.lastInsightRun := 2100;
                Dashboard.insightExpires := 2100 + Dashboard.DashboardCache.INSIGHT_TTL |}
      /\ FetchInsight.contextualFallback triple = Spec.weatherAlert).
Proof.
  cbv zeta. split.
  - split; [apply Spec.ClaudeTimedOut|]. split; [reflexivity | discriminate].
  - split; reflexivity.
Qed.

Section Facts.
Context `{JsRuntime}.

Lemma onlyValidated_delete c k :
  Spec.onlyValidated c -> Spec.onlyValidated (JsMap.delete c k).
Proof.
  intros Hc k' it Hin. apply (Hc k' it). eapply JsMapFacts.In_delete; eassumption.
Qed.

Lemma onlyValidated_set c t k p :
  Spec.fromClaude p -> Spec.onlyValidated c ->
  Spec.onlyValidated (FetchInsight.InsightCache.set c t k p).
Proof.
  intros Hp Hc k' it Hin. unfold FetchInsight.InsightCache.set in Hin.
  destruct (JsMapFacts.In_set _ _ _ _ _ Hin) as [Heq|Hin'].
  - inversion Heq. subst. exact Hp.
  - now apply (Hc k' it).
Qed.

Lemma onlyValidated_get c t k :
  Spec.onlyValidated c ->
  Spec.onlyValidated (snd (FetchInsight.InsightCache.get c t k)).
Proof.
  intros Hc. unfold FetchInsight.InsightCache.get.
  destruct (JsMap.get c k) as [it|]; [|exact Hc].
  destruct (t >? FetchInsight.InsightCache.expires it); simpl;
    [now apply onlyValidated_delete | exact Hc].
Qed.

Lemma InsightCache_get_cache c t k :
  snd (FetchInsight.InsightCache.get c t k) = c
  \/ snd (FetchInsight.InsightCache.get c t k) = JsMap.delete c k.
Proof.
  unfold FetchInsight.InsightCache.get.
  destruct (JsMap.get c k) as [it|]; [|now left].
  destruct (t >? FetchInsight.InsightCache.expires it); simpl; [now right | now left].
Qed.

(** C9 (amended): in the cache of the insight generator every entry is a
    response that passed the parse and shape validation, and
    [analyzeInsight] keeps it so: it writes to that cache only the
    validated response it has just obtained and returns, never a rule-based
    fallback, the invalid-input pair or a reused insight. A failed
    generation writes nothing; it changes the cache at most by evicting the
    expired entry of the current fingerprint. *)
Theorem generator_cache_only_validated :
  forall data t_get t_set key claude c,
    let h := FetchInsight.generateDataHash (FetchInsight.as_InsightInput data) in
    let out := FetchInsight.analyzeInsight data t_get t_set key claude c in
    let r := fst (fst out) in
    let c' := snd (fst out) in
    let eff := snd out in
    (Spec.onlyValidated c -> Spec.onlyValidated c')
    /\ ((c' = c \/ c' = JsMap.delete c h) /\ ~ In (FetchInsight.CacheSet h) eff
        \/ Spec.fromClaude r
           /\ c' = FetchInsight.InsightCache.set
                     (snd (FetchInsight.InsightCache.get c t_get h)) t_set h r)
    /\ (Spec.GenerationFailure key claude ->
        (c' = c \/ c' = JsMap.delete c h) /\ ~ In (FetchInsight.CacheSet h) eff).
Proof.
  intros data t_get t_set key claude c h out r c' eff.
  subst r c' eff out. unfold FetchInsight.analyzeInsight.
  destruct (FetchInsight.validateInputData data); simpl.
  2:{ split; [tauto|]. split; [left|intros _]; (split; [now left | tauto]). }
  fold h.
  pose proof (onlyValidated_get t_get h (c := c)) as Hinv.
  pose proof (InsightCache_get_cache c t_get h) as Hc1.
  destruct (FetchInsight.InsightCache.get c t_get h) as [[cached|] c1]; simpl in *.
  - split; [exact Hinv|].
    split; [left|intros _]; (split; [exact Hc1 | simpl; intuition discriminate]).
  - destruct (FallbackChain.tryClaude_cases h t_set key claude c1) as [(e & ef & Ht & Hno)|(p & Hp & Ht)].
    + rewrite Ht.
      assert (Hno' : ~ In (FetchInsight.CacheSet h)
                       (FetchInsight.CacheGet h :: ef ++ [FetchInsight.CacheValues])).
      { simpl. rewrite in_app_iff. simpl. intuition discriminate. }
      destruct (JsMap.values c1); simpl;
        (split; [exact Hinv|]); (split; [left|intros _]); (split; [exact Hc1 | exact Hno']).
    + rewrite Ht. simpl. split.
      * intros Hc. apply onlyValidated_set; [exact Hp | now apply Hinv].
      * split; [right; split; [exact Hp | reflexivity]|].
        intros Hfail.
        destruct (FallbackChain.tryClaude_fails h t_set c1 Hfail) as (e & ef & Hf & _).
        rewrite Hf in Ht. discriminate.
Qed.
End Facts.

(** The amended C9 on a failed generation over a cache with one stale,
    validated entry: the entry is evicted and nothing is written. *)
Lemma generator_cache_only_validated_witness :
  let d := Sample.calm in
  let h := @FetchInsight.generateDataHash Sample.runtime d in
  let c := FetchInsight.InsightCache.set JsMap.empty 0 h Sample.earlier in
  let now := FetchInsight.InsightCache.CACHE_TTL + 1 in
  let out := @FetchInsight.analyzeInsight Sample.runtime (Dashboard.toJs d) now now
               (Some "claude-key") Sample.timeout c in
  @Spec.onlyValidated Sample.runtime c
  /\ @Spec.onlyValidated Sample.runtime (snd (fst out))
  /\ ~ In (FetchInsight.CacheSet h) (snd out).
Proof.
  intros d h c now out.
  assert (Hc : @Spec.onlyValidated Sample.runtime c).
  { intros k it [Heq|[]]. inversion Heq. subst. exists "{insight}". reflexivity. }
  destruct (@generator_cache_only_validated Sample.runtime (Dashboard.toJs d) now now
              (Some "claude-key") Sample.timeout c) as (Hinv & _ & Hfail).
  split; [exact Hc|]. split; [exact (Hinv Hc)|].
  exact (proj2 (Hfail (Spec.ClaudeTimedOut _ _))).
Defined.
End InsightCacheContent.

(** ** Runs of the model on concrete inputs *)

Module Runs.

Example braces_greedy :
  Js.match_braces "Here: {a} and {b} done" = Some "{a} and {b}".
Proof. reflexivity. Qed.

Example braces_absent : Js.match_braces "} no object {" = None.
Proof. reflexivity. Qed.

Example replacer_drops_nested_keys :
  @FetchInsight.dataString Sample.runtime Sample.hot
  = @FetchInsight.dataString Sample.runtime Sample.calm.
Proof. reflexivity. Qed.

Example heat_overrides_severe_code :
  FetchWeather.alertOf 104
    {| FetchWeather.main_ := Some {| FetchWeather.temp := 1041 # 10 |};
       FetchWeather.weather :=
         Some [{| FetchWeather.id := 211; FetchWeather.main := "Thunderstorm";
                  FetchWeather.description := "thunderstorm" |}];
       FetchWeather.alerts := None |}
  = "Extreme heat warning".
Proof. reflexivity. Qed.

Example severe_code_text :
  FetchWeather.alertOf 80
    {| FetchWeather.main_ := Some {| FetchWeather.temp := 80 |};
       FetchWeather.weather :=
         Some [{| FetchWeather.id := 211; FetchWeather.main := "Thunderstorm";
                  FetchWeather.description := "thunderstorm" |}];
       FetchWeather.alerts := None |}
  = "Thunderstorm: thunderstorm".
Proof. reflexivity. Qed.

Example heat_needs_a_condition :
  FetchWeather.alertOf 104
    {| FetchWeather.main_ := Some {| FetchWeather.temp := 104 |};
       FetchWeather.weather := Some [];
       FetchWeather.alerts := None |}
  = "none".
Proof. reflexivity. Qed.

Example upstream_alert_wins :
  FetchWeather.alertOf 104
    {| FetchWeather.main_ := Some {| FetchWeather.temp := 104 |};
       FetchWeather.weather :=
         Some [{| FetchWeather.id := 800; FetchWeather.main := "Clear";
                  FetchWeather.description := "clear sky" |}];
       FetchWeather.alerts :=
         Some [{| FetchWeather.event := "Dust Storm Warning";
                  FetchWeather.alert_description := "Blowing dust" |}] |}
  = "Dust Storm Warning".
Proof. reflexivity. Qed.

Example energy_live :
  fst (@FetchEia.getEnergyPrice Sample.runtime 0 10 (Some "eia-key") Sample.eiaOk JsMap.empty)
  = inr (EnergyData.mk (inject_Z 1280 / 100) up).
Proof. reflexivity. Qed.

Example production_live :
  fst (@FetchFred.getProductionIndex Sample.runtime 0 10 (Some "fred-key")
         (Http.Resolved
            {| Http.status := 200; Http.statusText := "OK";
               Http.json := Some
                 {| FetchFred.observations := Some
                      [{| FetchFred.date := "2024-01-01"; FetchFred.value := "102.0" |};
                       {| FetchFred.date := "2024-03-01"; FetchFred.value := "." |};
                       {| FetchFred.date := "2024-02-01"; FetchFred.value := "103.5" |}] |} |})
         JsMap.empty)
  = inr (ProductionData.mk (inject_Z 1035 / 10) "↑ 1.5% MoM").
Proof. reflexivity. Qed.

Example missing_credential_raises :
  fst (@FetchFred.getProductionIndex Sample.runtime 0 10 None Sample.timeout JsMap.empty)
  = inl (Error "FRED_API_KEY environment variable is required").
Proof. reflexivity. Qed.

Example insight_generated_and_cached :
  let h := @FetchInsight.generateDataHash Sample.runtime Sample.calm in
  @FetchInsight.analyzeInsight Sample.runtime (Dashboard.toJs Sample.calm) 10 20
    (Some "claude-key") Sample.claudeOk JsMap.empty
  = (Sample.earlier,
     FetchInsight.InsightCache.set JsMap.empty 20 h Sample.earlier,
     [FetchInsight.CacheGet h; FetchInsight.ClaudeFetch; FetchInsight.CacheSet h]).
Proof. reflexivity. Qed.

Example all_down_reply :
  let reply := fst (@Dashboard.handler Sample.runtime Sample.request
                      (Sample.keys (Some "fred-key")) Sample.allDown Sample.firstClock
                      Dashboard.emptyWorld) in
  Dashboard.statusCode reply = 200
  /\ Dashboard.responseLastFetched (Dashboard.body reply) = 2000
  /\ Dashboard.responseLastInsightRun (Dashboard.body reply) = Some 2100.
Proof. repeat split. Qed.
End Runs.

(* ================================================================== *)
(** * Further properties of the modelled code *)

(** ** More facts about [Map] *)

Module JsMapMore.
Section Facts.
Context {V : Type}.
Implicit Types (m : JsMap.t V) (k : string) (v : V).

Lemma get_delete_other m k k' :
  k <> k' -> JsMap.get (JsMap.delete m k) k' = JsMap.get m k'.
Proof.
  intros Hne. induction m as [|[k0 v0] m IH]; simpl; [reflexivity|].
  destruct (String.eqb k0 k) eqn:E; simpl.
  - apply String.eqb_eq in E. subst k0.
    destruct (String.eqb k k') eqn:E'; [apply String.eqb_eq in E'; contradiction | exact IH].
  - now rewrite IH.
Qed.

Lemma keys_set m k v :
  forall x, In x (JsMap.keys (JsMap.set m k v)) <-> x = k \/ In x (JsMap.keys m).
Proof.
  induction m as [|[k0 v0] m IH]; simpl; intros x.
  - intuition.
  - destruct (String.eqb k0 k) eqn:E; simpl.
    + apply String.eqb_eq in E. subst k0. intuition.
    + rewrite IH. intuition.
Qed.

Lemma keys_delete m k :
  forall x, In x (JsMap.keys (JsMap.delete m k)) -> In x (JsMap.keys m) /\ x <> k.
Proof.
  induction m as [|[k0 v0] m IH]; simpl; intros x; [tauto|].
  destruct (String.eqb k0 k) eqn:E; simpl.
  - intros Hx. destruct (IH x Hx). tauto.
  - intros [<-|Hx].
    + split; [now left|]. intros ->. now rewrite String.eqb_refl in E.
    + destruct (IH x Hx). tauto.
Qed.

Lemma NoDup_set m k v :
  NoDup (JsMap.keys m) -> NoDup (JsMap.keys (JsMap.set m k v)).
Proof.
  induction m as [|[k0 v0] m IH]; simpl; intros Hnd.
  - constructor; [tauto | constructor].
  - inversion Hnd as [|? ? Hnot Hrest]; subst.
    destruct (String.eqb k0 k) eqn:E; simpl.
    + apply String.eqb_eq in E. subst k0. now constructor.
    + constructor; [|now apply IH].
      rewrite keys_set. intros [->|Hin]; [|contradiction].
      now rewrite String.eqb_refl in E.
Qed.

Lemma NoDup_delete m k :
  NoDup (JsMap.keys m) -> NoDup (JsMap.keys (JsMap.delete m k)).
Proof.
  induction m as [|[k0 v0] m IH]; simpl; intros Hnd; [constructor|].
  inversion Hnd as [|? ? Hnot Hrest]; subst.
  destruct (String.eqb k0 k); simpl; [now apply IH|].
  constructor; [|now apply IH].
  intros Hin. now destruct (keys_delete _ _ _ Hin).
Qed.

Lemma size_set m k v :
  JsMap.size (JsMap.set m k v)
  = if JsMap.has m k then JsMap.size m else S (JsMap.size m).
Proof.
  unfold JsMap.has, JsMap.size.
  induction m as [|[k0 v0] m IH]; simpl; [reflexivity|].
  destruct (String.eqb k0 k); simpl; [reflexivity|].
  rewrite IH. now destruct (JsMap.get m k).
Qed.

(** A map all of whose keys are one and the same has at most one entry. *)
Lemma single_key_size m k0 :
  NoDup (JsMap.keys m) -> (forall x, In x (JsMap.keys m) -> x = k0) ->
  (JsMap.size m <= 1)%nat.
Proof.
  unfold JsMap.size. destruct m as [|[k1 v1] [|[k2 v2] m]]; simpl; intros Hnd Hall.
  - lia.
  - lia.
  - exfalso. inversion Hnd as [|? ? Hnot _]; subst. apply Hnot.
    rewrite (Hall k1), (Hall k2); simpl; auto.
Qed.
End Facts.
End JsMapMore.

(** ** The cache of the insight generator over a run *)

Module GeneratorCache.
Section Facts.
Context `{JsRuntime}.

(** The cache after a call of [analyzeInsight]: the old one, the old one
    without the entry of the fingerprint, or one of these two with a
    validated response stored under the fingerprint. *)
Lemma analyzeInsight_cache_shape data t_get t_set key claude c :
  let h := md5_hex Spec.emptyProjection in
  let c' := snd (fst (FetchInsight.analyzeInsight data t_get t_set key claude c)) in
  c' = c \/ c' = JsMap.delete c h
  \/ exists p, Spec.fromClaude p
               /\ (c' = FetchInsight.InsightCache.set c t_set h p
                   \/ c' = FetchInsight.InsightCache.set (JsMap.delete c h) t_set h p).
Proof.
  intros h c'. subst c'. unfold FetchInsight.analyzeInsight.
  destruct (FetchInsight.validateInputData data); simpl; [|now left].
  unfold FetchInsight.generateDataHash. rewrite Fingerprint.dataString_constant. fold h.
  pose proof (InsightCacheContent.InsightCache_get_cache c t_get h) as Hc1.
  destruct (FetchInsight.InsightCache.get c t_get h) as [[cached|] c1]; simpl in *.
  - destruct Hc1 as [->| ->]; auto.
  - destruct (FallbackChain.tryClaude_cases h t_set key claude c1)
      as [(e & ef & Ht & _)|(p & Hp & Ht)]; rewrite Ht.
    + destruct (JsMap.values c1); simpl; destruct Hc1 as [->| ->]; auto.
    + simpl. right. right. exists p. split; [exact Hp|].
      destruct Hc1 as [->| ->]; auto.
Qed.

(** X1: whatever calls of [analyzeInsight] and [clearInsightCache] a run
    of the process makes, the cache of the insight module holds at most
    one entry ([totalCached] is at most 1), its only possible key is the
    digest of the one string that the fingerprint function ever digests,
    and the insight it holds is a validated response. *)
Theorem generator_cache_single_entry :
  forall c : FetchInsight.InsightCache.t,
    Reach.insightCache c ->
    (InsightCacheUtil.getInsightCacheStats c <= 1)%nat
    /\ (forall k, In k (JsMap.keys c) -> k = md5_hex Spec.emptyProjection)
    /\ Spec.onlyValidated c.
Proof.
  intros c Hr.
  assert (Hinv : NoDup (JsMap.keys c)
                 /\ (forall k, In k (JsMap.keys c) -> k = md5_hex Spec.emptyProjection)
                 /\ Spec.onlyValidated c).
  { induction Hr as [|c data t_get t_set key claude Hr IH|c Hr IH].
    - split; [constructor|]. split; [intros k []|intros k it []].
    - destruct IH as (Hnd & Hk & Hv).
      destruct (analyzeInsight_cache_shape data t_get t_set key claude c)
        as [->|[->|(p & Hp & [->| ->])]].
      + auto.
      + split; [now apply JsMapMore.NoDup_delete|]. split.
        * intros k Hin. apply Hk. now destruct (JsMapMore.keys_delete _ _ _ Hin).
        * now apply InsightCacheContent.onlyValidated_delete.
      + split; [now apply JsMapMore.NoDup_set|]. split.
        * intros k Hin. apply JsMapMore.keys_set in Hin. destruct Hin; auto.
        * now apply InsightCacheContent.onlyValidated_set.
      + split; [now apply JsMapMore.NoDup_set, JsMapMore.NoDup_delete|]. split.
        * intros k Hin. apply JsMapMore.keys_set in Hin. destruct Hin as [|Hin]; auto.
          apply Hk. now destruct (JsMapMore.keys_delete _ _ _ Hin).
        * apply InsightCacheContent.onlyValidated_set; [exact Hp|].
          now apply InsightCacheContent.onlyValidated_delete.
    - split; [constructor|]. split; [intros k []|intros k it []]. }
  destruct Hinv as (Hnd & Hk & Hv).
  split; [|split; assumption].
  unfold InsightCacheUtil.getInsightCacheStats.
  eapply JsMapMore.single_key_size; eassumption.
Qed.
End Facts.

(** X1 after two generations for different metric triples, both answered
    by the API. *)
Lemma generator_cache_single_entry_witness :
  let c1 := snd (fst (@FetchInsight.analyzeInsight Sample.runtime (Dashboard.toJs Sample.calm)
                        10 20 (Some "claude-key") Sample.claudeOk JsMap.empty)) in
  let c2 := snd (fst (@FetchInsight.analyzeInsight Sample.runtime (Dashboard.toJs Sample.hot)
                        (31 * 60 * 1000) (31 * 60 * 1000 + 5) (Some "claude-key")
                        Sample.claudeOk c1)) in
  @Reach.insightCache Sample.runtime c2
  /\ (InsightCacheUtil.getInsightCacheStats c2 <= 1)%nat.
Proof.
  intros c1 c2.
  assert (Hr : @Reach.insightCache Sample.runtime c2).
  { apply Reach.insight_analyze. apply Reach.insight_analyze. apply Reach.insight_start. }
  split; [exact Hr|].
  exact (proj1 (@generator_cache_single_entry Sample.runtime c2 Hr)).
Defined.
End GeneratorCache.

(** ** What a failed generation falls back to *)

Module FailedGeneration.




Section Facts.
Context `{JsRuntime}.



End Facts.

End FailedGeneration.

(** ** Reuse of a generated insight *)

Module InsightReuse.
Section Facts.
Context `{JsRuntime}.

Lemma tryClaude_succeeds h t key r result p c :
  Spec.credential key = true ->
  Http.ok r = true -> Http.json r = Some result ->
  FetchInsight.parseClaudeResponse (FetchInsight.firstText result) = Some p ->
  FetchInsight.tryClaude h t key (Http.Resolved r) c
  = (inr p, FetchInsight.InsightCache.set c t h p,
     [FetchInsight.ClaudeFetch; FetchInsight.CacheSet h]).
Proof.
  intros Hk Hok Hj Hp. unfold FetchInsight.tryClaude.
  destruct key as [k|]; simpl in Hk; [|discriminate].
  destruct (String.eqb k EmptyString); [discriminate|].
  now rewrite Hok, Hj, Hp.
Qed.

Lemma analyzeInsight_generates data t0 t1 key r result p c :
  FetchInsight.validateInputData data = true ->
  fst (FetchInsight.InsightCache.get c t0 (md5_hex Spec.emptyProjection)) = None ->
  Spec.credential key = true ->
  Http.ok r = true -> Http.json r = Some result ->
  FetchInsight.parseClaudeResponse (FetchInsight.firstText result) = Some p ->
  let h := md5_hex Spec.emptyProjection in
  FetchInsight.analyzeInsight data t0 t1 key (Http.Resolved r) c
  = (p, FetchInsight.InsightCache.set (snd (FetchInsight.InsightCache.get c t0 h)) t1 h p,
     [FetchInsight.CacheGet h; FetchInsight.ClaudeFetch; FetchInsight.CacheSet h]).
Proof.
  intros Hv Hmiss Hk Hok Hj Hp h.
  unfold FetchInsight.analyzeInsight. rewrite Hv. cbn [negb].
  unfold FetchInsight.generateDataHash. rewrite Fingerprint.dataString_constant. fold h.
  fold h in Hmiss.
  destruct (FetchInsight.InsightCache.get c t0 h) as [ci c1]. cbn [fst snd] in *. subst ci.
  erewrite tryClaude_succeeds by eassumption. reflexivity.
Qed.

Lemma analyzeInsight_hit data t t' key claude c p :
  FetchInsight.validateInputData data = true ->
  FetchInsight.InsightCache.get c t (md5_hex Spec.emptyProjection) = (Some p, c) ->
  FetchInsight.analyzeInsight data t t' key claude c
  = (p, c, [FetchInsight.CacheGet (md5_hex Spec.emptyProjection)]).
Proof.
  intros Hv Hhit.
  unfold FetchInsight.analyzeInsight. rewrite Hv. cbn [negb].
  unfold FetchInsight.generateDataHash. rewrite Fingerprint.dataString_constant.
  now rewrite Hhit.
Qed.

(** X2: once a generation has succeeded, [analyzeInsight] answers every
    valid input, whatever its metrics, with that same insight for thirty
    minutes: it reads the cache, does not call the API and leaves the cache
    as it is, even when the credential has gone or the API is down. *)
Theorem generated_insight_reused_for_any_input :
  forall data1 data2 t0 t1 t2 t3 key r result p c key2 claude2,
    FetchInsight.validateInputData data1 = true ->
    FetchInsight.validateInputData data2 = true ->
    fst (FetchInsight.InsightCache.get c t0 (md5_hex Spec.emptyProjection)) = None ->
    Spec.credential key = true ->
    Http.ok r = true -> Http.json r = Some result ->
    FetchInsight.parseClaudeResponse (FetchInsight.firstText result) = Some p ->
    t2 <= t1 + FetchInsight.InsightCache.CACHE_TTL ->
    let out1 := FetchInsight.analyzeInsight data1 t0 t1 key (Http.Resolved r) c in
    fst (fst out1) = p
    /\ FetchInsight.analyzeInsight data2 t2 t3 key2 claude2 (snd (fst out1))
       = (p, snd (fst out1), [FetchInsight.CacheGet (md5_hex Spec.emptyProjection)]).
Proof.
  intros data1 data2 t0 t1 t2 t3 key r result p c key2 claude2
         Hv1 Hv2 Hmiss Hk Hok Hj Hp Hle out1.
  subst out1. erewrite analyzeInsight_generates by eassumption. cbn [fst snd].
  split; [reflexivity|].
  apply analyzeInsight_hit; [exact Hv2|].
  now apply TtlCache.InsightCache_fresh.
Qed.
End Facts.

(** X2 on a generation for a calm day, followed twenty minutes later by a
    request for a hot day while the API times out. *)
Lemma generated_insight_reused_witness :
  let out1 := @FetchInsight.analyzeInsight Sample.runtime (Dashboard.toJs Sample.calm)
                10 20 (Some "claude-key") Sample.claudeOk JsMap.empty in
  @FetchInsight.analyzeInsight Sample.runtime (Dashboard.toJs Sample.hot)
    (20 * 60 * 1000) (20 * 60 * 1000) None Sample.timeout (snd (fst out1))
  = (Sample.earlier, snd (fst out1),
     [FetchInsight.CacheGet (@md5_hex Sample.runtime Spec.emptyProjection)]).
Proof.
  intros out1.
  refine (proj2 (@generated_insight_reused_for_any_input Sample.runtime
                   (Dashboard.toJs Sample.calm) (Dashboard.toJs Sample.hot)
                   10 20 (20 * 60 * 1000) (20 * 60 * 1000) (Some "claude-key")
                   _ _ Sample.earlier JsMap.empty None Sample.timeout
                   _ _ _ _ _ _ _ _));
    try reflexivity.
  simpl. discriminate.
Defined.
End InsightReuse.

(** ** Source fetchers: cache hits and missing credentials *)

Module FetcherCache.
Section Facts.
Context `{JsRuntime}.

(** X3: a value fetched live is stored and served from the cache up to and
    including the instant at which its time to live has elapsed (one hour
    for production, ten minutes for energy, fifteen for weather); such a
    call consults neither the credential nor the upstream API and leaves
    the cache as it is. *)
Theorem live_value_served_from_cache :
  (forall t0 t1 key up cache result t0' t1' key' up',
      Spec.credential key = true ->
      fst (SimpleCache.get cache t0 FetchFred.CACHE_KEY) = None ->
      FetchFred.tryFetch up = inr result ->
      t0' <= t1 + 60 * 60 * 1000 ->
      let out := FetchFred.getProductionIndex t0 t1 key up cache in
      fst out = inr result
      /\ FetchFred.getProductionIndex t0' t1' key' up' (snd out) = (inr result, snd out))
  /\ (forall t0 t1 key up cache result t0' t1' key' up',
      Spec.credential key = true ->
      fst (SimpleCache.get cache t0 FetchEia.CACHE_KEY) = None ->
      FetchEia.tryFetch up = inr result ->
      t0' <= t1 + 10 * 60 * 1000 ->
      let out := FetchEia.getEnergyPrice t0 t1 key up cache in
      fst out = inr result
      /\ FetchEia.getEnergyPrice t0' t1' key' up' (snd out) = (inr result, snd out))
  /\ (forall t0 t1 key up cache result t0' t1' key' up',
      Spec.credential key = true ->
      fst (SimpleCache.get cache t0 FetchWeather.CACHE_KEY) = None ->
      FetchWeather.tryFetch up = inr result ->
      t0' <= t1 + 15 * 60 * 1000 ->
      let out := FetchWeather.getLocalWeather t0 t1 key up cache in
      fst out = inr result
      /\ FetchWeather.getLocalWeather t0' t1' key' up' (snd out) = (inr result, snd out)).
Proof.
  split; [|split];
    intros t0 t1 key up cache result t0' t1' key' up' Hk Hmiss Hlive Hle out;
    subst out;
    unfold FetchFred.getProductionIndex, FetchEia.getEnergyPrice,
      FetchWeather.getLocalWeather;
    (destruct (SimpleCache.get cache t0 _) as [[v|] c1]; cbn [fst snd] in Hmiss;
       [discriminate|]);
    (destruct key as [k|]; simpl in Hk; [|discriminate]);
    (destruct (String.eqb k EmptyString); [discriminate|]);
    rewrite Hlive; cbn [fst snd]; (split; [reflexivity|]);
    rewrite TtlCache.SimpleCache_fresh by assumption; reflexivity.
Qed.

(** X4: without a credential (unset or empty) and without a fresh cached
    value, a fetcher raises its configuration error before any request is
    made, whatever the upstream would answer, and stores nothing. *)
Theorem credential_required_before_request :
  (forall t0 t1 key up cache,
      Spec.credential key = false ->
      fst (SimpleCache.get cache t0 FetchFred.CACHE_KEY) = None ->
      FetchFred.getProductionIndex t0 t1 key up cache
      = (inl (Error "FRED_API_KEY environment variable is required"),
         snd (SimpleCache.get cache t0 FetchFred.CACHE_KEY)))
  /\ (forall t0 t1 key up cache,
      Spec.credential key = false ->
      fst (SimpleCache.get cache t0 FetchEia.CACHE_KEY) = None ->
      FetchEia.getEnergyPrice t0 t1 key up cache
      = (inl (Error "EIA_API_KEY environment variable is required"),
         snd (SimpleCache.get cache t0 FetchEia.CACHE_KEY)))
  /\ (forall t0 t1 key up cache,
      Spec.credential key = false ->
      fst (SimpleCache.get cache t0 FetchWeather.CACHE_KEY) = None ->
      FetchWeather.getLocalWeather t0 t1 key up cache
      = (inl (Error "WEATHER_API_KEY environment variable is required"),
         snd (SimpleCache.get cache t0 FetchWeather.CACHE_KEY))).
Proof.
  split; [|split]; intros t0 t1 key up cache Hk Hmiss;
    unfold FetchFred.getProductionIndex, FetchEia.getEnergyPrice,
      FetchWeather.getLocalWeather;
    (destruct (SimpleCache.get cache t0 _) as [[v|] c1]; simpl in Hmiss; [discriminate|]);
    (destruct key as [k|]; simpl in Hk; [|reflexivity]);
    (destruct (String.eqb k EmptyString); [reflexivity | discriminate]).
Qed.
End Facts.

(** X3 on an energy price fetched at time 10 and asked for again at the
    last instant of its ten minutes, by then without credential. *)
Lemma live_value_served_from_cache_witness :
  let out := @FetchEia.getEnergyPrice Sample.runtime 0 10 (Some "eia-key")
               Sample.eiaOk JsMap.empty in
  @FetchEia.getEnergyPrice Sample.runtime 600010 600020 None Sample.timeout (snd out)
  = (inr (EnergyData.mk (inject_Z 1280 / 100) up), snd out).
Proof.
  intros out.
  destruct (@live_value_served_from_cache Sample.runtime) as (_ & He & _).
  refine (proj2 (He 0 10 (Some "eia-key") Sample.eiaOk JsMap.empty
                   (EnergyData.mk (inject_Z 1280 / 100) up)
                   600010 600020 None Sample.timeout _ _ _ _));
    try reflexivity; try (simpl; discriminate).
Defined.

(** X4 on an empty credential string. *)
Lemma credential_required_before_request_witness :
  FetchWeather.getLocalWeather 0 10 (Some EmptyString) Sample.weatherOk JsMap.empty
  = (inl (Error "WEATHER_API_KEY environment variable is required"), JsMap.empty).
Proof.
  destruct (@credential_required_before_request Sample.runtime) as (_ & _ & Hw).
  apply (Hw 0 10 (Some EmptyString) Sample.weatherOk JsMap.empty); reflexivity.
Defined.
End FetcherCache.

(** ** The per-source cache of the handler *)

Module SourceCache.

Lemma getTTL_nonneg source : 0 <= Dashboard.DashboardCache.getTTL source.
Proof.
  unfold Dashboard.DashboardCache.getTTL.
  destruct (String.eqb source "fred"); [unfold Dashboard.DashboardCache.FRED_TTL; lia|].
  destruct (String.eqb source "eia"); [unfold Dashboard.DashboardCache.EIA_TTL; lia|].
  destruct (String.eqb source "weather");
    [unfold Dashboard.DashboardCache.WEATHER_TTL; lia
    |unfold Dashboard.DashboardCache.EIA_TTL; lia].
Qed.

Lemma getData_fresh c t k d ttl t' :
  t' <= t + ttl ->
  Dashboard.DashboardCache.getData (Dashboard.DashboardCache.setData c t k d ttl) t' k
  = (Some {| Dashboard.data := d; Dashboard.lastFetched := t; Dashboard.expires := t + ttl |},
     Dashboard.DashboardCache.setData c t k d ttl).
Proof.
  intros Hle. unfold Dashboard.DashboardCache.getData, Dashboard.DashboardCache.setData.
  cbn [Dashboard.DashboardCache.dataCache]. rewrite JsMapFacts.get_set_same.
  cbn [Dashboard.expires].
  destruct (t' >? t + ttl) eqn:E; [lia | reflexivity].
Qed.

(** A lookup that reports absent leaves no entry under the key and does
    not touch the insight entries. *)
Lemma getData_miss c t k :
  fst (Dashboard.DashboardCache.getData c t k) = None ->
  JsMap.get (Dashboard.DashboardCache.dataCache
               (snd (Dashboard.DashboardCache.getData c t k))) k = None.
Proof.
  unfold Dashboard.DashboardCache.getData.
  destruct (JsMap.get (Dashboard.DashboardCache.dataCache c) k) as [it|].
  - destruct (t >? Dashboard.expires it); [|discriminate].
    intros _. apply JsMapFacts.get_delete_same.
  - intros _. apply JsMapFacts.get_delete_same.
Qed.

Lemma getData_insightCache c t k :
  Dashboard.DashboardCache.insightCache (snd (Dashboard.DashboardCache.getData c t k))
  = Dashboard.DashboardCache.insightCache c.
Proof.
  unfold Dashboard.DashboardCache.getData.
  destruct (JsMap.get (Dashboard.DashboardCache.dataCache c) k) as [it|]; [|reflexivity].
  destruct (t >? Dashboard.expires it); reflexivity.
Qed.

Section Generic.
Context {T S : Type}.
Variable inj : T -> Dashboard.SourceData.
Variable cast : Dashboard.SourceData -> T.
Hypothesis cast_inj : forall d, cast (inj d) = d.

Lemma fetchWithCache_live source (fetchFn : S -> (exn + T) * S) fallback t0 t1 c s d s1 :
  fst (Dashboard.DashboardCache.getData c t0 source) = None ->
  fetchFn s = (inr d, s1) ->
  Dashboard.fetchWithCache inj cast source fetchFn fallback t0 t1 c s
  = (inr {| Dashboard.value := d; Dashboard.fetchedAt := t1 |},
     Dashboard.DashboardCache.setData (snd (Dashboard.DashboardCache.getData c t0 source))
       t1 source (inj d) (Dashboard.DashboardCache.getTTL source),
     s1).
Proof.
  intros Hmiss Hf. unfold Dashboard.fetchWithCache.
  destruct (Dashboard.DashboardCache.getData c t0 source) as [[e|] c1];
    cbn [fst snd] in *; [discriminate|].
  rewrite Hf.
  rewrite getData_fresh by (pose proof (getTTL_nonneg source); lia).
  reflexivity.
Qed.

Lemma fetchWithCache_hit source (fetchFn : S -> (exn + T) * S) fallback t0 t1 c s e :
  Dashboard.DashboardCache.getData c t0 source = (Some e, c) ->
  Dashboard.fetchWithCache inj cast source fetchFn fallback t0 t1 c s
  = (inr {| Dashboard.value := cast (Dashboard.data e);
            Dashboard.fetchedAt := Dashboard.lastFetched e |}, c, s).
Proof.
  intros Hhit. unfold Dashboard.fetchWithCache. now rewrite Hhit.
Qed.

(** A call that finds the entry stored by [setData] still unexpired. *)
Lemma fetchWithCache_again source (fetchFn : S -> (exn + T) * S) fallback
      t1 t0' t1' c s d :
  t0' <= t1 + Dashboard.DashboardCache.getTTL source ->
  let c2 := Dashboard.DashboardCache.setData c t1 source (inj d)
              (Dashboard.DashboardCache.getTTL source) in
  Dashboard.fetchWithCache inj cast source fetchFn fallback t0' t1' c2 s
  = (inr {| Dashboard.value := d; Dashboard.fetchedAt := t1 |}, c2, s).
Proof.
  intros Hle c2. subst c2.
  erewrite fetchWithCache_hit by (apply getData_fresh; exact Hle).
  cbn [Dashboard.data Dashboard.lastFetched]. now rewrite cast_inj.
Qed.

(** X5: a value that [fetchWithCache] has fetched live is stored under the
    source with the time of storing, and every later call for that source
    up to the end of the source's time to live returns that value and that
    time stamp without calling the fetch function, whichever function and
    fallback it is given. *)
Theorem fetched_value_cached_for_ttl :
  forall source (fetchFn fetchFn' : S -> (exn + T) * S) fallback fallback'
         t0 t1 t0' t1' c s s' d s1,
    fst (Dashboard.DashboardCache.getData c t0 source) = None ->
    fetchFn s = (inr d, s1) ->
    t0' <= t1 + Dashboard.DashboardCache.getTTL source ->
    let out := Dashboard.fetchWithCache inj cast source fetchFn fallback t0 t1 c s in
    let c2 := snd (fst out) in
    fst (fst out) = inr {| Dashboard.value := d; Dashboard.fetchedAt := t1 |}
    /\ snd out = s1
    /\ Dashboard.fetchWithCache inj cast source fetchFn' fallback' t0' t1' c2 s'
       = (inr {| Dashboard.value := d; Dashboard.fetchedAt := t1 |}, c2, s').
Proof.
  intros source fetchFn fetchFn' fallback fallback' t0 t1 t0' t1' c s s' d s1
         Hmiss Hf Hle out c2.
  subst c2 out. erewrite fetchWithCache_live by eassumption. cbn [fst snd].
  split; [reflexivity|]. split; [reflexivity|].
  now apply fetchWithCache_again.
Qed.
End Generic.

Section Facts.
Context `{JsRuntime}.

(** X6: when the production API fails at run time while the credential is
    configured, the fetcher's fallback literal counts as fetched data: the
    handler stores it under the source with the time of the failure and
    serves it, with that time stamp, to every request of the following
    hour, without asking the API again. The energy and weather fallbacks
    are kept alike for ten and fifteen minutes. *)
Theorem runtime_fallback_is_cached :
  (forall env up clk c s env' up' clk' s',
      Spec.credential (Dashboard.FRED_API_KEY env) = true ->
      fst (Dashboard.DashboardCache.getData c (Dashboard.fred_t0 clk) "fred") = None ->
      fst (SimpleCache.get s (Dashboard.fred_t0 clk) FetchFred.CACHE_KEY) = None ->
      Spec.UpstreamFailure Spec.fredWellShaped (Dashboard.fred up) ->
      Dashboard.fred_t0 clk' <= Dashboard.fred_t1 clk + 60 * 60 * 1000 ->
      let out := Dashboard.fetchProduction env up clk c s in
      let served := {| Dashboard.value := ProductionData.mk (1024 # 10) "→ Data unavailable";
                       Dashboard.fetchedAt := Dashboard.fred_t1 clk |} in
      fst (fst out) = inr served
      /\ Dashboard.fetchProduction env' up' clk' (snd (fst out)) s'
         = (inr served, snd (fst out), s'))
  /\ (forall env up clk c s env' up' clk' s',
      Spec.credential (Dashboard.EIA_API_KEY env) = true ->
      fst (Dashboard.DashboardCache.getData c (Dashboard.eia_t0 clk) "eia") = None ->
      fst (SimpleCache.get s (Dashboard.eia_t0 clk) FetchEia.CACHE_KEY) = None ->
      Spec.UpstreamFailure Spec.eiaWellShaped (Dashboard.eia up) ->
      Dashboard.eia_t0 clk' <= Dashboard.eia_t1 clk + 10 * 60 * 1000 ->
      let out := Dashboard.fetchEnergy env up clk c s in
      let served := {| Dashboard.value := EnergyData.mk (125 # 10) stable;
                       Dashboard.fetchedAt := Dashboard.eia_t1 clk |} in
      fst (fst out) = inr served
      /\ Dashboard.fetchEnergy env' up' clk' (snd (fst out)) s'
         = (inr served, snd (fst out), s'))
  /\ (forall env up clk c s env' up' clk' s',
      Spec.credential (Dashboard.WEATHER_API_KEY env) = true ->
      fst (Dashboard.DashboardCache.getData c (Dashboard.weather_t0 clk) "weather") = None ->
      fst (SimpleCache.get s (Dashboard.weather_t0 clk) FetchWeather.CACHE_KEY) = None ->
      Spec.UpstreamFailure Spec.weatherWellShaped (Dashboard.openWeather up) ->
      Dashboard.weather_t0 clk' <= Dashboard.weather_t1 clk + 15 * 60 * 1000 ->
      let out := Dashboard.fetchWeather env up clk c s in
      let served := {| Dashboard.value := WeatherData.mk 75 "Weather data unavailable";
                       Dashboard.fetchedAt := Dashboard.weather_t1 clk |} in
      fst (fst out) = inr served
      /\ Dashboard.fetchWeather env' up' clk' (snd (fst out)) s'
         = (inr served, snd (fst out), s')).
Proof.
  split; [|split];
    intros env up clk c s env' up' clk' s' Hk Hmiss Hs Hfail Hle out served.
  - assert (Hf : exists s1,
               FetchFred.getProductionIndex (Dashboard.fred_t0 clk) (Dashboard.fred_t1 clk)
                 (Dashboard.FRED_API_KEY env) (Dashboard.fred up) s
               = (inr (ProductionData.mk (1024 # 10) "→ Data unavailable"), s1)).
    { unfold FetchFred.getProductionIndex.
      destruct (SimpleCache.get s _ _) as [[v|] s1]; cbn [fst] in Hs; [discriminate|].
      destruct (Dashboard.FRED_API_KEY env) as [k|]; simpl in Hk; [|discriminate].
      destruct (String.eqb k EmptyString); [discriminate|].
      destruct (FetcherFallback.fred_tryFetch_fails Hfail) as [e ->]. eauto. }
    destruct Hf as [s1 Hf].
    subst out served. unfold Dashboard.fetchProduction.
    erewrite fetchWithCache_live by eassumption. cbn [fst snd].
    split; [reflexivity|].
    now apply (@fetchWithCache_again _ _ Dashboard.OfProduction Dashboard.asProduction
                 (fun d => eq_refl)).
  - assert (Hf : exists s1,
               FetchEia.getEnergyPrice (Dashboard.eia_t0 clk) (Dashboard.eia_t1 clk)
                 (Dashboard.EIA_API_KEY env) (Dashboard.eia up) s
               = (inr (EnergyData.mk (125 # 10) stable), s1)).
    { unfold FetchEia.getEnergyPrice.
      destruct (SimpleCache.get s _ _) as [[v|] s1]; cbn [fst] in Hs; [discriminate|].
      destruct (Dashboard.EIA_API_KEY env) as [k|]; simpl in Hk; [|discriminate].
      destruct (String.eqb k EmptyString); [discriminate|].
      destruct (FetcherFallback.eia_tryFetch_fails Hfail) as [e ->]. eauto. }
    destruct Hf as [s1 Hf].
    subst out served. unfold Dashboard.fetchEnergy.
    erewrite fetchWithCache_live by eassumption. cbn [fst snd].
    split; [reflexivity|].
    now apply (@fetchWithCache_again _ _ Dashboard.OfEnergy Dashboard.asEnergy
                 (fun d => eq_refl)).
  - assert (Hf : exists s1,
               FetchWeather.getLocalWeather (Dashboard.weather_t0 clk) (Dashboard.weather_t1 clk)
                 (Dashboard.WEATHER_API_KEY env) (Dashboard.openWeather up) s
               = (inr (WeatherData.mk 75 "Weather data unavailable"), s1)).
    { unfold FetchWeather.getLocalWeather.
      destruct (SimpleCache.get s _ _) as [[v|] s1]; cbn [fst] in Hs; [discriminate|].
      destruct (Dashboard.WEATHER_API_KEY env) as [k|]; simpl in Hk; [|discriminate].
      destruct (String.eqb k EmptyString); [discriminate|].
      destruct (FetcherFallback.weather_tryFetch_fails Hfail) as [e ->]. eauto. }
    destruct Hf as [s1 Hf].
    subst out served. unfold Dashboard.fetchWeather.
    erewrite fetchWithCache_live by eassumption. cbn [fst snd].
    split; [reflexivity|].
    now apply (@fetchWithCache_again _ _ Dashboard.OfWeather Dashboard.asWeather
                 (fun d => eq_refl)).
Qed.

(** X7: without a production credential and without a cached value, the
    handler's production fetch settles with the fallback literal stamped
    with the time of the failure, and stores nothing under the source, so
    that the next request tries again. *)
Theorem missing_credential_is_not_cached :
  forall env up clk c s,
    Spec.credential (Dashboard.FRED_API_KEY env) = false ->
    fst (Dashboard.DashboardCache.getData c (Dashboard.fred_t0 clk) "fred") = None ->
    fst (SimpleCache.get s (Dashboard.fred_t0 clk) FetchFred.CACHE_KEY) = None ->
    let out := Dashboard.fetchProduction env up clk c s in
    fst (fst out)
    = inr {| Dashboard.value := ProductionData.mk (1024 # 10) "→ Data unavailable";
             Dashboard.fetchedAt := Dashboard.fred_t1 clk |}
    /\ JsMap.get (Dashboard.DashboardCache.dataCache (snd (fst out))) "fred" = None
    /\ JsMap.get (snd out) FetchFred.CACHE_KEY = None.
Proof.
  intros env up clk c s Hk Hmiss Hs out. subst out.
  unfold Dashboard.fetchProduction.
  assert (Hf : FetchFred.getProductionIndex (Dashboard.fred_t0 clk) (Dashboard.fred_t1 clk)
                 (Dashboard.FRED_API_KEY env) (Dashboard.fred up) s
               = (inl (Error "FRED_API_KEY environment variable is required"),
                  snd (SimpleCache.get s (Dashboard.fred_t0 clk) FetchFred.CACHE_KEY))).
  { unfold FetchFred.getProductionIndex.
    destruct (SimpleCache.get s _ _) as [[v|] s1]; cbn [fst] in Hs; [discriminate|].
    destruct (Dashboard.FRED_API_KEY env) as [k|]; simpl in Hk; [|reflexivity].
    destruct (String.eqb k EmptyString); [reflexivity | discriminate]. }
  erewrite LastFetched.fetchWithCache_failure_stamp by eassumption.
  cbn [fst snd]. split; [reflexivity|]. split.
  - now apply getData_miss.
  - revert Hs. unfold SimpleCache.get.
    destruct (JsMap.get s FetchFred.CACHE_KEY) as [it|] eqn:E; cbn [fst snd].
    + destruct (Dashboard.fred_t0 clk >? SimpleCache.expires it); [|discriminate].
      intros _. apply JsMapFacts.get_delete_same.
    + intros _. exact E.
Qed.
End Facts.

(** X5 on an energy price fetched at time 10 and asked for again at time
    500, by then without credential and with the API timing out. *)
Lemma fetched_value_cached_for_ttl_witness :
  let fetch1 := @FetchEia.getEnergyPrice Sample.runtime 0 10 (Some "eia-key") Sample.eiaOk in
  let fetch2 := @FetchEia.getEnergyPrice Sample.runtime 500 510 None Sample.timeout in
  let out := Dashboard.fetchWithCache Dashboard.OfEnergy Dashboard.asEnergy "eia" fetch1
               Dashboard.fallbackEnergy 0 10 Dashboard.DashboardCache.empty JsMap.empty in
  Dashboard.fetchWithCache Dashboard.OfEnergy Dashboard.asEnergy "eia" fetch2
    Dashboard.fallbackEnergy 500 510 (snd (fst out)) (snd out)
  = (inr {| Dashboard.value := EnergyData.mk (inject_Z 1280 / 100) up;
            Dashboard.fetchedAt := 10 |}, snd (fst out), snd out).
Proof.
  intros fetch1 fetch2 out.
  refine (proj2 (proj2 (@fetched_value_cached_for_ttl _ _ Dashboard.OfEnergy Dashboard.asEnergy
                          (fun d => eq_refl) "eia" fetch1 fetch2
                          Dashboard.fallbackEnergy Dashboard.fallbackEnergy
                          0 10 500 510 Dashboard.DashboardCache.empty JsMap.empty (snd out)
                          (EnergyData.mk (inject_Z 1280 / 100) up) (snd out) _ _ _)));
    try reflexivity; try (simpl; discriminate).
Defined.

(** X6 on a production API that times out at time 900 and a second request
    at time 4000 for which the API would answer. *)
Lemma runtime_fallback_is_cached_witness :
  let env := Sample.keys (Some "fred-key") in
  let out := @Dashboard.fetchProduction Sample.runtime env Sample.allDown Sample.firstClock
               Dashboard.DashboardCache.empty JsMap.empty in
  @Dashboard.fetchProduction Sample.runtime env Sample.partlyUp Sample.secondClock
    (snd (fst out)) (snd out)
  = (inr {| Dashboard.value := ProductionData.mk (1024 # 10) "→ Data unavailable";
            Dashboard.fetchedAt := 900 |}, snd (fst out), snd out).
Proof.
  intros env out.
  refine (proj2 (proj1 (@runtime_fallback_is_cached Sample.runtime)
                   env Sample.allDown Sample.firstClock Dashboard.DashboardCache.empty
                   JsMap.empty env Sample.partlyUp Sample.secondClock (snd out) _ _ _ _ _));
    try reflexivity; try (simpl; discriminate).
  apply Spec.TimedOut.
Defined.

(** X7 on the initial state. *)
Lemma missing_credential_is_not_cached_witness :
  let out := @Dashboard.fetchProduction Sample.runtime (Sample.keys None) Sample.partlyUp
               Sample.firstClock Dashboard.DashboardCache.empty JsMap.empty in
  fst (fst out)
  = inr {| Dashboard.value := ProductionData.mk (1024 # 10) "→ Data unavailable";
           Dashboard.fetchedAt := 900 |}
  /\ JsMap.get (Dashboard.DashboardCache.dataCache (snd (fst out))) "fred" = None.
Proof.
  intros out.
  destruct (@missing_credential_is_not_cached Sample.runtime (Sample.keys None)
              Sample.partlyUp Sample.firstClock Dashboard.DashboardCache.empty JsMap.empty)
    as (H1 & H2 & _); try reflexivity.
  split; [exact H1 | exact H2].
Defined.
End SourceCache.

(** ** Requests served from the caches *)

Module WarmRequest.

Lemma getData_hit c t k e :
  JsMap.get (Dashboard.DashboardCache.dataCache c) k = Some e ->
  t <= Dashboard.expires e ->
  Dashboard.DashboardCache.getData c t k = (Some e, c).
Proof.
  intros Hget Hle. unfold Dashboard.DashboardCache.getData. rewrite Hget.
  destruct (t >? Dashboard.expires e) eqn:E; [lia | reflexivity].
Qed.

Lemma getInsight_hit c t h e :
  JsMap.get (Dashboard.DashboardCache.insightCache c) h = Some e ->
  t <= Dashboard.insightExpires e ->
  Dashboard.DashboardCache.getInsight c t h = (Some e, c).
Proof.
  intros Hget Hle. unfold Dashboard.DashboardCache.getInsight. rewrite Hget.
  destruct (t >? Dashboard.insightExpires e) eqn:E; [lia | reflexivity].
Qed.

Lemma query_flag req :
  Dashboard.query req <> None ->
  exists q, Dashboard.query req = Some q
            /\ Session.isManualRefresh req
               = match JsMap.get q "refresh" with
                 | Some v => String.eqb v "true"
                 | None => false
                 end.
Proof.
  unfold Session.isManualRefresh. destruct (Dashboard.query req) as [q|]; [|congruence].
  intros _. exists q. split; reflexivity.
Qed.

Section Facts.
Context `{JsRuntime}.

(** The body of the handler on a state whose cache answers everything. *)
Lemma warm_body (analyze : Dashboard.Analyzer) req env up clk w ep ee ew ei :
  Dashboard.query req <> None ->
  Session.isManualRefresh req = false ->
  JsMap.get (Dashboard.DashboardCache.dataCache (Dashboard.cache w)) "fred" = Some ep ->
  JsMap.get (Dashboard.DashboardCache.dataCache (Dashboard.cache w)) "eia" = Some ee ->
  JsMap.get (Dashboard.DashboardCache.dataCache (Dashboard.cache w)) "weather" = Some ew ->
  JsMap.get (Dashboard.DashboardCache.insightCache (Dashboard.cache w))
    (sha1_hex Spec.emptyProjection) = Some ei ->
  Dashboard.fred_t0 clk <= Dashboard.expires ep ->
  Dashboard.eia_t0 clk <= Dashboard.expires ee ->
  Dashboard.weather_t0 clk <= Dashboard.expires ew ->
  Dashboard.t_joined clk <= Dashboard.insightExpires ei ->
  Dashboard.handlerBody analyze req env up clk w
  = (inr {| Dashboard.payload :=
              {| Dashboard.production := Dashboard.asProduction (Dashboard.data ep);
                 Dashboard.energy := Dashboard.asEnergy (Dashboard.data ee);
                 Dashboard.weather := Dashboard.asWeather (Dashboard.data ew);
                 Dashboard.insightOf := Dashboard.insight ei |};
            Dashboard.responseLastFetched :=
              Z.max (Z.max (Dashboard.lastFetched ep) (Dashboard.lastFetched ee))
                    (Dashboard.lastFetched ew);
            Dashboard.responseLastInsightRun := Some (Dashboard.lastInsightRun ei) |},
     w).
Proof.
  intros Hq Hflag Hp He Hw Hi Htp Hte Htw Hti.
  destruct (query_flag req Hq) as (q & Hquery & Hrefresh).
  rewrite Hflag in Hrefresh.
  unfold Dashboard.handlerBody. rewrite Hquery, <- Hrefresh.
  unfold Dashboard.fetchAllData, Dashboard.fetchProduction, Dashboard.fetchEnergy,
    Dashboard.fetchWeather.
  erewrite SourceCache.fetchWithCache_hit by (apply getData_hit; eassumption).
  erewrite SourceCache.fetchWithCache_hit by (apply getData_hit; eassumption).
  erewrite SourceCache.fetchWithCache_hit by (apply getData_hit; eassumption).
  cbn [Dashboard.cache Dashboard.insightCache Dashboard.fredCache Dashboard.eiaCache
       Dashboard.weatherCache fst snd].
  unfold Dashboard.generateDataHash. rewrite Fingerprint.combined_dataString_constant.
  erewrite getInsight_hit by eassumption.
  destruct w as [fc ec wc ic c]. reflexivity.
Qed.

(** X8: a request without the refresh flag that finds, in the handler's
    cache, an unexpired entry for each of the three sources and an
    unexpired insight under the fingerprint is answered from the cache
    alone: the reply carries the cached metrics, the maximum of their fetch
    times, the cached insight and its [lastInsightRun]; no fetcher and no
    analyzer is called, whatever credentials, upstream behaviour and
    analyzer there are, and the server state is left exactly as it was. *)
Theorem warm_request_served_from_cache :
  forall (analyze : Dashboard.Analyzer) req env up clk w ep ee ew ei,
    Dashboard.query req <> None ->
    Session.isManualRefresh req = false ->
    JsMap.get (Dashboard.DashboardCache.dataCache (Dashboard.cache w)) "fred" = Some ep ->
    JsMap.get (Dashboard.DashboardCache.dataCache (Dashboard.cache w)) "eia" = Some ee ->
    JsMap.get (Dashboard.DashboardCache.dataCache (Dashboard.cache w)) "weather" = Some ew ->
    JsMap.get (Dashboard.DashboardCache.insightCache (Dashboard.cache w))
      (sha1_hex Spec.emptyProjection) = Some ei ->
    Dashboard.fred_t0 clk <= Dashboard.expires ep ->
    Dashboard.eia_t0 clk <= Dashboard.expires ee ->
    Dashboard.weather_t0 clk <= Dashboard.expires ew ->
    Dashboard.t_joined clk <= Dashboard.insightExpires ei ->
    Dashboard.handlerWith analyze req env up clk w
    = ({| Dashboard.statusCode := 200;
          Dashboard.body :=
            {| Dashboard.payload :=
                 {| Dashboard.production := Dashboard.asProduction (Dashboard.data ep);
                    Dashboard.energy := Dashboard.asEnergy (Dashboard.data ee);
                    Dashboard.weather := Dashboard.asWeather (Dashboard.data ew);
                    Dashboard.insightOf := Dashboard.insight ei |};
               Dashboard.responseLastFetched :=
                 Z.max (Z.max (Dashboard.lastFetched ep) (Dashboard.lastFetched ee))
                       (Dashboard.lastFetched ew);
               Dashboard.responseLastInsightRun := Some (Dashboard.lastInsightRun ei) |} |},
       w).
Proof.
  intros analyze req env up clk w ep ee ew ei Hq Hflag Hp He Hw Hi Htp Hte Htw Hti.
  unfold Dashboard.handlerWith.
  erewrite warm_body by eassumption. reflexivity.
Qed.
End Facts.

(** X8 on the state left by a first request: a second request, three
    seconds later, is answered from the cache although no credential is
    configured any more, every API times out and the analyzer raises. *)
Lemma warm_request_served_from_cache_witness :
  let w1 := snd (@Dashboard.handler Sample.runtime Sample.request
                   (Sample.keys (Some "fred-key")) Sample.partlyUp Sample.firstClock
                   Dashboard.emptyWorld) in
  let noKeys := {| Dashboard.FRED_API_KEY := None; Dashboard.EIA_API_KEY := None;
                   Dashboard.WEATHER_API_KEY := None; Dashboard.CLAUDE_API_KEY := None |} in
  let out := @Dashboard.handlerWith Sample.runtime (fun _ ic => (inl AbortError, ic))
               Sample.request noKeys Sample.allDown Sample.secondClock w1 in
  snd out = w1
  /\ Dashboard.responseLastFetched (Dashboard.body (fst out)) = 2000
  /\ Dashboard.responseLastInsightRun (Dashboard.body (fst out)) = Some 2100.
Proof.
  intros w1 noKeys out.
  pose proof (@warm_request_served_from_cache Sample.runtime
                (fun _ ic => (inl AbortError, ic)) Sample.request noKeys Sample.allDown
                Sample.secondClock w1 _ _ _ _
                ltac:(discriminate) eq_refl eq_refl eq_refl eq_refl eq_refl
                ltac:(vm_compute; discriminate) ltac:(vm_compute; discriminate)
                ltac:(vm_compute; discriminate) ltac:(vm_compute; discriminate)) as Hw.
  subst out. rewrite Hw. repeat split.
Defined.
End WarmRequest.

(** ** Requests that find nothing in the handler's cache *)

Module ColdRequest.

Lemma getData_absent c t k :
  JsMap.get (Dashboard.DashboardCache.dataCache c) k = None ->
  Dashboard.DashboardCache.getData c t k = (None, c).
Proof.
  intros Hget. unfold Dashboard.DashboardCache.getData. rewrite Hget.
  rewrite (JsMapFacts.delete_absent _ _ Hget). now destruct c.
Qed.

Lemma getInsight_absent c t h :
  JsMap.get (Dashboard.DashboardCache.insightCache c) h = None ->
  Dashboard.DashboardCache.getInsight c t h = (None, c).
Proof.
  intros Hget. unfold Dashboard.DashboardCache.getInsight. rewrite Hget.
  rewrite (JsMapFacts.delete_absent _ _ Hget). now destruct c.
Qed.

Lemma getInsight_fresh c t h i t' :
  t' <= t + Dashboard.DashboardCache.INSIGHT_TTL ->
  Dashboard.DashboardCache.getInsight (Dashboard.DashboardCache.setInsight c t h i) t' h
  = (Some {| Dashboard.insight := i; Dashboard.dataHash := h;
             Dashboard.lastInsightRun := t;
             Dashboard.insightExpires := t + Dashboard.DashboardCache.INSIGHT_TTL |},
     Dashboard.DashboardCache.setInsight c t h i).
Proof.
  intros Hle. unfold Dashboard.DashboardCache.getInsight, Dashboard.DashboardCache.setInsight.
  cbn [Dashboard.DashboardCache.insightCache]. rewrite JsMapFacts.get_set_same.
  cbn [Dashboard.insightExpires].
  destruct (t' >? t + Dashboard.DashboardCache.INSIGHT_TTL) eqn:E; [lia | reflexivity].
Qed.

Section Generic.
Context {T S : Type}.
Variable inj : T -> Dashboard.SourceData.
Variable cast : Dashboard.SourceData -> T.

(** A live fetch on a cache without an entry for the source. *)
Lemma fetchWithCache_cold source (fetchFn : S -> (exn + T) * S) fallback t0 t1 c s d s1 :
  JsMap.get (Dashboard.DashboardCache.dataCache c) source = None ->
  fetchFn s = (inr d, s1) ->
  Dashboard.fetchWithCache inj cast source fetchFn fallback t0 t1 c s
  = (inr {| Dashboard.value := d; Dashboard.fetchedAt := t1 |},
     Dashboard.DashboardCache.setData c t1 source (inj d)
       (Dashboard.DashboardCache.getTTL source),
     s1).
Proof.
  intros Hget Hf.
  erewrite SourceCache.fetchWithCache_live; [|now rewrite getData_absent|eassumption].
  now rewrite getData_absent.
Qed.
End Generic.

Section Facts.
Context `{JsRuntime}.

(** The handler on a state whose cache holds no entry for any source and
    no insight under the fingerprint, when the three fetchers and the
    analyzer settle with values. *)
Lemma cold_request (analyze : Dashboard.Analyzer) req env up clk w dp s1 de s2 dw s3 i ic' :
  Dashboard.query req <> None ->
  JsMap.get (Dashboard.DashboardCache.dataCache (Dashboard.cache w)) "fred" = None ->
  JsMap.get (Dashboard.DashboardCache.dataCache (Dashboard.cache w)) "eia" = None ->
  JsMap.get (Dashboard.DashboardCache.dataCache (Dashboard.cache w)) "weather" = None ->
  JsMap.get (Dashboard.DashboardCache.insightCache (Dashboard.cache w))
    (sha1_hex Spec.emptyProjection) = None ->
  FetchFred.getProductionIndex (Dashboard.fred_t0 clk) (Dashboard.fred_t1 clk)
    (Dashboard.FRED_API_KEY env) (Dashboard.fred up) (Dashboard.fredCache w) = (inr dp, s1) ->
  FetchEia.getEnergyPrice (Dashboard.eia_t0 clk) (Dashboard.eia_t1 clk)
    (Dashboard.EIA_API_KEY env) (Dashboard.eia up) (Dashboard.eiaCache w) = (inr de, s2) ->
  FetchWeather.getLocalWeather (Dashboard.weather_t0 clk) (Dashboard.weather_t1 clk)
    (Dashboard.WEATHER_API_KEY env) (Dashboard.openWeather up) (Dashboard.weatherCache w)
  = (inr dw, s3) ->
  analyze (InsightInput.mk dp de dw) (Dashboard.insightCache w) = (inr i, ic') ->
  Dashboard.handlerWith analyze req env up clk w
  = ({| Dashboard.statusCode := 200;
        Dashboard.body :=
          {| Dashboard.payload :=
               {| Dashboard.production := dp; Dashboard.energy := de;
                  Dashboard.weather := dw; Dashboard.insightOf := i |};
             Dashboard.responseLastFetched :=
               Z.max (Z.max (Dashboard.fred_t1 clk) (Dashboard.eia_t1 clk))
                     (Dashboard.weather_t1 clk);
             Dashboard.responseLastInsightRun := Some (Dashboard.t_insight clk) |} |},
     Dashboard.Build_World s1 s2 s3 ic'
       (Dashboard.DashboardCache.setInsight
          (Dashboard.DashboardCache.setData
             (Dashboard.DashboardCache.setData
                (Dashboard.DashboardCache.setData (Dashboard.cache w)
                   (Dashboard.fred_t1 clk) "fred" (Dashboard.OfProduction dp)
                   Dashboard.DashboardCache.FRED_TTL)
                (Dashboard.eia_t1 clk) "eia" (Dashboard.OfEnergy de)
                Dashboard.DashboardCache.EIA_TTL)
             (Dashboard.weather_t1 clk) "weather" (Dashboard.OfWeather dw)
             Dashboard.DashboardCache.WEATHER_TTL)
          (Dashboard.t_insight clk) (sha1_hex Spec.emptyProjection) i)).
Proof.
  intros Hq Hp He Hw Hi Hfp Hfe Hfw Han.
  destruct (WarmRequest.query_flag req Hq) as (q & Hquery & _).
  unfold Dashboard.handlerWith, Dashboard.handlerBody. rewrite Hquery.
  unfold Dashboard.fetchAllData, Dashboard.fetchProduction, Dashboard.fetchEnergy,
    Dashboard.fetchWeather.
  erewrite fetchWithCache_cold by eassumption.
  erewrite fetchWithCache_cold;
    [|unfold Dashboard.DashboardCache.setData; cbn [Dashboard.DashboardCache.dataCache];
      rewrite JsMapFacts.get_set_other by discriminate; eassumption
     |eassumption].
  erewrite fetchWithCache_cold;
    [|unfold Dashboard.DashboardCache.setData; cbn [Dashboard.DashboardCache.dataCache];
      rewrite !JsMapFacts.get_set_other by discriminate; eassumption
     |eassumption].
  cbn [Dashboard.cache Dashboard.insightCache Dashboard.fredCache Dashboard.eiaCache
       Dashboard.weatherCache fst snd Dashboard.settleAll Dashboard.allProduction
       Dashboard.allEnergy Dashboard.allWeather Dashboard.allLastFetched Dashboard.value].
  unfold Dashboard.generateDataHash. rewrite Fingerprint.combined_dataString_constant.
  rewrite getInsight_absent by exact Hi.
  unfold Dashboard.obtainInsight. rewrite orb_true_r, Han.
  rewrite getInsight_fresh by (unfold Dashboard.DashboardCache.INSIGHT_TTL; lia).
  reflexivity.
Qed.
End Facts.
End ColdRequest.

(** ** Two requests in a row, forced regeneration, total outage *)

Module Sessions.
Section Facts.
Context `{JsRuntime}.

Lemma fred_settles t0 t1 key up cache :
  Spec.credential key = true ->
  exists d s1, FetchFred.getProductionIndex t0 t1 key up cache = (inr d, s1).
Proof.
  intros Hk. destruct (FetcherFallback.fred_never_raises t0 t1 key up cache Hk) as [v Hv].
  destruct (FetchFred.getProductionIndex t0 t1 key up cache) as [r s1].
  cbn [fst] in Hv. subst r. eauto.
Qed.

Lemma eia_settles t0 t1 key up cache :
  Spec.credential key = true ->
  exists d s1, FetchEia.getEnergyPrice t0 t1 key up cache = (inr d, s1).
Proof.
  intros Hk. destruct (FetcherFallback.eia_never_raises t0 t1 key up cache Hk) as [v Hv].
  destruct (FetchEia.getEnergyPrice t0 t1 key up cache) as [r s1].
  cbn [fst] in Hv. subst r. eauto.
Qed.

Lemma weather_settles t0 t1 key up cache :
  Spec.credential key = true ->
  exists d s1, FetchWeather.getLocalWeather t0 t1 key up cache = (inr d, s1).
Proof.
  intros Hk. destruct (FetcherFallback.weather_never_raises t0 t1 key up cache Hk) as [v Hv].
  destruct (FetchWeather.getLocalWeather t0 t1 key up cache) as [r s1].
  cbn [fst] in Hv. subst r. eauto.
Qed.

(** X9: with the three source credentials configured, a request that
    finds nothing usable in the handler's cache fills it, and a following
    request without the refresh flag that arrives before any of the
    entries expires (ten minutes after the energy fetch being the first
    deadline) gets a reply identical to the first one, [lastFetched] and
    [lastInsightRun] included, whatever the upstream APIs answer then. *)
Theorem second_reply_identical :
  forall req1 req2 env up1 up2 clk1 clk2 w,
    Dashboard.query req1 <> None ->
    Dashboard.query req2 <> None ->
    Session.isManualRefresh req2 = false ->
    Cold.credentials env ->
    Cold.handlerCache w ->
    Dashboard.fred_t0 clk2 <= Dashboard.fred_t1 clk1 + 60 * 60 * 1000 ->
    Dashboard.eia_t0 clk2 <= Dashboard.eia_t1 clk1 + 10 * 60 * 1000 ->
    Dashboard.weather_t0 clk2 <= Dashboard.weather_t1 clk1 + 15 * 60 * 1000 ->
    Dashboard.t_joined clk2 <= Dashboard.t_insight clk1 + 30 * 60 * 1000 ->
    Session.secondReply req1 req2 env up1 up2 clk1 clk2 w
    = fst (Dashboard.handler req1 env up1 clk1 w).
Proof.
  intros req1 req2 env up1 up2 clk1 clk2 w Hq1 Hq2 Hflag (Hkp & Hke & Hkw)
         (Hp & He & Hw & Hi) Htp Hte Htw Hti.
  destruct (fred_settles (Dashboard.fred_t0 clk1) (Dashboard.fred_t1 clk1) _
              (Dashboard.fred up1) (Dashboard.fredCache w) Hkp) as (dp & s1 & Hfp).
  destruct (eia_settles (Dashboard.eia_t0 clk1) (Dashboard.eia_t1 clk1) _
              (Dashboard.eia up1) (Dashboard.eiaCache w) Hke) as (de & s2 & Hfe).
  destruct (weather_settles (Dashboard.weather_t0 clk1) (Dashboard.weather_t1 clk1) _
              (Dashboard.openWeather up1) (Dashboard.weatherCache w) Hkw) as (dw & s3 & Hfw).
  destruct (AlwaysOk.analyzeInsight_never_raises env up1 clk1 (InsightInput.mk dp de dw)
              (Dashboard.insightCache w)) as (i & ic' & Han).
  unfold Session.secondReply, Dashboard.handler.
  pose proof (@ColdRequest.cold_request _ (Dashboard.analyzeInsight env up1 clk1)
                req1 env up1 clk1 w dp s1 de s2 dw s3 i ic'
                Hq1 Hp He Hw Hi Hfp Hfe Hfw Han) as Hcold.
  rewrite Hcold. cbn [fst snd].
  unfold Dashboard.handlerWith at 1.
  erewrite WarmRequest.warm_body; try eassumption; cycle 1.
  - unfold Dashboard.DashboardCache.setInsight, Dashboard.DashboardCache.setData.
    cbn [Dashboard.cache Dashboard.DashboardCache.dataCache].
    rewrite !JsMapFacts.get_set_other by discriminate.
    apply JsMapFacts.get_set_same.
  - unfold Dashboard.DashboardCache.setInsight, Dashboard.DashboardCache.setData.
    cbn [Dashboard.cache Dashboard.DashboardCache.dataCache].
    rewrite !JsMapFacts.get_set_other by discriminate.
    apply JsMapFacts.get_set_same.
  - unfold Dashboard.DashboardCache.setInsight, Dashboard.DashboardCache.setData.
    cbn [Dashboard.cache Dashboard.DashboardCache.dataCache].
    apply JsMapFacts.get_set_same.
  - unfold Dashboard.DashboardCache.setInsight.
    cbn [Dashboard.cache Dashboard.DashboardCache.insightCache].
    apply JsMapFacts.get_set_same.
  - cbn [Dashboard.expires]. unfold Dashboard.DashboardCache.FRED_TTL. lia.
  - cbn [Dashboard.expires]. unfold Dashboard.DashboardCache.EIA_TTL. lia.
  - cbn [Dashboard.expires]. unfold Dashboard.DashboardCache.WEATHER_TTL. lia.
  - cbn [Dashboard.insightExpires]. unfold Dashboard.DashboardCache.INSIGHT_TTL. lia.
  - reflexivity.
Qed.

(** Fetching the sources leaves the cache of the insight module alone. *)
Lemma fetchAllData_insightCache env up clk w :
  Dashboard.insightCache (snd (Dashboard.fetchAllData env up clk w))
  = Dashboard.insightCache w.
Proof.
  unfold Dashboard.fetchAllData.
  destruct (Dashboard.fetchProduction env up clk _ _) as [[rp c1] s1].
  destruct (Dashboard.fetchEnergy env up clk _ _) as [[re c2] s2].
  destruct (Dashboard.fetchWeather env up clk _ _) as [[rw c3] s3].
  reflexivity.
Qed.

(** X10: a request with [refresh=true] always runs [analyzeInsight] on the
    metrics it serves, whether or not the handler holds a fresh insight:
    the reply carries what [analyzeInsight] returned, [lastInsightRun] is
    the time of this request, and that insight is stored under the
    fingerprint for thirty minutes from now. *)
Theorem refresh_runs_the_analyzer :
  forall req env up clk w,
    Session.isManualRefresh req = true ->
    let out := Dashboard.handler req env up clk w in
    let resp := Dashboard.body (fst out) in
    let triple := InsightInput.mk (Dashboard.production (Dashboard.payload resp))
                    (Dashboard.energy (Dashboard.payload resp))
                    (Dashboard.weather (Dashboard.payload resp)) in
    Dashboard.insightOf (Dashboard.payload resp)
    = fst (fst (FetchInsight.analyzeInsight (Dashboard.toJs triple)
                  (Dashboard.t_joined clk) (Dashboard.t_insight clk)
                  (Dashboard.CLAUDE_API_KEY env) (Dashboard.claude up)
                  (Dashboard.insightCache w)))
    /\ Dashboard.responseLastInsightRun resp = Some (Dashboard.t_insight clk)
    /\ JsMap.get (Dashboard.DashboardCache.insightCache (Dashboard.cache (snd out)))
         (sha1_hex Spec.emptyProjection)
       = Some {| Dashboard.insight := Dashboard.insightOf (Dashboard.payload resp);
                 Dashboard.dataHash := sha1_hex Spec.emptyProjection;
                 Dashboard.lastInsightRun := Dashboard.t_insight clk;
                 Dashboard.insightExpires :=
                   Dashboard.t_insight clk + 30 * 60 * 1000 |}.
Proof.
  intros req env up clk w Hflag out resp triple. subst triple resp out.
  unfold Session.isManualRefresh in Hflag.
  unfold Dashboard.handler, Dashboard.handlerWith, Dashboard.handlerBody.
  destruct (Dashboard.query req) as [q|]; [|discriminate]. rewrite Hflag.
  pose proof (fetchAllData_insightCache env up clk w) as Hic.
  destruct (Dashboard.fetchAllData env up clk w) as [all w1]. cbn [snd] in Hic.
  unfold Dashboard.generateDataHash. rewrite Fingerprint.combined_dataString_constant.
  destruct (Dashboard.DashboardCache.getInsight (Dashboard.cache w1) _ _) as [cached c1].
  unfold Dashboard.obtainInsight. cbn [orb].
  unfold Dashboard.analyzeInsight. rewrite Hic.
  destruct (FetchInsight.analyzeInsight _ _ _ _ _ _) as [[r ic] eff] eqn:Han.
  rewrite ColdRequest.getInsight_fresh
    by (unfold Dashboard.DashboardCache.INSIGHT_TTL; lia).
  cbn [fst snd Dashboard.body Dashboard.payload Dashboard.insightOf Dashboard.production
       Dashboard.energy Dashboard.weather Dashboard.responseLastInsightRun
       Dashboard.cache Dashboard.lastInsightRun].
  cbn [InsightInput.production InsightInput.energy InsightInput.weather] in Han.
  rewrite Han. cbn [fst snd].
  split; [reflexivity|]. split; [reflexivity|].
  unfold Dashboard.DashboardCache.setInsight. cbn [Dashboard.DashboardCache.insightCache].
  apply JsMapFacts.get_set_same.
Qed.

Lemma fred_falls_back t0 t1 key up cache :
  Spec.credential key = true ->
  fst (SimpleCache.get cache t0 FetchFred.CACHE_KEY) = None ->
  Spec.UpstreamFailure Spec.fredWellShaped up ->
  exists s1, FetchFred.getProductionIndex t0 t1 key up cache
             = (inr Dashboard.fallbackProduction, s1).
Proof.
  intros Hk Hs Hfail. unfold FetchFred.getProductionIndex.
  destruct (SimpleCache.get cache _ _) as [[v|] s1]; cbn [fst] in Hs; [discriminate|].
  destruct key as [k|]; simpl in Hk; [|discriminate].
  destruct (String.eqb k EmptyString); [discriminate|].
  destruct (FetcherFallback.fred_tryFetch_fails Hfail) as [e ->]. eauto.
Qed.

Lemma eia_falls_back t0 t1 key up cache :
  Spec.credential key = true ->
  fst (SimpleCache.get cache t0 FetchEia.CACHE_KEY) = None ->
  Spec.UpstreamFailure Spec.eiaWellShaped up ->
  exists s1, FetchEia.getEnergyPrice t0 t1 key up cache
             = (inr Dashboard.fallbackEnergy, s1).
Proof.
  intros Hk Hs Hfail. unfold FetchEia.getEnergyPrice.
  destruct (SimpleCache.get cache _ _) as [[v|] s1]; cbn [fst] in Hs; [discriminate|].
  destruct key as [k|]; simpl in Hk; [|discriminate].
  destruct (String.eqb k EmptyString); [discriminate|].
  destruct (FetcherFallback.eia_tryFetch_fails Hfail) as [e ->]. eauto.
Qed.

Lemma weather_falls_back t0 t1 key up cache :
  Spec.credential key = true ->
  fst (SimpleCache.get cache t0 FetchWeather.CACHE_KEY) = None ->
  Spec.UpstreamFailure Spec.weatherWellShaped up ->
  exists s1, FetchWeather.getLocalWeather t0 t1 key up cache
             = (inr Dashboard.fallbackWeather, s1).
Proof.
  intros Hk Hs Hfail. unfold FetchWeather.getLocalWeather.
  destruct (SimpleCache.get cache _ _) as [[v|] s1]; cbn [fst] in Hs; [discriminate|].
  destruct key as [k|]; simpl in Hk; [|discriminate].
  destruct (String.eqb k EmptyString); [discriminate|].
  destruct (FetcherFallback.weather_tryFetch_fails Hfail) as [e ->]. eauto.
Qed.

Lemma analyze_outage env up clk d :
  Spec.GenerationFailure (Dashboard.CLAUDE_API_KEY env) (Dashboard.claude up) ->
  Dashboard.analyzeInsight env up clk d JsMap.empty
  = (inr (FetchInsight.contextualFallback d), JsMap.empty).
Proof.
  intros Hfail. unfold Dashboard.analyzeInsight.
  destruct (FallbackChain.toJs_valid d) as [Hv Hd].
  destruct (@FallbackChain.analyzeInsight_on_failure _ (Dashboard.toJs d)
              (Dashboard.t_joined clk) (Dashboard.t_insight clk)
              (Dashboard.CLAUDE_API_KEY env) (Dashboard.claude up) JsMap.empty
              Hv eq_refl Hfail) as (eff & Heq & _).
  rewrite Heq, Hd. reflexivity.
Qed.

(** X11: total outage on a cold server. With the three source credentials
    configured, no cached value anywhere and no insight ever generated,
    when every source API fails at run time and the insight generation
    fails too, the reply is status 200 with the three fallback literals;
    its insight is the weather-alert pair of the rule table, because the
    weather fallback text counts as an alert there, and [lastInsightRun]
    is the time of the request, not null. *)
Theorem total_outage_reply :
  forall req env up clk w,
    Dashboard.query req <> None ->
    Cold.credentials env ->
    Cold.handlerCache w ->
    Cold.fetcherCaches clk w ->
    Dashboard.insightCache w = JsMap.empty ->
    Spec.UpstreamFailure Spec.fredWellShaped (Dashboard.fred up) ->
    Spec.UpstreamFailure Spec.eiaWellShaped (Dashboard.eia up) ->
    Spec.UpstreamFailure Spec.weatherWellShaped (Dashboard.openWeather up) ->
    Spec.GenerationFailure (Dashboard.CLAUDE_API_KEY env) (Dashboard.claude up) ->
    fst (Dashboard.handler req env up clk w)
    = {| Dashboard.statusCode := 200;
         Dashboard.body :=
           {| Dashboard.payload :=
                {| Dashboard.production :=
                     ProductionData.mk (1024 # 10) "→ Data unavailable";
                   Dashboard.energy := EnergyData.mk (125 # 10) stable;
                   Dashboard.weather := WeatherData.mk 75 "Weather data unavailable";
                   Dashboard.insightOf :=
                     InsightResponse.mk "Weather alert active"
                       "Monitor weather conditions and prepare contingency plans" |};
              Dashboard.responseLastFetched :=
                Z.max (Z.max (Dashboard.fred_t1 clk) (Dashboard.eia_t1 clk))
                      (Dashboard.weather_t1 clk);
              Dashboard.responseLastInsightRun := Some (Dashboard.t_insight clk) |} |}.
Proof.
  intros req env up clk w Hq (Hkp & Hke & Hkw) (Hp & He & Hw & Hi) (Hsp & Hse & Hsw)
         Hic Hfp Hfe Hfw Hfc.
  destruct (fred_falls_back (Dashboard.fred_t0 clk) (Dashboard.fred_t1 clk) _ _ Hkp Hsp Hfp)
    as [s1 Hrp].
  destruct (eia_falls_back (Dashboard.eia_t0 clk) (Dashboard.eia_t1 clk) _ _ Hke Hse Hfe)
    as [s2 Hre].
  destruct (weather_falls_back (Dashboard.weather_t0 clk) (Dashboard.weather_t1 clk) _ _
              Hkw Hsw Hfw) as [s3 Hrw].
  pose proof (analyze_outage env up clk
                (InsightInput.mk Dashboard.fallbackProduction Dashboard.fallbackEnergy
                   Dashboard.fallbackWeather) Hfc) as Han.
  rewrite <- Hic in Han at 1.
  unfold Dashboard.handler.
  rewrite (@ColdRequest.cold_request _ (Dashboard.analyzeInsight env up clk)
             req env up clk w _ _ _ _ _ _ _ _ Hq Hp He Hw Hi Hrp Hre Hrw Han).
  reflexivity.
Qed.
End Facts.

(** X9 on two requests three seconds apart, the second one reaching APIs
    that have all gone down. *)
Lemma second_reply_identical_witness :
  let env := Sample.keys (Some "fred-key") in
  @Session.secondReply Sample.runtime Sample.request Sample.request env
    Sample.partlyUp Sample.allDown Sample.firstClock Sample.secondClock Dashboard.emptyWorld
  = fst (@Dashboard.handler Sample.runtime Sample.request env Sample.partlyUp
           Sample.firstClock Dashboard.emptyWorld).
Proof.
  intros env.
  apply (@second_reply_identical Sample.runtime);
    try discriminate; try reflexivity; try (repeat split; reflexivity);
    vm_compute; discriminate.
Defined.

(** X10 on a refresh request that finds a fresh insight in the handler's
    cache. *)
Lemma refresh_runs_the_analyzer_witness :
  let env := Sample.keys (Some "fred-key") in
  let refresh := {| Dashboard.query := Some [("refresh", "true")] |} in
  let w1 := snd (@Dashboard.handler Sample.runtime Sample.request env Sample.partlyUp
                   Sample.firstClock Dashboard.emptyWorld) in
  Dashboard.responseLastInsightRun
    (Dashboard.body (fst (@Dashboard.handler Sample.runtime refresh env Sample.partlyUp
                            Sample.secondClock w1)))
  = Some 5100.
Proof.
  intros env refresh w1.
  exact (proj1 (proj2 (@refresh_runs_the_analyzer Sample.runtime refresh env Sample.partlyUp
                         Sample.secondClock w1 eq_refl))).
Defined.

(** X11 on the initial state with every API timing out. *)
Lemma total_outage_reply_witness :
  Dashboard.responseLastInsightRun
    (Dashboard.body (fst (@Dashboard.handler Sample.runtime Sample.request
                            (Sample.keys (Some "fred-key")) Sample.allDown
                            Sample.firstClock Dashboard.emptyWorld)))
  = Some 2100.
Proof.
  rewrite (@total_outage_reply Sample.runtime Sample.request (Sample.keys (Some "fred-key"))
             Sample.allDown Sample.firstClock Dashboard.emptyWorld);
    try reflexivity; try discriminate; try (repeat split; reflexivity);
    try apply Spec.TimedOut; try apply Spec.ClaudeTimedOut.
Defined.
End Sessions.

(** ** Invariants of the handler's cache over a run *)

Module WorldInvariant.

Lemma getData_cache c t k :
  let c' := snd (Dashboard.DashboardCache.getData c t k) in
  Dashboard.DashboardCache.insightCache c' = Dashboard.DashboardCache.insightCache c
  /\ (Dashboard.DashboardCache.dataCache c' = Dashboard.DashboardCache.dataCache c
      \/ Dashboard.DashboardCache.dataCache c'
         = JsMap.delete (Dashboard.DashboardCache.dataCache c) k).
Proof.
  unfold Dashboard.DashboardCache.getData.
  destruct (JsMap.get (Dashboard.DashboardCache.dataCache c) k) as [it|]; cbn.
  - destruct (t >? Dashboard.expires it); cbn; auto.
  - auto.
Qed.

Lemma getInsight_cache c t h :
  let c' := snd (Dashboard.DashboardCache.getInsight c t h) in
  Dashboard.DashboardCache.dataCache c' = Dashboard.DashboardCache.dataCache c
  /\ (Dashboard.DashboardCache.insightCache c' = Dashboard.DashboardCache.insightCache c
      \/ Dashboard.DashboardCache.insightCache c'
         = JsMap.delete (Dashboard.DashboardCache.insightCache c) h).
Proof.
  unfold Dashboard.DashboardCache.getInsight.
  destruct (JsMap.get (Dashboard.DashboardCache.insightCache c) h) as [it|]; cbn.
  - destruct (t >? Dashboard.insightExpires it); cbn; auto.
  - auto.
Qed.

Lemma dataWellTyped_getData c t k :
  Invariant.dataWellTyped c ->
  Invariant.dataWellTyped (snd (Dashboard.DashboardCache.getData c t k)).
Proof.
  intros Hc k' e. destruct (getData_cache c t k) as [_ [-> | ->]].
  - apply Hc.
  - intros Hin. apply (Hc k' e). eapply JsMapFacts.In_delete; eassumption.
Qed.

Lemma dataWellTyped_setData c t k d ttl :
  Reach.wellTyped k d = true ->
  Invariant.dataWellTyped c ->
  Invariant.dataWellTyped (Dashboard.DashboardCache.setData c t k d ttl).
Proof.
  intros Hd Hc k' e Hin. unfold Dashboard.DashboardCache.setData in Hin. cbn in Hin.
  destruct (JsMapFacts.In_set _ _ _ _ _ Hin) as [Heq|Hin'].
  - inversion Heq. subst. exact Hd.
  - now apply (Hc k' e).
Qed.

Section Generic.
Context {T S : Type}.
Variable inj : T -> Dashboard.SourceData.
Variable cast : Dashboard.SourceData -> T.

(** One source fetch keeps the data cache well typed and leaves the
    insight entries alone. *)
Lemma fetchWithCache_keeps source (fetchFn : S -> (exn + T) * S) fallback t0 t1 c s :
  (forall d, Reach.wellTyped source (inj d) = true) ->
  Invariant.dataWellTyped c ->
  let c' := snd (fst (Dashboard.fetchWithCache inj cast source fetchFn fallback t0 t1 c s)) in
  Invariant.dataWellTyped c'
  /\ Dashboard.DashboardCache.insightCache c' = Dashboard.DashboardCache.insightCache c.
Proof.
  intros Hinj Hc. unfold Dashboard.fetchWithCache.
  pose proof (dataWellTyped_getData t0 source Hc) as H1.
  pose proof (proj1 (getData_cache c t0 source)) as I1.
  destruct (Dashboard.DashboardCache.getData c t0 source) as [[e|] c1]; cbn [fst snd] in *.
  - auto.
  - destruct (fetchFn s) as [[err|d] s1]; cbn [fst snd].
    + auto.
    + pose proof (dataWellTyped_setData t1 source (inj d)
                    (Dashboard.DashboardCache.getTTL source) (Hinj d) H1) as H2.
      pose proof (dataWellTyped_getData t1 source H2) as H3.
      pose proof (proj1 (getData_cache
                           (Dashboard.DashboardCache.setData c1 t1 source (inj d)
                              (Dashboard.DashboardCache.getTTL source)) t1 source)) as I3.
      destruct (Dashboard.DashboardCache.getData _ t1 source) as [ce c3]; cbn [fst snd] in *.
      split; [exact H3|]. rewrite I3. exact I1.
Qed.
End Generic.

Section Facts.
Context `{JsRuntime}.

Lemma singleInsight_getInsight c t :
  Invariant.singleInsight c ->
  Invariant.singleInsight
    (snd (Dashboard.DashboardCache.getInsight c t (sha1_hex Spec.emptyProjection))).
Proof.
  intros [Hnd Hk]. unfold Invariant.singleInsight.
  destruct (getInsight_cache c t (sha1_hex Spec.emptyProjection)) as [_ [-> | ->]].
  - auto.
  - split; [now apply JsMapMore.NoDup_delete|].
    intros k Hin. apply Hk. now destruct (JsMapMore.keys_delete _ _ _ Hin).
Qed.

Lemma singleInsight_setInsight c t i :
  Invariant.singleInsight c ->
  Invariant.singleInsight
    (Dashboard.DashboardCache.setInsight c t (sha1_hex Spec.emptyProjection) i).
Proof.
  intros [Hnd Hk]. unfold Invariant.singleInsight, Dashboard.DashboardCache.setInsight. cbn.
  split; [now apply JsMapMore.NoDup_set|].
  intros k Hin. apply JsMapMore.keys_set in Hin. destruct Hin; auto.
Qed.

(** The insight step keeps both invariants. *)
Lemma obtainInsight_keeps (analyze : Dashboard.Analyzer) manual p e w cached now c ic :
  Invariant.dataWellTyped c -> Invariant.singleInsight c ->
  let c' := snd (fst (Dashboard.obtainInsight analyze manual p e w
                        (sha1_hex Spec.emptyProjection) cached now c ic)) in
  Invariant.dataWellTyped c' /\ Invariant.singleInsight c'.
Proof.
  intros Hd Hs. unfold Dashboard.obtainInsight.
  assert (Hset : forall i,
             let c1 := snd (Dashboard.DashboardCache.getInsight
                              (Dashboard.DashboardCache.setInsight c now
                                 (sha1_hex Spec.emptyProjection) i)
                              now (sha1_hex Spec.emptyProjection)) in
             Invariant.dataWellTyped c1 /\ Invariant.singleInsight c1).
  { intros i c1. subst c1. split.
    - intros k e0. rewrite (proj1 (getInsight_cache _ _ _)). apply Hd.
    - apply singleInsight_getInsight. now apply singleInsight_setInsight. }
  assert (Hrun : let c1 := snd (fst
             match analyze (InsightInput.mk p e w) ic with
             | (inr insight, ic') =>
                 let c0 := Dashboard.DashboardCache.setInsight c now
                             (sha1_hex Spec.emptyProjection) insight in
                 let '(newCachedInsight, c') :=
                   Dashboard.DashboardCache.getInsight c0 now
                     (sha1_hex Spec.emptyProjection) in
                 (insight,
                  Some match newCachedInsight with
                       | Some e0 => Dashboard.lastInsightRun e0
                       | None => now
                       end, c', ic')
             | (inl _, ic') =>
                 match Dashboard.DashboardCache.getLatestInsight c with
                 | Some latestInsight =>
                     (Dashboard.insight latestInsight,
                      Some (Dashboard.lastInsightRun latestInsight), c, ic')
                 | None => (Dashboard.generateFallbackInsight p e w, None, c, ic')
                 end
             end) in Invariant.dataWellTyped c1 /\ Invariant.singleInsight c1).
  { destruct (analyze (InsightInput.mk p e w) ic) as [[err|i] ic'].
    - destruct (Dashboard.DashboardCache.getLatestInsight c); cbn; auto.
    - specialize (Hset i). cbv zeta in *.
      destruct (Dashboard.DashboardCache.getInsight _ now _) as [nc c1]. exact Hset. }
  destruct (manual || match cached with Some _ => false | None => true end);
    [exact Hrun|].
  destruct cached as [ce|]; [cbn; auto | exact Hrun].
Qed.

(** X12: in every state that the server reaches from its start by
    handling requests, each entry of the handler's data cache carries the
    type of the source it is stored under, so that reading an entry back
    as that source's type never meets a foreign value, and the handler's
    insight cache holds at most one entry, keyed by the one fingerprint. *)
Theorem reachable_world_invariant :
  forall w : Dashboard.World,
    Reach.world w ->
    Invariant.dataWellTyped (Dashboard.cache w)
    /\ Invariant.singleInsight (Dashboard.cache w)
    /\ (JsMap.size (Dashboard.DashboardCache.insightCache (Dashboard.cache w)) <= 1)%nat.
Proof.
  intros w Hr.
  assert (Hinv : Invariant.dataWellTyped (Dashboard.cache w)
                 /\ Invariant.singleInsight (Dashboard.cache w)).
  { induction Hr as [|w req env up clk Hr [Hd Hs]].
    - split; [intros k e []|]. split; [constructor | intros k []].
    - unfold Dashboard.handler, Dashboard.handlerWith.
      assert (Hb : Invariant.dataWellTyped
                     (Dashboard.cache (snd (Dashboard.handlerBody
                        (Dashboard.analyzeInsight env up clk) req env up clk w)))
                   /\ Invariant.singleInsight
                        (Dashboard.cache (snd (Dashboard.handlerBody
                           (Dashboard.analyzeInsight env up clk) req env up clk w)))).
      { unfold Dashboard.handlerBody.
        destruct (Dashboard.query req) as [q|]; [|cbn; auto].
        unfold Dashboard.fetchAllData, Dashboard.fetchProduction, Dashboard.fetchEnergy,
          Dashboard.fetchWeather.
        match goal with
        | |- context [Dashboard.fetchWithCache Dashboard.OfProduction ?cast ?src ?f ?fb
                        ?t0 ?t1 ?c ?s] =>
            destruct (@fetchWithCache_keeps _ _ Dashboard.OfProduction cast src f fb
                        t0 t1 c s (fun d => eq_refl) Hd) as [Hd1 Hi1];
            destruct (Dashboard.fetchWithCache Dashboard.OfProduction cast src f fb
                        t0 t1 c s) as [[rp c1] s1]
        end.
        cbn [fst snd] in Hd1, Hi1.
        match goal with
        | |- context [Dashboard.fetchWithCache Dashboard.OfEnergy ?cast ?src ?f ?fb
                        ?t0 ?t1 ?c ?s] =>
            destruct (@fetchWithCache_keeps _ _ Dashboard.OfEnergy cast src f fb
                        t0 t1 c s (fun d => eq_refl) Hd1) as [Hd2 Hi2];
            destruct (Dashboard.fetchWithCache Dashboard.OfEnergy cast src f fb
                        t0 t1 c s) as [[re c2] s2]
        end.
        cbn [fst snd] in Hd2, Hi2.
        match goal with
        | |- context [Dashboard.fetchWithCache Dashboard.OfWeather ?cast ?src ?f ?fb
                        ?t0 ?t1 ?c ?s] =>
            destruct (@fetchWithCache_keeps _ _ Dashboard.OfWeather cast src f fb
                        t0 t1 c s (fun d => eq_refl) Hd2) as [Hd3 Hi3];
            destruct (Dashboard.fetchWithCache Dashboard.OfWeather cast src f fb
                        t0 t1 c s) as [[rw c3] s3]
        end.
        cbn [fst snd] in Hd3, Hi3.
        cbn [Dashboard.cache Dashboard.insightCache].
        unfold Dashboard.generateDataHash. rewrite Fingerprint.combined_dataString_constant.
        assert (Hs3 : Invariant.singleInsight c3).
        { unfold Invariant.singleInsight. rewrite Hi3, Hi2, Hi1. exact Hs. }
        pose proof (singleInsight_getInsight (Dashboard.t_joined clk) Hs3) as Hs4.
        assert (Hd4 : Invariant.dataWellTyped
                        (snd (Dashboard.DashboardCache.getInsight c3 (Dashboard.t_joined clk)
                                (sha1_hex Spec.emptyProjection)))).
        { intros k e0. rewrite (proj1 (getInsight_cache _ _ _)). apply Hd3. }
        destruct (Dashboard.DashboardCache.getInsight c3 _ _) as [cached c4].
        cbn [snd] in Hs4, Hd4.
        match goal with
        | |- context [Dashboard.obtainInsight ?an ?m ?p ?e ?w0 ?h ?ca ?now ?c ?ic] =>
            pose proof (@obtainInsight_keeps an m p e w0 ca now c ic Hd4 Hs4) as Hfin;
            destruct (Dashboard.obtainInsight an m p e w0 h ca now c ic)
              as [[[ins lir] c5] ic5]
        end.
        exact Hfin. }
      destruct (Dashboard.handlerBody _ req env up clk w) as [[ex|r] w']; exact Hb. }
  destruct Hinv as [Hd [Hnd Hk]]. split; [exact Hd|]. split; [split; assumption|].
  eapply JsMapMore.single_key_size; eassumption.
Qed.
End Facts.

(** X12 after two requests from the start. *)
Lemma reachable_world_invariant_witness :
  let env := Sample.keys (Some "fred-key") in
  let w1 := snd (@Dashboard.handler Sample.runtime Sample.request env Sample.partlyUp
                   Sample.firstClock Dashboard.emptyWorld) in
  let w2 := snd (@Dashboard.handler Sample.runtime Sample.request env Sample.allDown
                   Sample.secondClock w1) in
  @Reach.world Sample.runtime w2
  /\ (JsMap.size (Dashboard.DashboardCache.insightCache (Dashboard.cache w2)) <= 1)%nat.
Proof.
  intros env w1 w2.
  assert (Hr : @Reach.world Sample.runtime w2).
  { apply Reach.world_request. apply Reach.world_request. apply Reach.world_start. }
  split; [exact Hr|].
  exact (proj2 (proj2 (@reachable_world_invariant Sample.runtime w2 Hr))).
Defined.
End WorldInvariant.

(** ** Isolation of the three source fetches *)

Module Isolation.

Lemma getData_lookup_other c t k k' :
  k <> k' ->
  JsMap.get (Dashboard.DashboardCache.dataCache (snd (Dashboard.DashboardCache.getData c t k))) k'
  = JsMap.get (Dashboard.DashboardCache.dataCache c) k'.
Proof.
  intros Hne. destruct (WorldInvariant.getData_cache c t k) as [_ [-> | ->]];
    [reflexivity | now apply JsMapMore.get_delete_other].
Qed.

Section Generic.
Context {T S : Type}.
Variable inj : T -> Dashboard.SourceData.
Variable cast : Dashboard.SourceData -> T.

(** A fetch for one source changes the entry of no other source. *)
Lemma fetchWithCache_other source (fetchFn : S -> (exn + T) * S) fallback t0 t1 c s k' :
  source <> k' ->
  JsMap.get (Dashboard.DashboardCache.dataCache
               (snd (fst (Dashboard.fetchWithCache inj cast source fetchFn fallback
                            t0 t1 c s)))) k'
  = JsMap.get (Dashboard.DashboardCache.dataCache c) k'.
Proof.
  intros Hne. unfold Dashboard.fetchWithCache.
  pose proof (getData_lookup_other c t0 Hne) as H1.
  destruct (Dashboard.DashboardCache.getData c t0 source) as [[e|] c1]; cbn [fst snd] in *.
  - exact H1.
  - destruct (fetchFn s) as [[err|d] s1]; cbn [fst snd].
    + exact H1.
    + pose proof (getData_lookup_other
                    (Dashboard.DashboardCache.setData c1 t1 source (inj d)
                       (Dashboard.DashboardCache.getTTL source)) t1 Hne) as H2.
      destruct (Dashboard.DashboardCache.getData _ t1 source) as [ce c3]; cbn [fst snd] in *.
      rewrite H2. unfold Dashboard.DashboardCache.setData.
      cbn [Dashboard.DashboardCache.dataCache].
      now rewrite JsMapFacts.get_set_other.
Qed.

(** The settlement of a fetch, and what it does to the fetch module,
    depend on the handler's cache through the entry of its source only. *)
Lemma fetchWithCache_ext source (fetchFn : S -> (exn + T) * S) fallback t0 t1 c c' s :
  JsMap.get (Dashboard.DashboardCache.dataCache c) source
  = JsMap.get (Dashboard.DashboardCache.dataCache c') source ->
  fst (fst (Dashboard.fetchWithCache inj cast source fetchFn fallback t0 t1 c s))
  = fst (fst (Dashboard.fetchWithCache inj cast source fetchFn fallback t0 t1 c' s))
  /\ snd (Dashboard.fetchWithCache inj cast source fetchFn fallback t0 t1 c s)
     = snd (Dashboard.fetchWithCache inj cast source fetchFn fallback t0 t1 c' s).
Proof.
  intros Heq. unfold Dashboard.fetchWithCache.
  assert (Hfst : fst (Dashboard.DashboardCache.getData c t0 source)
                 = fst (Dashboard.DashboardCache.getData c' t0 source)).
  { unfold Dashboard.DashboardCache.getData. rewrite Heq.
    destruct (JsMap.get (Dashboard.DashboardCache.dataCache c') source) as [it|];
      [|reflexivity].
    destruct (t0 >? Dashboard.expires it); reflexivity. }
  destruct (Dashboard.DashboardCache.getData c t0 source) as [r1 c1].
  destruct (Dashboard.DashboardCache.getData c' t0 source) as [r2 c2].
  cbn [fst] in Hfst. subst r2. destruct r1 as [e|]; cbn [fst snd].
  - split; reflexivity.
  - destruct (fetchFn s) as [[err|d] s1]; cbn [fst snd]; [split; reflexivity|].
    rewrite !SourceCache.getData_fresh
      by (pose proof (SourceCache.getTTL_nonneg source); lia).
    split; reflexivity.
Qed.
End Generic.

Section Facts.
Context `{JsRuntime}.

(** X13: within [fetchAllData] each source is fetched as if it were alone:
    the energy and weather values and the states of their fetch modules
    are those that the energy fetch and the weather fetch produce on the
    cache as the request found it, whatever the production fetch (and, for
    weather, the energy fetch) did before them, be it a hit, a live value,
    a fallback or a raised error. *)
Theorem sources_are_isolated :
  forall env up clk w,
    let all := fst (Dashboard.fetchAllData env up clk w) in
    let w' := snd (Dashboard.fetchAllData env up clk w) in
    let alone {T S} (r : (exn + Dashboard.Fetched T) * Dashboard.DashboardCache.t * S)
              (fallback : T) : T :=
      match fst (fst r) with inr v => Dashboard.value v | inl _ => fallback end in
    Dashboard.allProduction all
    = alone (Dashboard.fetchProduction env up clk (Dashboard.cache w) (Dashboard.fredCache w))
            Dashboard.fallbackProduction
    /\ Dashboard.allEnergy all
       = alone (Dashboard.fetchEnergy env up clk (Dashboard.cache w) (Dashboard.eiaCache w))
               Dashboard.fallbackEnergy
    /\ Dashboard.allWeather all
       = alone (Dashboard.fetchWeather env up clk (Dashboard.cache w) (Dashboard.weatherCache w))
               Dashboard.fallbackWeather
    /\ Dashboard.eiaCache w'
       = snd (Dashboard.fetchEnergy env up clk (Dashboard.cache w) (Dashboard.eiaCache w))
    /\ Dashboard.weatherCache w'
       = snd (Dashboard.fetchWeather env up clk (Dashboard.cache w) (Dashboard.weatherCache w)).
Proof.
  intros env up clk w all w' alone. subst all w' alone.
  unfold Dashboard.fetchAllData.
  pose proof (fun k' Hne =>
                @fetchWithCache_other _ _ Dashboard.OfProduction Dashboard.asProduction "fred"
                  (FetchFred.getProductionIndex (Dashboard.fred_t0 clk) (Dashboard.fred_t1 clk)
                     (Dashboard.FRED_API_KEY env) (Dashboard.fred up))
                  Dashboard.fallbackProduction (Dashboard.fred_t0 clk) (Dashboard.fred_t1 clk)
                  (Dashboard.cache w) (Dashboard.fredCache w) k' Hne) as Hp.
  fold (Dashboard.fetchProduction env up clk (Dashboard.cache w) (Dashboard.fredCache w)) in Hp.
  destruct (Dashboard.fetchProduction env up clk (Dashboard.cache w) (Dashboard.fredCache w))
    as [[rp c1] s1]. cbn [fst snd] in Hp.
  pose proof (fun k' Hne =>
                @fetchWithCache_other _ _ Dashboard.OfEnergy Dashboard.asEnergy "eia"
                  (FetchEia.getEnergyPrice (Dashboard.eia_t0 clk) (Dashboard.eia_t1 clk)
                     (Dashboard.EIA_API_KEY env) (Dashboard.eia up))
                  Dashboard.fallbackEnergy (Dashboard.eia_t0 clk) (Dashboard.eia_t1 clk)
                  c1 (Dashboard.eiaCache w) k' Hne) as He.
  fold (Dashboard.fetchEnergy env up clk c1 (Dashboard.eiaCache w)) in He.
  destruct (@fetchWithCache_ext _ _ Dashboard.OfEnergy Dashboard.asEnergy "eia"
              (FetchEia.getEnergyPrice (Dashboard.eia_t0 clk) (Dashboard.eia_t1 clk)
                 (Dashboard.EIA_API_KEY env) (Dashboard.eia up))
              Dashboard.fallbackEnergy (Dashboard.eia_t0 clk) (Dashboard.eia_t1 clk)
              c1 (Dashboard.cache w) (Dashboard.eiaCache w)
              (Hp "eia" ltac:(discriminate))) as [Ee1 Ee2].
  fold (Dashboard.fetchEnergy env up clk c1 (Dashboard.eiaCache w)) in Ee1, Ee2.
  fold (Dashboard.fetchEnergy env up clk (Dashboard.cache w) (Dashboard.eiaCache w))
    in Ee1, Ee2.
  destruct (Dashboard.fetchEnergy env up clk c1 (Dashboard.eiaCache w)) as [[re c2] s2].
  cbn [fst snd] in He, Ee1, Ee2.
  destruct (@fetchWithCache_ext _ _ Dashboard.OfWeather Dashboard.asWeather "weather"
              (FetchWeather.getLocalWeather (Dashboard.weather_t0 clk)
                 (Dashboard.weather_t1 clk)
                 (Dashboard.WEATHER_API_KEY env) (Dashboard.openWeather up))
              Dashboard.fallbackWeather (Dashboard.weather_t0 clk) (Dashboard.weather_t1 clk)
              c2 (Dashboard.cache w) (Dashboard.weatherCache w)
              ltac:(rewrite (He "weather") by discriminate;
                    apply (Hp "weather"); discriminate)) as [Ew1 Ew2].
  fold (Dashboard.fetchWeather env up clk c2 (Dashboard.weatherCache w)) in Ew1, Ew2.
  fold (Dashboard.fetchWeather env up clk (Dashboard.cache w) (Dashboard.weatherCache w))
    in Ew1, Ew2.
  destruct (Dashboard.fetchWeather env up clk c2 (Dashboard.weatherCache w)) as [[rw c3] s3].
  cbn [fst snd] in Ew1, Ew2.
  cbn [fst snd Dashboard.eiaCache Dashboard.weatherCache Dashboard.settleAll
       Dashboard.allProduction Dashboard.allEnergy Dashboard.allWeather].
  rewrite <- Ee1, <- Ee2, <- Ew1, <- Ew2.
  repeat split; reflexivity.
Qed.
End Facts.
End Isolation.

(** ** Trends computed by the production and energy fetchers *)

Module Trends.

Lemma Qlt_bool_iff x y : Js.Qlt_bool x y = true <-> (x < y)%Q.
Proof.
  unfold Js.Qlt_bool. rewrite negb_true_iff. split.
  - intros Hf. apply Qnot_le_lt. intros Hle. apply Qle_bool_iff in Hle. congruence.
  - intros Hlt. destruct (Qle_bool y x) eqn:E; [|reflexivity].
    apply Qle_bool_iff in E. exfalso. exact (Qlt_not_le _ _ Hlt E).
Qed.

Lemma Qlt_bool_ext a b c d :
  ((a < b)%Q <-> (c < d)%Q) -> Js.Qlt_bool a b = Js.Qlt_bool c d.
Proof.
  intros Hiff.
  destruct (Js.Qlt_bool a b) eqn:E1, (Js.Qlt_bool c d) eqn:E2; try reflexivity.
  - apply Qlt_bool_iff, Hiff, Qlt_bool_iff in E1. congruence.
  - apply Qlt_bool_iff, Hiff, Qlt_bool_iff in E2. congruence.
Qed.

(** The percent change against a positive previous value, cleared of its
    division. *)
Lemma percent_above (c l p : Q) :
  (0 < p)%Q -> ((c < (l - p) / p * 100)%Q <-> (c * p < (l - p) * 100)%Q).
Proof.
  intros Hp.
  assert (Hm : ((l - p) / p * 100 * p == (l - p) * 100)%Q) by (field; lra).
  rewrite <- (Qmult_lt_r c ((l - p) / p * 100) p Hp). now rewrite Hm.
Qed.

Lemma percent_below (c l p : Q) :
  (0 < p)%Q -> (((l - p) / p * 100 < c)%Q <-> ((l - p) * 100 < c * p)%Q).
Proof.
  intros Hp.
  assert (Hm : ((l - p) / p * 100 * p == (l - p) * 100)%Q) by (field; lra).
  rewrite <- (Qmult_lt_r ((l - p) / p * 100) c p Hp). now rewrite Hm.
Qed.

Section Facts.
Context `{JsRuntime}.

(** X14: the energy trend compares the newest price with the one before
    it when that one is positive: up exactly when the newest price exceeds
    it by more than 2 percent, down exactly when it falls short of it by
    more than 2 percent, stable otherwise, a change of exactly 2 percent
    included. With a single price, or a previous price that is not
    positive, the trend is stable. *)
Theorem energy_trend_thresholds :
  forall (latestPrice : Q) (newest second : FetchEia.EiaDataPoint)
         (rest : list FetchEia.EiaDataPoint),
    let previous := FetchEia.priceOf second in
    ((0 < previous)%Q ->
     FetchEia.trendOf latestPrice (newest :: second :: rest)
     = if Js.Qlt_bool (previous * 102) (latestPrice * 100) then up
       else if Js.Qlt_bool (latestPrice * 100) (previous * 98) then down
       else stable)
    /\ ((previous <= 0)%Q ->
        FetchEia.trendOf latestPrice (newest :: second :: rest) = stable)
    /\ FetchEia.trendOf latestPrice [newest] = stable
    /\ FetchEia.trendOf latestPrice [] = stable.
Proof.
  intros latestPrice newest second rest previous.
  split; [|split; [|split; reflexivity]].
  - intros Hp. unfold FetchEia.trendOf. fold previous.
    rewrite (proj2 (Qlt_bool_iff 0 previous) Hp).
    rewrite (@Qlt_bool_ext 2 ((latestPrice - previous) / previous * 100)
               (previous * 102) (latestPrice * 100)).
    2:{ rewrite (@percent_above 2 latestPrice previous Hp). split; intros; lra. }
    rewrite (@Qlt_bool_ext ((latestPrice - previous) / previous * 100) (-2)
               (latestPrice * 100) (previous * 98)).
    2:{ rewrite (@percent_below (-2) latestPrice previous Hp). split; intros; lra. }
    reflexivity.
  - intros Hp. unfold FetchEia.trendOf. fold previous.
    destruct (Js.Qlt_bool 0 previous) eqn:E; [|reflexivity].
    apply Qlt_bool_iff in E. exfalso. exact (Qlt_not_le _ _ E Hp).
Qed.

(** X15: the production trend label. With a previous observation that
    parses to a positive number, the label is a glyph, a space, the
    magnitude of the percent change to one decimal and the suffix MoM; the
    glyph is the up arrow exactly when the newest value is greater, the
    down arrow exactly when it is smaller, the right arrow when both are
    equal. With fewer than two valid observations, or a previous one that
    does not parse or is zero, the label is the no-data text. *)
Theorem production_trend_label :
  forall (latestValue : Q) (newest second : FetchFred.FredObservation)
         (rest : list FetchFred.FredObservation),
    (forall previous,
        parseFloat (FetchFred.value second) = Some previous ->
        (0 < previous)%Q ->
        FetchFred.trendOf latestValue (newest :: second :: rest)
        = (if Js.Qlt_bool previous latestValue then "↑"
           else if Js.Qlt_bool latestValue previous then "↓" else "→")
          ++ " "
          ++ toFixed1 (Qabs ((latestValue - previous) / previous * 100))
          ++ "% MoM")
    /\ (parseFloat (FetchFred.value second) = None ->
        FetchFred.trendOf latestValue (newest :: second :: rest) = "→ No data")
    /\ (forall previous,
        parseFloat (FetchFred.value second) = Some previous ->
        (previous == 0)%Q ->
        FetchFred.trendOf latestValue (newest :: second :: rest) = "→ No data")
    /\ FetchFred.trendOf latestValue [newest] = "→ No data"
    /\ FetchFred.trendOf latestValue [] = "→ No data".
Proof.
  intros latestValue newest second rest.
  split; [|split; [|split; [|split; reflexivity]]].
  - intros previous Hparse Hp. unfold FetchFred.trendOf. rewrite Hparse.
    assert (Hnz : Qeq_bool previous 0 = false).
    { destruct (Qeq_bool previous 0) eqn:E; [|reflexivity].
      apply Qeq_bool_iff in E. rewrite E in Hp. discriminate. }
    rewrite Hnz. cbn [negb].
    rewrite (@Qlt_bool_ext 0 ((latestValue - previous) / previous * 100)
               previous latestValue).
    2:{ rewrite (@percent_above 0 latestValue previous Hp). split; intros; lra. }
    rewrite (@Qlt_bool_ext ((latestValue - previous) / previous * 100) 0
               latestValue previous).
    2:{ rewrite (@percent_below 0 latestValue previous Hp). split; intros; lra. }
    reflexivity.
  - intros Hparse. unfold FetchFred.trendOf. now rewrite Hparse.
  - intros previous Hparse Hz. unfold FetchFred.trendOf. rewrite Hparse.
    apply Qeq_bool_iff in Hz. now rewrite Hz.
Qed.
End Facts.

(** X14 at a rise from 12.5 to 12.75, which is exactly 2 percent. *)
Lemma energy_trend_thresholds_witness :
  FetchEia.trendOf (1275 # 100)
    [{| FetchEia.period := "2024-02"; FetchEia.value := Some (1275 # 100) |};
     {| FetchEia.period := "2024-01"; FetchEia.value := Some (125 # 10) |}]
  = stable.
Proof.
  rewrite (proj1 (@energy_trend_thresholds (1275 # 100)
                    {| FetchEia.period := "2024-02"; FetchEia.value := Some (1275 # 100) |}
                    {| FetchEia.period := "2024-01"; FetchEia.value := Some (125 # 10) |}
                    [])).
  - reflexivity.
  - reflexivity.
Defined.

(** X15 at a rise from 102.0 to 103.5. *)
Lemma production_trend_label_witness :
  @FetchFred.trendOf Sample.runtime (1035 # 10)
    [{| FetchFred.date := "2024-02-01"; FetchFred.value := "103.5" |};
     {| FetchFred.date := "2024-01-01"; FetchFred.value := "102.0" |}]
  = "↑ 1.5% MoM".
Proof.
  rewrite (proj1 (@production_trend_label Sample.runtime (1035 # 10)
                    {| FetchFred.date := "2024-02-01"; FetchFred.value := "103.5" |}
                    {| FetchFred.date := "2024-01-01"; FetchFred.value := "102.0" |} [])
             (102 # 1) eq_refl eq_refl).
  reflexivity.
Defined.
End Trends.

(** ** Extraction of the JSON object from the text of a response *)

Module JsonExtraction.

Lemma includes_single_cons a r c :
  Js.includes (String a r) (String c EmptyString) = Ascii.eqb a c || Js.includes r (String c EmptyString).
Proof.
  cbn [Js.includes String.prefix].
  destruct (ascii_dec c a) as [->|Hne].
  - rewrite Ascii.eqb_refl. now destruct r.
  - destruct (Ascii.eqb a c) eqn:E; [|reflexivity].
    apply Ascii.eqb_eq in E. congruence.
Qed.

Lemma includes_single_empty c : Js.includes EmptyString (String c EmptyString) = false.
Proof. reflexivity. Qed.

Lemma from_first_exact c pre t :
  Js.includes pre (String c EmptyString) = false ->
  Js.from_first c (pre ++ String c t) = Some (String c t).
Proof.
  induction pre as [|a pre IH]; cbn [append Js.from_first]; intros Hno.
  - now rewrite Ascii.eqb_refl.
  - rewrite includes_single_cons in Hno. apply orb_false_iff in Hno as [Ha Hr].
    rewrite Ha. now apply IH.
Qed.

Lemma from_first_sound c s t :
  Js.from_first c s = Some t ->
  exists pre r, s = pre ++ t /\ t = String c r /\ Js.includes pre (String c EmptyString) = false.
Proof.
  induction s as [|a s IH]; cbn [Js.from_first]; [discriminate|].
  destruct (Ascii.eqb a c) eqn:E.
  - intros Heq. inversion Heq. subst t. apply Ascii.eqb_eq in E. subst a.
    exists EmptyString, s. repeat split.
  - intros Hs. destruct (IH Hs) as (pre & r & -> & -> & Hno).
    exists (String a pre), r. repeat split.
    rewrite includes_single_cons, E. exact Hno.
Qed.

Lemma from_first_none c s :
  Js.from_first c s = None -> Js.includes s (String c EmptyString) = false.
Proof.
  induction s as [|a s IH]; cbn [Js.from_first]; [reflexivity|].
  destruct (Ascii.eqb a c) eqn:E; [discriminate|].
  intros Hs. rewrite includes_single_cons, E. now apply IH.
Qed.

Lemma upto_last_none c s :
  Js.upto_last c s = None <-> Js.includes s (String c EmptyString) = false.
Proof.
  induction s as [|a s IH]; cbn [Js.upto_last]; [split; reflexivity|].
  rewrite includes_single_cons.
  destruct (Js.upto_last c s) as [p|].
  - split; [discriminate|]. intros Hno. apply orb_false_iff in Hno as [_ Hr].
    apply IH in Hr. discriminate.
  - destruct (Ascii.eqb a c); cbn [orb].
    + split; discriminate.
    + split; intros _; [now apply IH | reflexivity].
Qed.

Lemma upto_last_exact c body post :
  Js.includes post (String c EmptyString) = false ->
  Js.upto_last c (body ++ String c post) = Some (body ++ String c EmptyString).
Proof.
  intros Hno. apply upto_last_none in Hno.
  induction body as [|a body IH]; cbn [append Js.upto_last].
  - rewrite Hno, Ascii.eqb_refl. reflexivity.
  - now rewrite IH.
Qed.

Lemma upto_last_sound c s p :
  Js.upto_last c s = Some p ->
  exists body post, s = p ++ post /\ p = body ++ String c EmptyString
                    /\ Js.includes post (String c EmptyString) = false.
Proof.
  revert p. induction s as [|a s IH]; cbn [Js.upto_last]; intros p; [discriminate|].
  destruct (Js.upto_last c s) as [q|] eqn:E.
  - intros Heq. inversion Heq. subst p.
    destruct (IH q eq_refl) as (body & post & -> & -> & Hno).
    exists (String a body), post. repeat split. exact Hno.
  - destruct (Ascii.eqb a c) eqn:Ea; [|discriminate].
    intros Heq. inversion Heq. subst p. apply Ascii.eqb_eq in Ea. subst a.
    exists EmptyString, s. repeat split. now apply upto_last_none.
Qed.

Lemma append_assoc (a b c : string) : (a ++ b) ++ c = a ++ (b ++ c).
Proof. induction a as [|x a IH]; cbn [append]; [reflexivity | now rewrite IH]. Qed.

Lemma includes_app_char c front post :
  Js.includes (front ++ String c post) (String c EmptyString) = true.
Proof.
  induction front as [|b front IH]; cbn [append]; rewrite includes_single_cons.
  - now rewrite Ascii.eqb_refl.
  - rewrite IH. apply orb_true_r.
Qed.

Lemma upto_last_some c front post :
  exists p, Js.upto_last c (front ++ String c post) = Some p.
Proof.
  destruct (Js.upto_last c (front ++ String c post)) as [p|] eqn:E; [eauto|].
  apply upto_last_none in E. rewrite includes_app_char in E. discriminate.
Qed.

Lemma from_first_some c pre t :
  exists mid, Js.from_first c (pre ++ String c t) = Some (String c (mid ++ t)).
Proof.
  induction pre as [|a pre IH]; cbn [append Js.from_first].
  - rewrite Ascii.eqb_refl. now exists EmptyString.
  - destruct (Ascii.eqb a c) eqn:E; [|exact IH].
    apply Ascii.eqb_eq in E. subst a. exists (pre ++ String c EmptyString).
    now rewrite append_assoc.
Qed.

Lemma match_braces_complete pre body post :
  exists m, Js.match_braces (pre ++ "{" ++ body ++ "}" ++ post) = Some m.
Proof.
  unfold Js.match_braces.
  change ("{" ++ body ++ "}" ++ post) with (String "{"%char (body ++ String "}"%char post)).
  destruct (from_first_some "{"%char pre (body ++ String "}"%char post)) as [mid ->].
  rewrite <- append_assoc.
  destruct (upto_last_some "}"%char (mid ++ body) post) as [p ->]. eauto.
Qed.

(** The match on a text made of a prefix without opening brace, a braced
    part and a suffix without closing brace. *)
Lemma match_braces_exact pre body post :
  Js.includes pre "{" = false ->
  Js.includes post "}" = false ->
  Js.match_braces (pre ++ "{" ++ body ++ "}" ++ post) = Some ("{" ++ body ++ "}").
Proof.
  intros Hpre Hpost. unfold Js.match_braces.
  change ("{" ++ body ++ "}" ++ post) with (String "{"%char (body ++ String "}"%char post)).
  rewrite (from_first_exact "{"%char pre _ Hpre : _ = _).
  rewrite (upto_last_exact "}"%char body post Hpost : _ = _).
  reflexivity.
Qed.

(** X16: the pattern that [parseClaudeResponse] applies to the text of a
    response selects the part from the first opening brace to the last
    closing brace: on a text made of a prefix without opening brace, a
    braced part and a suffix without closing brace it yields exactly the
    braced part; every match it yields splits the text in this way; and
    it yields no match exactly on the texts that have no closing brace
    after an opening one. *)
Theorem match_braces_spec :
  (forall pre body post,
      Js.includes pre "{" = false ->
      Js.includes post "}" = false ->
      Js.match_braces (pre ++ "{" ++ body ++ "}" ++ post) = Some ("{" ++ body ++ "}"))
  /\ (forall s m,
      Js.match_braces s = Some m ->
      exists pre body post,
        s = pre ++ m ++ post /\ m = "{" ++ body ++ "}"
        /\ Js.includes pre "{" = false /\ Js.includes post "}" = false)
  /\ (forall s,
      Js.match_braces s = None <->
      forall pre body post, s <> pre ++ "{" ++ body ++ "}" ++ post).
Proof.
  split; [exact match_braces_exact|]. 
  assert (Hsound : forall s m,
             Js.match_braces s = Some m ->
             exists pre body post,
               s = pre ++ m ++ post /\ m = "{" ++ body ++ "}"
               /\ Js.includes pre "{" = false /\ Js.includes post "}" = false).
  { intros s m. unfold Js.match_braces.
    destruct (Js.from_first "{"%char s) as [[|a r]|] eqn:Ef; try discriminate.
    destruct (Js.upto_last "}"%char r) as [p|] eqn:El; [|discriminate].
    intros Heq. inversion Heq. subst m.
    destruct (from_first_sound _ _ Ef) as (pre & r' & -> & Hr & Hpre).
    inversion Hr. subst a r'.
    destruct (upto_last_sound _ _ El) as (body & post & -> & -> & Hpost).
    exists pre, body, post. split; [|split; [reflexivity | split; assumption]].
    cbn [append]. now rewrite !append_assoc. }
  split; [exact Hsound|].
  intros s. split.
  - intros Hnone pre body post ->.
    destruct (match_braces_complete pre body post) as [m Hm]. congruence.
  - intros Hall. destruct (Js.match_braces s) as [m|] eqn:E; [|reflexivity].
    destruct (Hsound s m E) as (pre & body & post & -> & -> & _).
    exfalso. apply (Hall pre body post). now rewrite !append_assoc.
Qed.

Section Facts.
Context `{JsRuntime}.

(** X17: [parseClaudeResponse] looks at the braced part only: prose before
    the first opening brace and after the last closing brace changes
    neither whether the response is accepted nor the insight read from
    it. *)
Theorem surrounding_prose_ignored :
  forall pre body post,
    Js.includes pre "{" = false ->
    Js.includes post "}" = false ->
    FetchInsight.parseClaudeResponse (pre ++ "{" ++ body ++ "}" ++ post)
    = FetchInsight.parseClaudeResponse ("{" ++ body ++ "}").
Proof.
  intros pre body post Hpre Hpost. unfold FetchInsight.parseClaudeResponse.
  rewrite (match_braces_exact pre body post Hpre Hpost).
  pose proof (match_braces_exact EmptyString body EmptyString eq_refl eq_refl) as Hm.
  cbn [append] in Hm.
  replace (body ++ "}" ++ EmptyString) with (body ++ "}") in Hm
    by (clear; induction body as [|b body IH]; cbn [append]; [reflexivity | now rewrite IH at 1]).
  cbn [append]. now rewrite Hm.
Qed.
End Facts.

(** X16 on a reply with prose around the object. *)
Lemma match_braces_spec_witness :
  Js.match_braces "Here you go: {insight} Hope it helps." = Some "{insight}".
Proof.
  exact (proj1 match_braces_spec "Here you go: " "insight" " Hope it helps."
           eq_refl eq_refl).
Defined.

(** X17 on the same reply. *)
Lemma surrounding_prose_ignored_witness :
  @FetchInsight.parseClaudeResponse Sample.runtime "Here you go: {insight} Hope it helps."
  = Some Sample.earlier.
Proof.
  exact (eq_trans (@surrounding_prose_ignored Sample.runtime "Here you go: " "insight"
                     " Hope it helps." eq_refl eq_refl) eq_refl).
Defined.
End JsonExtraction.

(** ** Clearing and inspecting the fetch-module caches *)

Module CacheUtilities.
Section Generic.
Context {V : Type}.
Variable KEY : string.
Variable TTL : Z.

Lemma cachedData_after_clear (c : @NullableCache.t V) now now' later :
  fst (NullableCache.cachedData KEY (NullableCache.clearCache KEY c now now') later) = None.
Proof.
  unfold NullableCache.clearCache.
  destruct (NullableCache.cachedData KEY c now) as [[d|] c1] eqn:Hc.
  - unfold NullableCache.cachedData, SimpleCache.get, SimpleCache.set.
    rewrite JsMapFacts.get_set_same.
    cbn [SimpleCache.expires SimpleCache.data].
    destruct (later >? now' + 0); reflexivity.
  - revert Hc. unfold NullableCache.cachedData, SimpleCache.get.
    destruct (JsMap.get c KEY) as [it|] eqn:E.
    + destruct (now >? SimpleCache.expires it).
      * intros Heq. inversion Heq. now rewrite JsMapFacts.get_delete_same.
      * destruct (SimpleCache.data it) as [d|] eqn:Ed; intros Heq; inversion Heq.
        subst c1. rewrite E.
        destruct (later >? SimpleCache.expires it); [reflexivity|].
        now rewrite Ed.
    + intros Heq. inversion Heq. subst c1. now rewrite E.
Qed.

(** After a clearing, the fetcher body goes to the [try] block. *)
Lemma fetchThrough_after_clear missing fallback attempt t0 t1 key
      (c : @NullableCache.t V) now now' :
  Spec.credential key = true ->
  fst (NullableCache.fetchThrough KEY TTL missing fallback attempt t0 t1 key
         (NullableCache.clearCache KEY c now now'))
  = match attempt with inr r => inr r | inl _ => inr fallback end.
Proof.
  intros Hk. unfold NullableCache.fetchThrough.
  pose proof (cachedData_after_clear c now now' t0) as Hmiss.
  destruct (NullableCache.cachedData KEY (NullableCache.clearCache KEY c now now') t0)
    as [r c1]. cbn [fst] in Hmiss. subst r.
  destruct key as [k|]; simpl in Hk; [|discriminate].
  destruct (String.eqb k EmptyString); [discriminate|].
  destruct attempt; reflexivity.
Qed.

Lemma cacheStatus_of_stored (c : @NullableCache.t V) t1 d now now' :
  let c1 := SimpleCache.set c t1 KEY (Some d) TTL in
  (now <= t1 + TTL ->
   NullableCache.cacheStatus KEY TTL c1 now now' = (Some (now' + TTL), c1))
  /\ (now > t1 + TTL ->
      NullableCache.cacheStatus KEY TTL c1 now now' = (None, JsMap.delete c1 KEY)).
Proof.
  intros c1. subst c1. unfold NullableCache.cacheStatus, NullableCache.cachedData.
  split; intros Ht.
  - now rewrite TtlCache.SimpleCache_fresh.
  - now rewrite TtlCache.SimpleCache_expired.
Qed.

(** Lookups, insertions and deletions commute with the embedding of a
    cache without cleared entries. *)
Lemma get_inject (c : SimpleCache.t V) k :
  JsMap.get (NullableCache.inject c) k
  = option_map (fun it => {| SimpleCache.data := Some (SimpleCache.data it);
                             SimpleCache.expires := SimpleCache.expires it |})
      (JsMap.get c k).
Proof.
  induction c as [|[k0 it] c IH]; cbn; [reflexivity|].
  destruct (String.eqb k0 k); [reflexivity | exact IH].
Qed.

Lemma delete_inject (c : SimpleCache.t V) k :
  JsMap.delete (NullableCache.inject c) k = NullableCache.inject (JsMap.delete c k).
Proof.
  induction c as [|[k0 it] c IH]; [reflexivity|].
  unfold JsMap.delete, NullableCache.inject in *. cbn [map filter fst snd].
  destruct (String.eqb k0 k); cbn [negb map fst snd]; [exact IH | now rewrite IH].
Qed.

Lemma set_inject (c : SimpleCache.t V) t k d ttl :
  SimpleCache.set (NullableCache.inject c) t k (Some d) ttl
  = NullableCache.inject (SimpleCache.set c t k d ttl).
Proof.
  unfold SimpleCache.set, NullableCache.inject.
  induction c as [|[k0 it] c IH]; [reflexivity|].
  cbn [map JsMap.set fst snd].
  destruct (String.eqb k0 k); cbn [map fst snd SimpleCache.data SimpleCache.expires];
    [reflexivity | now rewrite IH].
Qed.

Lemma cachedData_inject (c : SimpleCache.t V) t :
  NullableCache.cachedData KEY (NullableCache.inject c) t
  = (fst (SimpleCache.get c t KEY), NullableCache.inject (snd (SimpleCache.get c t KEY))).
Proof.
  unfold NullableCache.cachedData, SimpleCache.get. rewrite get_inject.
  destruct (JsMap.get c KEY) as [it|]; cbn; [|reflexivity].
  destruct (t >? SimpleCache.expires it); cbn; [|reflexivity].
  now rewrite delete_inject.
Qed.
End Generic.

Section Facts.
Context `{JsRuntime}.

(** X18: [clearWeatherCache] and [clearEnergyPriceCache] force a fresh
    retrieval: after either of them, at whatever time it ran and whatever
    the cache held, the next call of the fetcher with a credential does
    not answer from the cache but with the outcome of the upstream call,
    the live value or, if that call fails, the fallback literal. *)
Theorem clear_forces_refetch :
  (forall cache now now' t0 t1 key up,
      Spec.credential key = true ->
      fst (WeatherModule.getLocalWeather t0 t1 key up
             (WeatherModule.clearWeatherCache cache now now'))
      = match FetchWeather.tryFetch up with
        | inr result => inr result
        | inl _ => inr (WeatherData.mk 75 "Weather data unavailable")
        end)
  /\ (forall cache now now' t0 t1 key up,
      Spec.credential key = true ->
      fst (EnergyModule.getEnergyPrice t0 t1 key up
             (EnergyModule.clearEnergyPriceCache cache now now'))
      = match FetchEia.tryFetch up with
        | inr result => inr result
        | inl _ => inr (EnergyData.mk (125 # 10) stable)
        end).
Proof.
  split; intros cache now now' t0 t1 key up Hk.
  - unfold WeatherModule.getLocalWeather, WeatherModule.clearWeatherCache.
    apply (@fetchThrough_after_clear WeatherData.t); exact Hk.
  - unfold EnergyModule.getEnergyPrice, EnergyModule.clearEnergyPriceCache.
    apply (@fetchThrough_after_clear EnergyData.t); exact Hk.
Qed.

(** X19: [getWeatherCacheStatus] on a value stored at time [t1] and
    inspected at time [now]: up to the end of the fifteen minutes it
    reports cached, with an [expiresAt] of fifteen minutes from the time
    of asking, which is later than the real expiry of the entry by the
    age of the entry; after the fifteen minutes it reports not cached and,
    by asking, evicts the entry. *)
Theorem weather_status_of_stored_value :
  forall (cache : WeatherModule.Cache) (t1 : Z) (d : WeatherData.t) (now now' : Z),
    let c1 := SimpleCache.set cache t1 FetchWeather.CACHE_KEY (Some d) FetchWeather.CACHE_TTL in
    let realExpiry :=
      match JsMap.get c1 FetchWeather.CACHE_KEY with
      | Some it => SimpleCache.expires it
      | None => 0
      end in
    (now <= t1 + 15 * 60 * 1000 ->
     exists expiresAt,
       WeatherModule.getWeatherCacheStatus c1 now now' = (Some expiresAt, c1)
       /\ expiresAt = now' + 15 * 60 * 1000
       /\ expiresAt - realExpiry = now' - t1)
    /\ (now > t1 + 15 * 60 * 1000 ->
        WeatherModule.getWeatherCacheStatus c1 now now'
        = (None, JsMap.delete c1 FetchWeather.CACHE_KEY)).
Proof.
  intros cache t1 d now now' c1 realExpiry.
  destruct (cacheStatus_of_stored FetchWeather.CACHE_KEY FetchWeather.CACHE_TTL
              cache t1 d now now') as [Hfresh Hold].
  split.
  - intros Hle. exists (now' + 15 * 60 * 1000). split; [|split].
    + apply Hfresh. exact Hle.
    + reflexivity.
    + subst realExpiry c1. unfold SimpleCache.set.
      rewrite JsMapFacts.get_set_same. cbn [SimpleCache.expires].
      unfold FetchWeather.CACHE_TTL. lia.
  - intros Hgt. apply Hold. exact Hgt.
Qed.

(** Consistency of the two readings of the fetch modules: on caches that
    hold no cleared entry, the fetchers over the nullable cache settle as
    the fetchers over the plain one and leave the same cache. *)
Lemma nullable_fetchers_agree :
  (forall t0 t1 key up (cache : SimpleCache.t WeatherData.t),
      WeatherModule.getLocalWeather t0 t1 key up (NullableCache.inject cache)
      = (fst (FetchWeather.getLocalWeather t0 t1 key up cache),
         NullableCache.inject (snd (FetchWeather.getLocalWeather t0 t1 key up cache))))
  /\ (forall t0 t1 key up (cache : SimpleCache.t EnergyData.t),
      EnergyModule.getEnergyPrice t0 t1 key up (NullableCache.inject cache)
      = (fst (FetchEia.getEnergyPrice t0 t1 key up cache),
         NullableCache.inject (snd (FetchEia.getEnergyPrice t0 t1 key up cache)))).
Proof.
  split; intros t0 t1 key up cache.
  - unfold WeatherModule.getLocalWeather, NullableCache.fetchThrough,
      FetchWeather.getLocalWeather.
    rewrite cachedData_inject.
    destruct (SimpleCache.get cache t0 FetchWeather.CACHE_KEY) as [[d|] c1]; cbn [fst snd];
      [reflexivity|].
    destruct key as [k|]; [|reflexivity].
    destruct (String.eqb k EmptyString); [reflexivity|].
    destruct (FetchWeather.tryFetch up); cbn [fst snd]; [reflexivity|].
    now rewrite set_inject.
  - unfold EnergyModule.getEnergyPrice, NullableCache.fetchThrough,
      FetchEia.getEnergyPrice.
    rewrite cachedData_inject.
    destruct (SimpleCache.get cache t0 FetchEia.CACHE_KEY) as [[d|] c1]; cbn [fst snd];
      [reflexivity|].
    destruct key as [k|]; [|reflexivity].
    destruct (String.eqb k EmptyString); [reflexivity|].
    destruct (FetchEia.tryFetch up); cbn [fst snd]; [reflexivity|].
    now rewrite set_inject.
Qed.
End Facts.

(** X18 on a weather value cached at time 10 and cleared at time 500. *)
Lemma clear_forces_refetch_witness :
  let c1 := snd (WeatherModule.getLocalWeather 0 10 (Some "weather-key") Sample.weatherOk
                   JsMap.empty) in
  fst (WeatherModule.getLocalWeather 600 610 (Some "weather-key") Sample.timeout
         (WeatherModule.clearWeatherCache c1 500 501))
  = inr (WeatherData.mk 75 "Weather data unavailable").
Proof.
  intros c1.
  exact (proj1 (@clear_forces_refetch Sample.runtime) c1 500 501 600 610 (Some "weather-key")
           Sample.timeout eq_refl).
Defined.

(** X19 on a value stored at time 10 and inspected five minutes later. *)
Lemma weather_status_of_stored_value_witness :
  let c1 := SimpleCache.set (JsMap.empty : WeatherModule.Cache) 10 FetchWeather.CACHE_KEY
              (Some (WeatherData.mk 72 "none")) FetchWeather.CACHE_TTL in
  exists expiresAt,
    WeatherModule.getWeatherCacheStatus c1 300010 300011 = (Some expiresAt, c1)
    /\ expiresAt = 300011 + 15 * 60 * 1000
    /\ expiresAt - 900010 = 300011 - 10.
Proof.
  intros c1.
  refine (proj1 (weather_status_of_stored_value JsMap.empty 10
                   (WeatherData.mk 72 "none") 300010 300011) _).
  vm_compute. discriminate.
Defined.
End CacheUtilities.

(** ** The time stamps behind [lastFetched] *)

Module SourceStamps.
Section Facts.
Context `{JsRuntime}.

(** X22: the time stamp that each source contributes to [lastFetched].
    [fetchWithCache] reports, for a source found unexpired in the
    handler's cache, the fetch time stored with the entry; for a source
    fetched live, the time of storing; for a source whose fetch function
    raised, the time of the failure, with the fallback value. The
    response's [lastFetched] is the maximum of the three stamps so
    reported, none left out. *)
Theorem lastFetched_from_three_stamps :
  (forall (T S : Type) (inj : T -> Dashboard.SourceData)
          (cast : Dashboard.SourceData -> T) source (fetchFn : S -> (exn + T) * S)
          fallback t0 t1 cache s,
      let settled :=
        fst (fst (Dashboard.fetchWithCache inj cast source fetchFn fallback t0 t1 cache s)) in
      (forall entry,
          JsMap.get (Dashboard.DashboardCache.dataCache cache) source = Some entry ->
          t0 <= Dashboard.expires entry ->
          settled = inr {| Dashboard.value := cast (Dashboard.data entry);
                           Dashboard.fetchedAt := Dashboard.lastFetched entry |})
      /\ (forall d s1,
          fst (Dashboard.DashboardCache.getData cache t0 source) = None ->
          fetchFn s = (inr d, s1) ->
          settled = inr {| Dashboard.value := d; Dashboard.fetchedAt := t1 |})
      /\ (forall e s1,
          fst (Dashboard.DashboardCache.getData cache t0 source) = None ->
          fetchFn s = (inl e, s1) ->
          settled = inr {| Dashboard.value := fallback; Dashboard.fetchedAt := t1 |}))
  /\ (forall env up clk w,
      exists rp re rw c1 c2 c3 s1 s2 s3,
        Dashboard.fetchProduction env up clk (Dashboard.cache w) (Dashboard.fredCache w)
        = (inr rp, c1, s1)
        /\ Dashboard.fetchEnergy env up clk c1 (Dashboard.eiaCache w) = (inr re, c2, s2)
        /\ Dashboard.fetchWeather env up clk c2 (Dashboard.weatherCache w) = (inr rw, c3, s3)
        /\ Dashboard.allLastFetched (fst (Dashboard.fetchAllData env up clk w))
           = Z.max (Z.max (Dashboard.fetchedAt rp) (Dashboard.fetchedAt re))
                   (Dashboard.fetchedAt rw)).
Proof.
  split.
  - intros T S inj cast source fetchFn fallback t0 t1 cache s settled. subst settled.
    split; [|split].
    + intros entry Hget Hle.
      erewrite SourceCache.fetchWithCache_hit
        by (apply WarmRequest.getData_hit; eassumption).
      reflexivity.
    + intros d s1 Hmiss Hf.
      erewrite SourceCache.fetchWithCache_live by eassumption. reflexivity.
    + intros e s1 Hmiss Hf.
      erewrite LastFetched.fetchWithCache_failure_stamp by eassumption. reflexivity.
  - intros env up clk w.
    destruct (LastFetched.fetchProduction_settles env up clk (Dashboard.cache w)
                (Dashboard.fredCache w)) as (rp & c1 & s1 & Hp).
    destruct (LastFetched.fetchEnergy_settles env up clk c1 (Dashboard.eiaCache w))
      as (re & c2 & s2 & He).
    destruct (LastFetched.fetchWeather_settles env up clk c2 (Dashboard.weatherCache w))
      as (rw & c3 & s3 & Hw).
    exists rp, re, rw, c1, c2, c3, s1, s2, s3.
    repeat (split; [assumption|]).
    unfold Dashboard.fetchAllData. rewrite Hp, He, Hw. reflexivity.
Qed.
End Facts.

(** X22 on a second request without a production credential: production
    fails at 5000 and contributes that time, energy is found in the cache
    and contributes its stored fetch time 1000. *)
Lemma lastFetched_from_three_stamps_witness :
  let w := Sample.warmWorld in
  let clk := Sample.secondClock in
  fst (fst (@Dashboard.fetchProduction Sample.runtime (Sample.keys None) Sample.allDown clk
              (Dashboard.cache w) (Dashboard.fredCache w)))
  = inr {| Dashboard.value := Dashboard.fallbackProduction; Dashboard.fetchedAt := 5000 |}
  /\ exists v,
       fst (fst (@Dashboard.fetchEnergy Sample.runtime (Sample.keys None) Sample.allDown clk
                   (Dashboard.cache w) (Dashboard.eiaCache w)))
       = inr {| Dashboard.value := v; Dashboard.fetchedAt := 1000 |}.
Proof.
  intros w clk.
  pose proof (proj1 (@lastFetched_from_three_stamps Sample.runtime)) as Hsrc.
  split.
  - refine (proj2 (proj2 (Hsrc _ _ Dashboard.OfProduction Dashboard.asProduction "fred"
                            (@FetchFred.getProductionIndex Sample.runtime 4000 5000 None
                               Sample.timeout)
                            Dashboard.fallbackProduction 4000 5000
                            (Dashboard.cache w) (Dashboard.fredCache w)))
                  (Error "FRED_API_KEY environment variable is required") JsMap.empty _ _);
      reflexivity.
  - eexists.
    refine (proj1 (Hsrc _ _ Dashboard.OfEnergy Dashboard.asEnergy "eia"
                     (@FetchEia.getEnergyPrice Sample.runtime 4000 4000 None Sample.timeout)
                     Dashboard.fallbackEnergy 4000 4000
                     (Dashboard.cache w) (Dashboard.eiaCache w))
                  {| Dashboard.data := Dashboard.OfEnergy _;
                     Dashboard.lastFetched := 1000;
                     Dashboard.expires := 1000 + 10 * 60 * 1000 |} _ _).
    + reflexivity.
    + vm_compute. discriminate.
Defined.
End SourceStamps.
